(** * host-scanner: the host file-system and process sensors

    A shallow embedding of the sensor package of host-scanner
    ([sensor/controlplanesensor.go], [sensor/osreleasesensor.go], the
    kubelet sensor) together with the parts of Go's [path] and [strings]
    packages they call.

    Go strings are byte sequences, so they are [string]s here (an [ascii]
    is one byte); a [[]byte] is a [string] as well.  A Go pointer that may
    be nil is an [option]; a nil slice is [None]. *)

From Stdlib Require Import String Ascii List Bool Arith Lia ZArith.
Import ListNotations.
Local Open Scope string_scope.
Local Open Scope list_scope.

Set Implicit Arguments.
Set Warnings "-register-all".

(** ** Go's [strings] package *)

Module strings.

(** [strings.HasPrefix(s, prefix)]. *)
Definition HasPrefix (s pre : string) : bool := String.prefix pre s.

(** [s[n:]] for [n <= len(s)]. *)
Fixpoint drop (n : nat) (s : string) : string :=
  match n, s with
  | O, _ => s
  | S n', String _ s' => drop n' s'
  | S _, EmptyString => EmptyString
  end.

(** [strings.HasSuffix(s, suffix)]:
    [len(s) >= len(suffix) && s[len(s)-len(suffix):] == suffix]. *)
Definition HasSuffix (s suf : string) : bool :=
  (String.length suf <=? String.length s)%nat
  && String.eqb (drop (String.length s - String.length suf) s) suf.

(** [strings.Join(elems, sep)]. *)
Fixpoint Join (elems : list string) (sep : string) : string :=
  match elems with
  | [] => ""
  | [e] => e
  | e :: rest => e ++ sep ++ Join rest sep
  end.

End strings.

(** ** Go's [path] package: [Clean] and [Join]

    [Clean] follows the source of the standard library byte by byte.  The
    output buffer [out] is kept reversed (its head is the byte written
    last), so that [out.w] is [length out]. *)

Module path.

Definition slash : ascii := "/"%char.
Definition dot : ascii := "."%char.

Definition is_slash (c : ascii) : bool := Ascii.eqb c slash.
Definition is_dot (c : ascii) : bool := Ascii.eqb c dot.

(** [r+1 == n || path[r+1] == '/'], on the bytes after [path[r]]. *)
Definition end_or_slash (rest : string) : bool :=
  match rest with
  | EmptyString => true
  | String c _ => is_slash c
  end.

(** The backtracking of a [..] element, after the first [out.w--]:
    [for out.w > dotdot && out.index(out.w) != '/' { out.w-- }].
    [last] is the byte at index [out.w], the one removed last. *)
Fixpoint backtrack (dotdot : nat) (last : ascii) (out : list ascii) : list ascii :=
  match out with
  | [] => []
  | c :: out' =>
      if (dotdot <? length out)%nat && negb (is_slash last)
      then backtrack dotdot c out'
      else out
  end.

(** The [..] case of the main loop: the new buffer and the new [dotdot]. *)
Definition dotdot_elem (rooted : bool) (out : list ascii) (dotdot : nat)
  : list ascii * nat :=
  if (dotdot <? length out)%nat then
    match out with
    | [] => ([], dotdot)
    | c :: out' => (backtrack dotdot c out', dotdot)
    end
  else if negb rooted then
    let out1 := if (0 <? length out)%nat then slash :: out else out in
    let out2 := dot :: dot :: out1 in
    (out2, length out2)
  else (out, dotdot).

(** Does a real path element need a separator before it?
    [rooted && out.w != 1 || !rooted && out.w != 0]. *)
Definition need_slash (rooted : bool) (out : list ascii) : bool :=
  (rooted && negb (length out =? 1)%nat)
  || (negb rooted && negb (length out =? 0)%nat).

(** The main loop [for r < n].  [inElem] is true while the inner loop
    that copies a real path element is running; that loop stops in front
    of a slash, which the next iteration of the main loop skips as an
    empty element. *)
Fixpoint clean_loop (rooted : bool) (p : string) (inElem : bool)
         (out : list ascii) (dotdot : nat) {struct p} : list ascii :=
  match p with
  | EmptyString => out
  | String c r =>
      if inElem then
        if is_slash c then clean_loop rooted r false out dotdot
        else clean_loop rooted r true (c :: out) dotdot
      else if is_slash c then
        clean_loop rooted r false out dotdot
      else if is_dot c && end_or_slash r then
        clean_loop rooted r false out dotdot
      else
        match r with
        | String c1 r1 =>
            if is_dot c && is_dot c1 && end_or_slash r1 then
              let (out', dotdot') := dotdot_elem rooted out dotdot in
              clean_loop rooted r1 false out' dotdot'
            else
              let out1 := if need_slash rooted out then slash :: out else out in
              clean_loop rooted r true (c :: out1) dotdot
        | EmptyString =>
            let out1 := if need_slash rooted out then slash :: out else out in
            clean_loop rooted r true (c :: out1) dotdot
        end
  end.

Definition buf_string (out : list ascii) : string :=
  string_of_list_ascii (rev out).

(** [path.Clean]. *)
Definition Clean (p : string) : string :=
  match p with
  | EmptyString => "."
  | String c r =>
      let rooted := is_slash c in
      let out :=
        if rooted then clean_loop true r false [slash] 1
        else clean_loop false p false [] 0 in
      match out with
      | [] => "."
      | _ => buf_string out
      end
  end.

(** The buffer that [path.Join] fills: the non-empty elements (and the
    empty ones after the first byte was written), separated by slashes. *)
Fixpoint join_buf (buf : string) (elem : list string) : string :=
  match elem with
  | [] => buf
  | e :: rest =>
      if negb (String.eqb buf "") || negb (String.eqb e "") then
        join_buf ((if negb (String.eqb buf "") then buf ++ "/" else buf) ++ e) rest
      else join_buf buf rest
  end.

(** [path.Join]. *)
Definition Join (elem : list string) : string :=
  if (fold_right (fun e n => String.length e + n) 0 elem =? 0)%nat then ""
  else Clean (join_buf "" elem).

(** A path element without a slash that does not start with a dot. *)
Fixpoint no_slash (w : string) : bool :=
  match w with
  | EmptyString => true
  | String c w' => negb (is_slash c) && no_slash w'
  end.

Definition plain_elem (w : string) : bool :=
  match w with
  | EmptyString => false
  | String c _ => negb (is_dot c) && no_slash w
  end.

End path.

(** The last byte of a string. *)
Fixpoint last_byte (s : string) : option ascii :=
  match s with
  | EmptyString => None
  | String c EmptyString => Some c
  | String _ s' => last_byte s'
  end.

(** ** Errors

    A Go [error] value.  [fmt_Errorf_w msg e] is [fmt.Errorf(msg + ": %w", e)];
    the sentinel errors are built with [errors.New], and a wrapped error is
    never equal to a sentinel. *)

Inductive error : Type :=
| errors_New (msg : string)
| fmt_Errorf_w (msg : string) (wrapped : error)
| SenseError (Massage Function : string) (Code : Z).

Definition ErrDataDirNotFound : error := errors_New "failed to find etcd data-dir".

(** [http.StatusNotFound]. *)
Definition http_StatusNotFound : Z := 404.

(** ** Effects: the log, the file-system accesses and panics

    The sensors log through zap and touch the host through [os.Open],
    [os.ReadFile], stat and directory listing.  Each of these is recorded
    as an [Event], in the order the program performs them.  A run either
    returns a value or panics (a nil pointer dereference). *)

Inductive Level := DebugLevel | WarnLevel | ErrorLevel.

Inductive Event : Type :=
| Log (lvl : Level) (msg : string)
| OpenAt (realPath : string)
| ReadFileAt (realPath : string)
| StatAt (realPath : string)
| ReadDirAt (realPath : string).

Inductive Outcome (A : Type) : Type :=
| Returned (a : A) (events : list Event)
| Panicked (events : list Event).
Arguments Panicked {A} events.

Definition ret {A} (a : A) : Outcome A := Returned a [].

Definition bind {A B} (m : Outcome A) (k : A -> Outcome B) : Outcome B :=
  match m with
  | Returned a e1 =>
      match k a with
      | Returned b e2 => Returned b (e1 ++ e2)
      | Panicked e2 => Panicked (e1 ++ e2)
      end
  | Panicked e1 => Panicked e1
  end.

Notation "x <- c1 ;; c2" := (bind c1 (fun x => c2))
  (at level 61, c1 at next level, right associativity).
Notation "c1 ;;; c2" := (bind c1 (fun _ => c2))
  (at level 61, right associativity).

Definition emit (e : Event) : Outcome unit := Returned tt [e].
Definition zap_Debug (msg : string) : Outcome unit := emit (Log DebugLevel msg).
Definition zap_Warn (msg : string) : Outcome unit := emit (Log WarnLevel msg).
Definition zap_Error (msg : string) : Outcome unit := emit (Log ErrorLevel msg).

(** A runtime panic: invalid memory address or nil pointer dereference. *)
Definition panic {A} : Outcome A := Panicked [].

Definition events_of {A} (m : Outcome A) : list Event :=
  match m with
  | Returned _ e => e
  | Panicked e => e
  end.

Definition is_warning (e : Event) : bool :=
  match e with
  | Log WarnLevel _ => true
  | _ => false
  end.

Definition is_log (e : Event) : bool :=
  match e with
  | Log _ _ => true
  | _ => false
  end.

(** A run that returns, and a run that panics. *)
Definition returns {A} (m : Outcome A) : Prop :=
  exists a evs, m = Returned a evs.

Definition panics {A} (m : Outcome A) : Prop :=
  exists evs, m = Panicked evs.

(** ** Data model *)

(** Modelled from the spec: the type [ProcessDetails], declared in another
    file of the package; section 3 gives it a PID, the resolved executable
    path and the raw command-line tokens. *)
Record ProcessDetails : Type := {
  PID : Z;
  ExecutablePath : string;
  Cmdline : list string
}.

(** Modelled from the spec: the type [FileInfo], declared in another file of
    the package; section 3 gives it the logical path, the optional content,
    the ownership, the permission bits and the directory flag. *)
Record FileInfo : Type := {
  Path : string;
  Content : option string;
  Ownership : Z * Z;
  Permission : Z;
  IsDirectory : bool
}.

Record K8sProcessInfo : Type := {
  SpecsFile : option FileInfo;
  ConfigFile : option FileInfo;
  KubeConfigFile : option FileInfo;
  ClientCAFile : option FileInfo;
  CmdLine : string
}.

Record ApiServerInfo : Type := {
  EncryptionProviderConfigFile : option FileInfo;
  ApiServerInfo_K8sProcessInfo : option K8sProcessInfo
}.

Record ControlPlaneInfo : Type := {
  APIServerInfo : option ApiServerInfo;
  ControllerManagerInfo : option K8sProcessInfo;
  SchedulerInfo : option K8sProcessInfo;
  EtcdConfigFile : option FileInfo;
  EtcdDataDir : option FileInfo;
  AdminConfigFile : option FileInfo;
  PKIDIr : option FileInfo;
  PKIFiles : option (list FileInfo);
  CNIConfigFiles : option (list FileInfo);
  CNIConfigPath : string
}.

Record KubeletInfo : Type := {
  ServiceFiles : option (list FileInfo);
  KubeletInfo_ConfigFile : option FileInfo;
  KubeletInfo_KubeConfigFile : option FileInfo;
  KubeletInfo_ClientCAFile : option FileInfo;
  KubeletInfo_CmdLine : string
}.

(** The result of [getContainerRuntimeCNIPaths]; only [Conf_dir] is used. *)
Record CNIPaths : Type := { Conf_dir : string }.

(** A decoded YAML document, as [map[string]interface{}] holds it. *)
Inductive yaml : Type :=
| YMap (fields : list (string * yaml))
| YString (s : string)
| YOther.

(** ** The host

    The file system the agent sees is a tree.  [perm_ok] tells whether the
    agent may open the node (and, for a directory, list and traverse it). *)

Inductive FsNode : Type :=
| FsFile (uid gid mode : Z) (perm_ok : bool) (content : string)
| FsDir (uid gid mode : Z) (perm_ok : bool) (entries : list (string * FsNode)).

Record Host : Type := {
  (** the host root, [hostFileSystemDefaultLocation] *)
  HostFileSystemDefaultLocation : string;
  (** the native process table, in enumeration order *)
  processTable : list ProcessDetails;
  (** the file system, from [/] *)
  fileSystem : FsNode;
  (** constants declared in other files of the package *)
  maxRecursionDepth : nat;
  kubeConfigArgName : string;
  (** helpers and decoders defined in other files, by their results *)
  getContainerRuntimeCNIPaths : option CNIPaths;
  getKubeletServiceFiles : Z -> list string * option error;
  makeContaineredFileInfo : string -> bool -> ProcessDetails -> option FileInfo * option error;
  yaml_Unmarshal : string -> list (string * yaml) * option error
}.

(** ** Path resolution and the file-system primitives *)

(** The resolution of a logical host path, as the sensors write it
    ([getOsReleaseFile], [getAppArmorStatus], [getSELinuxStatus]):
    [path.Join(HostFileSystemDefaultLocation, logicalPath)].  It is a pure
    string transform whose result is a path; there is no error result. *)
Definition Resolve (hostRoot logicalPath : string) : string :=
  path.Join [hostRoot; logicalPath].

Definition hostPath (h : Host) (logicalPath : string) : string :=
  Resolve (HostFileSystemDefaultLocation h) logicalPath.

(** The resolution in the words of section 4.1 of the spec: concatenate,
    normalize, and fail with InvalidPath if the normalized result does not
    remain a descendant of the host root. *)
Inductive ResolveResult : Type :=
| Resolved (realPath : string)
| InvalidPath.

(** [p] is the (normalized) root or lies below it. *)
Definition is_descendant (hostRoot p : string) : bool :=
  let r := path.Clean hostRoot in
  String.eqb p r
  || strings.HasPrefix p (if String.eqb r "/" then r else r ++ "/").

Definition Resolve_spec (hostRoot logicalPath : string) : ResolveResult :=
  let normalized := path.Clean (hostRoot ++ logicalPath) in
  if is_descendant hostRoot normalized then Resolved normalized else InvalidPath.

(** The elements of a path: the runs of bytes between slashes. *)
Fixpoint split_elems (p : string) (cur : string) : list string :=
  match p with
  | EmptyString => [cur]
  | String c r =>
      if path.is_slash c then cur :: split_elems r ""
      else split_elems r (cur ++ String c "")
  end.

Definition is_real_elem (e : string) : bool :=
  negb (String.eqb e "") && negb (String.eqb e ".").

Definition path_elems (p : string) : list string :=
  filter is_real_elem (split_elems p "").

Fixpoint assoc {A} (k : string) (l : list (string * A)) : option A :=
  match l with
  | [] => None
  | (k', v) :: l' => if String.eqb k k' then Some v else assoc k l'
  end.

(** Name resolution in the tree; it fails on a missing entry, below a file,
    and below a directory the agent may not traverse. *)
Fixpoint fs_lookup (n : FsNode) (elems : list string) : option FsNode :=
  match elems with
  | [] => Some n
  | e :: rest =>
      match n with
      | FsDir _ _ _ true entries =>
          match assoc e entries with
          | Some child => fs_lookup child rest
          | None => None
          end
      | _ => None
      end
  end.

Definition fs_at (h : Host) (realPath : string) : option FsNode :=
  fs_lookup (fileSystem h) (path_elems realPath).

Definition node_perm_ok (n : FsNode) : bool :=
  match n with
  | FsFile _ _ _ ok _ => ok
  | FsDir _ _ _ ok _ => ok
  end.

Definition node_is_dir (n : FsNode) : bool :=
  match n with
  | FsFile _ _ _ _ _ => false
  | FsDir _ _ _ _ _ => true
  end.

(** [os.Open(realPath)]: only the error matters to the sensors. *)
Definition os_Open (h : Host) (realPath : string) : Outcome (option error) :=
  emit (OpenAt realPath) ;;;
  match fs_at h realPath with
  | Some n => if node_perm_ok n then ret None
              else ret (Some (errors_New "permission denied"))
  | None => ret (Some (errors_New "no such file or directory"))
  end.

(** [os.ReadFile(realPath)]. *)
Definition os_ReadFile (h : Host) (realPath : string)
  : Outcome (option string * option error) :=
  emit (ReadFileAt realPath) ;;;
  match fs_at h realPath with
  | Some (FsFile _ _ _ true content) => ret (Some content, None)
  | Some (FsFile _ _ _ false _) => ret (None, Some (errors_New "permission denied"))
  | Some (FsDir _ _ _ _ _) => ret (None, Some (errors_New "is a directory"))
  | None => ret (None, Some (errors_New "no such file or directory"))
  end.

(** Modelled from the spec: [ReadFileOnHostFileSystem], defined in another
    file of the package; section 6 has the host file system read with path
    translation through the host root. *)
Definition ReadFileOnHostFileSystem (h : Host) (fileName : string)
  : Outcome (option string * option error) :=
  os_ReadFile h (hostPath h fileName).

(** ** ArgParser and ProcessLocator *)

(** Modelled from the spec: [GetArg], defined in another file of the package.
    Section 4.2: it scans the tokens for one exactly equal to [name] and
    returns the token after it, or for a single token [name=value]; it
    returns [found = false] if neither form is present. *)
Fixpoint GetArg_tokens (tokens : list string) (name : string) : string * bool :=
  match tokens with
  | [] => ("", false)
  | tok :: rest =>
      if String.eqb tok name then
        match rest with
        | value :: _ => (value, true)
        | [] => ("", false)
        end
      else if strings.HasPrefix tok (name ++ "=") then
        (strings.drop (String.length name + 1) tok, true)
      else GetArg_tokens rest name
  end.

Definition GetArg (p : ProcessDetails) (name : string) : string * bool :=
  GetArg_tokens (Cmdline p) name.

(** Modelled from the spec: [RawCmd], defined in another file of the package.
    Section 4.2: it joins all tokens with a single space each. *)
Definition RawCmd (p : ProcessDetails) : string :=
  strings.Join (Cmdline p) " ".

Definition ErrProcessNotFound : error :=
  errors_New "no process with given suffix found".

(** Modelled from the spec: [LocateProcessByExecSuffix], defined in another
    file of the package.  Section 4.2: it returns the first process of the
    table whose resolved executable ends with the suffix, and fails with
    ProcessNotFound (a nil handle and an error) after a full scan. *)
Definition LocateProcessByExecSuffix (h : Host) (suffix : string)
  : option ProcessDetails * option error :=
  match find (fun p => strings.HasSuffix (ExecutablePath p) suffix) (processTable h) with
  | Some p => (Some p, None)
  | None => (None, Some ErrProcessNotFound)
  end.

(** A method call or a field access through a pointer: the pointer is read,
    so a nil pointer panics. *)
Definition deref {A} (p : option A) : Outcome A :=
  match p with
  | Some d => ret d
  | None => panic
  end.

(** ** FileInspector *)

Definition node_FileInfo (logicalPath : string) (readContent : bool) (n : FsNode)
  : FileInfo :=
  match n with
  | FsFile uid gid mode ok content =>
      {| Path := logicalPath;
         Content := if readContent && ok then Some content else None;
         Ownership := (uid, gid); Permission := mode; IsDirectory := false |}
  | FsDir uid gid mode _ _ =>
      {| Path := logicalPath; Content := None;
         Ownership := (uid, gid); Permission := mode; IsDirectory := true |}
  end.

(** Modelled from the spec: [makeHostFileInfo], defined in another file of
    the package.  Section 4.3: it stats the resolved path; if the target does
    not exist or cannot be accessed it yields nil (with the error its
    callers test); else it fills ownership and permission, and the content
    when that is requested and the target is a readable regular file. *)
Definition makeHostFileInfo (h : Host) (logicalPath : string) (readContent : bool)
  : Outcome (option FileInfo * option error) :=
  let realPath := hostPath h logicalPath in
  emit (StatAt realPath) ;;;
  match fs_at h realPath with
  | None => ret (None, Some (errors_New "stat failed"))
  | Some n =>
      (if readContent && negb (node_is_dir n) then emit (ReadFileAt realPath)
       else ret tt) ;;;
      ret (Some (node_FileInfo logicalPath readContent n), None)
  end.

(** Modelled from the spec: [makeHostFileInfoVerbose], defined in another
    file of the package.  Section 4.3: a failed inspection returns nil and records
    a warning. *)
Definition makeHostFileInfoVerbose (h : Host) (logicalPath : string) (readContent : bool)
  : Outcome (option FileInfo) :=
  r <- makeHostFileInfo h logicalPath readContent ;;
  match snd r with
  | Some _ => zap_Warn "failed to MakeHostFileInfo" ;;; ret (fst r)
  | None => ret (fst r)
  end.

(** ** DirectoryWalker *)

(** The message of the truncation warning, spelled as the test of the
    walker filters it. *)
Definition maxDepthExceededMsg : string := "max recusrion depth exceeded".

Definition is_truncation_warning (e : Event) : bool :=
  match e with
  | Log WarnLevel msg => String.eqb msg maxDepthExceededMsg
  | _ => false
  end.

(** The number of truncation warnings among the events of a run. *)
Definition truncation_warnings (evs : list Event) : nat :=
  List.length (List.filter is_truncation_warning evs).

Section Walker.

Variable h : Host.
Variable recursive : bool.
Variable filter : option (string -> bool).

Definition keep (name : string) : bool :=
  match filter with
  | None => true
  | Some f => f name
  end.

(** The loop over the entries of the directory [dir]; [descend] is the
    recursive call on a subdirectory. *)
Definition walk_entries
           (descend : FsNode -> string -> Outcome (option (list FileInfo) * option error))
           (dir : string)
  : list (string * FsNode) -> Outcome (list FileInfo) :=
  fix loop (es : list (string * FsNode)) : Outcome (list FileInfo) :=
    match es with
    | [] => ret []
    | (name, child) :: rest =>
        let filePath := path.Join [dir; name] in
        emit (StatAt (hostPath h filePath)) ;;;
        here <-
          match child with
          | FsFile _ _ _ _ _ =>
              ret (if keep name then [node_FileInfo filePath false child] else [])
          | FsDir _ _ _ _ _ =>
              if recursive then
                sub <- descend child filePath ;;
                match sub with
                | (Some files, None) => ret files
                | _ => zap_Warn "failed to walk directory" ;;; ret []
                end
              else ret []
          end ;;
        more <- loop rest ;;
        ret (here ++ more)
    end.

(** Modelled from the spec: [makeHostDirFilesInfo], defined in another file
    of the package (its test is [Test_makeHostDirFilesInfo]).  Section
    4.4: once [currentDepth] reaches [maxRecursionDepth] the walker stops
    descending into that branch with a single warning; else it lists the
    directory, inspects every child, includes the files the filter keeps
    and, if [recursive], descends into the subdirectories with
    [currentDepth + 1].  A branch it cannot open is logged and skipped.
    [walk_node] is the call on a directory whose node is [n]. *)
Fixpoint walk_node (n : FsNode) (dir : string) (currentDepth : nat) {struct n}
  : Outcome (option (list FileInfo) * option error) :=
  if (maxRecursionDepth h <=? currentDepth)%nat then
    zap_Warn maxDepthExceededMsg ;;; ret (Some [], None)
  else
    match n with
    | FsDir _ _ _ true entries =>
        emit (ReadDirAt (hostPath h dir)) ;;;
        files <- walk_entries
                   (fun child filePath => walk_node child filePath (S currentDepth))
                   dir entries ;;
        ret (Some files, None)
    | _ => ret (None, Some (errors_New "failed to open dir"))
    end.

Definition makeHostDirFilesInfo (dir : string) (currentDepth : nat)
  : Outcome (option (list FileInfo) * option error) :=
  match fs_at h (hostPath h dir) with
  | Some n => walk_node n dir currentDepth
  | None => ret (None, Some (errors_New "failed to open dir"))
  end.

(** The walk in the words of the spec.  [files_within levels dir n]: the
    files reachable from the directory [n] within [levels] levels, the
    directory's own files being level 1. *)
Fixpoint files_within (levels : nat) (dir : string) (n : FsNode) : list FileInfo :=
  match levels with
  | O => []
  | S l =>
      match n with
      | FsDir _ _ _ true entries =>
          flat_map
            (fun e : string * FsNode =>
               let filePath := path.Join [dir; fst e] in
               match snd e with
               | FsFile _ _ _ _ _ =>
                   if keep (fst e) then [node_FileInfo filePath false (snd e)] else []
               | FsDir _ _ _ _ _ => files_within l filePath (snd e)
               end)
            entries
      | _ => []
      end
  end.

(** [truncated_branches levels dir n]: the directories that lie exactly
    [levels] levels below [dir] along openable directories, [dir] itself
    being at level 0; these are the branches the depth cap cuts. *)
Fixpoint truncated_branches (levels : nat) (dir : string) (n : FsNode) : list string :=
  match levels with
  | O => [dir]
  | S l =>
      match n with
      | FsDir _ _ _ true entries =>
          flat_map
            (fun e : string * FsNode =>
               match snd e with
               | FsFile _ _ _ _ _ => []
               | FsDir _ _ _ _ _ =>
                   truncated_branches l (path.Join [dir; fst e]) (snd e)
               end)
            entries
      | _ => []
      end
  end.

(** The value of a walk that has [levels] levels left. *)
Definition walk_value (levels : nat) (dir : string) (n : FsNode)
  : option (list FileInfo) * option error :=
  match levels, n with
  | O, _ => (Some [], None)
  | S _, FsDir _ _ _ true _ => (Some (files_within levels dir n), None)
  | S _, _ => (None, Some (errors_New "failed to open dir"))
  end.

End Walker.

(** The tree cut [levels] levels below a directory: the directories at that
    level are emptied. *)
Fixpoint prune (levels : nat) (n : FsNode) : FsNode :=
  match n with
  | FsFile _ _ _ _ _ => n
  | FsDir uid gid mode ok entries =>
      match levels with
      | O => FsDir uid gid mode ok []
      | S l => FsDir uid gid mode ok (map (fun e => (fst e, prune l (snd e))) entries)
      end
  end.

(** ** The control-plane sensor ([sensor/controlplanesensor.go]) *)

Definition apiServerExe : string := "/kube-apiserver".
Definition controllerManagerExe : string := "/kube-controller-manager".
Definition schedulerExe : string := "/kube-scheduler".
Definition etcdExe : string := "/etcd".
Definition etcdDataDirArg : string := "--data-dir".
Definition apiEncryptionProviderConfigArg : string := "--encryption-provider-config".

Definition apiServerSpecsPath : string := "/etc/kubernetes/manifests/kube-apiserver.yaml".
Definition controllerManagerSpecsPath : string := "/etc/kubernetes/manifests/kube-controller-manager.yaml".
Definition controllerManagerConfigPath : string := "/etc/kubernetes/controller-manager.conf".
Definition schedulerSpecsPath : string := "/etc/kubernetes/manifests/kube-scheduler.yaml".
Definition schedulerConfigPath : string := "/etc/kubernetes/scheduler.conf".
Definition etcdConfigPath : string := "/etc/kubernetes/manifests/etcd.yaml".
Definition adminConfigPath : string := "/etc/kubernetes/admin.conf".
Definition pkiDir : string := "/etc/kubernetes/pki".

(** [getEtcdDataDir]. *)
Definition getEtcdDataDir (h : Host) : Outcome (string * option error) :=
  let (proc, err) := LocateProcessByExecSuffix h etcdExe in
  match err with
  | Some e => ret ("", Some (fmt_Errorf_w "failed to locate kube-proxy process" e))
  | None =>
      p <- deref proc ;;
      let (dataDir, ok) := GetArg p etcdDataDirArg in
      if negb ok || String.eqb dataDir "" then ret ("", Some ErrDataDirNotFound)
      else ret (dataDir, None)
  end.

(** [K8sProcessInfo{}], the zero value. *)
Definition K8sProcessInfo_zero : K8sProcessInfo :=
  {| SpecsFile := None; ConfigFile := None; KubeConfigFile := None;
     ClientCAFile := None; CmdLine := "" |}.

(** [ret == (K8sProcessInfo{})]: the pointers are nil and the string empty. *)
Definition K8sProcessInfo_is_zero (r : K8sProcessInfo) : bool :=
  match SpecsFile r, ConfigFile r, KubeConfigFile r, ClientCAFile r with
  | None, None, None, None => String.eqb (CmdLine r) ""
  | _, _, _, _ => false
  end.

(** Assignments through the [data **FileInfo] pointers of the [files] slice. *)
Definition set_SpecsFile (v : option FileInfo) (r : K8sProcessInfo) : K8sProcessInfo :=
  {| SpecsFile := v; ConfigFile := ConfigFile r; KubeConfigFile := KubeConfigFile r;
     ClientCAFile := ClientCAFile r; CmdLine := CmdLine r |}.
Definition set_ConfigFile (v : option FileInfo) (r : K8sProcessInfo) : K8sProcessInfo :=
  {| SpecsFile := SpecsFile r; ConfigFile := v; KubeConfigFile := KubeConfigFile r;
     ClientCAFile := ClientCAFile r; CmdLine := CmdLine r |}.
Definition set_KubeConfigFile (v : option FileInfo) (r : K8sProcessInfo) : K8sProcessInfo :=
  {| SpecsFile := SpecsFile r; ConfigFile := ConfigFile r; KubeConfigFile := v;
     ClientCAFile := ClientCAFile r; CmdLine := CmdLine r |}.
Definition set_ClientCAFile (v : option FileInfo) (r : K8sProcessInfo) : K8sProcessInfo :=
  {| SpecsFile := SpecsFile r; ConfigFile := ConfigFile r; KubeConfigFile := KubeConfigFile r;
     ClientCAFile := v; CmdLine := CmdLine r |}.
Definition set_CmdLine (v : string) (r : K8sProcessInfo) : K8sProcessInfo :=
  {| SpecsFile := SpecsFile r; ConfigFile := ConfigFile r; KubeConfigFile := KubeConfigFile r;
     ClientCAFile := ClientCAFile r; CmdLine := v |}.

(** A [for] loop over a slice that updates an accumulator. *)
Fixpoint for_range {A S} (l : list A) (body : S -> A -> Outcome S) (s : S) : Outcome S :=
  match l with
  | [] => ret s
  | x :: l' => s' <- body s x ;; for_range l' body s'
  end.

(** [makeProcessInfoVerbose]. *)
Definition makeProcessInfoVerbose (h : Host) (p : option ProcessDetails)
           (specsPath configPath kubeConfigPath clientCaPath : string)
  : Outcome (option K8sProcessInfo) :=
  let files :=
    [ (set_SpecsFile, specsPath, "specs");
      (set_ConfigFile, configPath, "config");
      (set_KubeConfigFile, kubeConfigPath, "kubeconfig");
      (set_ClientCAFile, clientCaPath, "calient ca certificate") ] in
  info <- for_range files
            (fun info file =>
               let '(data, file_path, _) := file in
               if String.eqb file_path "" then ret info
               else
                 fi <- makeHostFileInfoVerbose h file_path false ;;
                 ret (data fi info))
            K8sProcessInfo_zero ;;
  let info := match p with
              | Some d => set_CmdLine (RawCmd d) info
              | None => info
              end in
  if K8sProcessInfo_is_zero info then ret None else ret (Some info).

(** [makeAPIserverEncryptionProviderConfigFile]. *)
Definition makeAPIserverEncryptionProviderConfigFile (h : Host) (p : option ProcessDetails)
  : Outcome (option FileInfo) :=
  d <- deref p ;;
  let (encryptionProviderConfigPath, ok) := GetArg d apiEncryptionProviderConfigArg in
  if negb ok then
    zap_Warn "failed to find encryption provider config path" ;;; ret None
  else
    let (fi, err) := makeContaineredFileInfo h encryptionProviderConfigPath true d in
    match err with
    | Some _ =>
        zap_Warn "failed to create encryption provider config file info" ;;; ret None
    | None => ret fi
    end.

Definition log_if_err (err : option error) (msg : string) : Outcome unit :=
  match err with
  | Some _ => zap_Error msg
  | None => ret tt
  end.

Definition is_nil {A} (o : option A) : bool :=
  match o with
  | None => true
  | Some _ => false
  end.

Definition ErrNotControlPlane : error :=
  SenseError "not a control plane node" "SenseControlPlaneInfo" http_StatusNotFound.

(** [SenseControlPlaneInfo], up to the last [if]: the evidence it collects
    into [ret]. *)
Definition collectControlPlaneInfo (h : Host) : Outcome ControlPlaneInfo :=
  let (apiProc, err1) := LocateProcessByExecSuffix h apiServerExe in
  log_if_err err1 "SenseControlPlaneInfo" ;;;
  let (controllerMangerProc, err2) := LocateProcessByExecSuffix h controllerManagerExe in
  log_if_err err2 "SenseControlPlaneInfo" ;;;
  let (SchedulerProc, err3) := LocateProcessByExecSuffix h schedulerExe in
  log_if_err err3 "SenseControlPlaneInfo" ;;;
  apiK8s <- makeProcessInfoVerbose h apiProc apiServerSpecsPath "" "" "" ;;
  apiEnc <- makeAPIserverEncryptionProviderConfigFile h apiProc ;;
  controllerManagerInfo <-
    makeProcessInfoVerbose h controllerMangerProc
      controllerManagerSpecsPath controllerManagerConfigPath "" "" ;;
  schedulerInfo <-
    makeProcessInfoVerbose h SchedulerProc schedulerSpecsPath schedulerConfigPath "" "" ;;
  etcdConfigFile <- makeHostFileInfoVerbose h etcdConfigPath false ;;
  adminConfigFile <- makeHostFileInfoVerbose h adminConfigPath false ;;
  pkiDIr <- makeHostFileInfoVerbose h pkiDir false ;;
  pki <- makeHostDirFilesInfo h true None pkiDir 0 ;;
  log_if_err (snd pki) "SenseControlPlaneInfo failed to get PKIFiles info" ;;;
  etcd <- getEtcdDataDir h ;;
  etcdDataDirInfo <-
    match snd etcd with
    | Some _ => zap_Error "SenseControlPlaneInfo" ;;; ret None
    | None => makeHostFileInfoVerbose h (fst etcd) false
    end ;;
  cni <-
    match getContainerRuntimeCNIPaths h with
    | None =>
        zap_Error "SenseControlPlaneInfo Failed to get CNI paths" ;;; ret (None, "")
    | Some cni_paths =>
        CNIConfigInfo <- makeHostDirFilesInfo h true None (Conf_dir cni_paths) 0 ;;
        match CNIConfigInfo with
        | (_, Some _) =>
            zap_Debug "SenseControlPlaneInfo failed to  makeHostDirFilesInfo for CNI Config files"
        | (files, None) =>
            if (List.length (match files with Some l => l | None => [] end) =? 0)%nat
            then zap_Debug "SenseControlPlaneInfo - no cni config files were found."
            else ret tt
        end ;;;
        ret (fst CNIConfigInfo, Conf_dir cni_paths)
    end ;;
  ret {| APIServerInfo :=
           Some {| EncryptionProviderConfigFile := apiEnc;
                   ApiServerInfo_K8sProcessInfo := apiK8s |};
         ControllerManagerInfo := controllerManagerInfo;
         SchedulerInfo := schedulerInfo;
         EtcdConfigFile := etcdConfigFile;
         EtcdDataDir := etcdDataDirInfo;
         AdminConfigFile := adminConfigFile;
         PKIDIr := pkiDIr;
         PKIFiles := fst pki;
         CNIConfigFiles := fst cni;
         CNIConfigPath := snd cni |}.

(** The nine fields that the last [if] of [SenseControlPlaneInfo] tests,
    once [ret.APIServerInfo] is dereferenced to [api]. *)
Definition no_evidence (api : ApiServerInfo) (info : ControlPlaneInfo) : bool :=
  is_nil (ApiServerInfo_K8sProcessInfo api)
  && is_nil (ControllerManagerInfo info)
  && is_nil (SchedulerInfo info)
  && is_nil (EtcdConfigFile info)
  && is_nil (EtcdDataDir info)
  && is_nil (AdminConfigFile info)
  && is_nil (PKIDIr info)
  && is_nil (PKIFiles info)
  && is_nil (CNIConfigFiles info).

(** [SenseControlPlaneInfo]. *)
Definition SenseControlPlaneInfo (h : Host) : Outcome (option ControlPlaneInfo * option error) :=
  info <- collectControlPlaneInfo h ;;
  api <- deref (APIServerInfo info) ;;
  if no_evidence api info then ret (None, Some ErrNotControlPlane)
  else ret (Some info, None).

(** ** The OS-release sensor ([sensor/osreleasesensor.go]) *)

Definition etcDirName : string := "/etc".
Definition osReleaseFileSuffix : string := "os-release".
Definition appArmorProfilesFileName : string := "/sys/kernel/security/apparmor/profiles".
Definition seLinuxConfigFileName : string := "/etc/selinux/semanage.conf".

Definition io_EOF : error := errors_New "EOF".

(** The text of an error, as [%v] formats it.  (The text of a [SenseError]
    is taken to be its message.) *)
Fixpoint error_text (e : error) : string :=
  match e with
  | errors_New msg => msg
  | fmt_Errorf_w msg wrapped => msg ++ ": " ++ error_text wrapped
  | SenseError msg _ _ => msg
  end.

(** [fmt.Errorf(msg + ": %v", e)]: the cause is formatted into the text and
    not wrapped. *)
Definition fmt_Errorf_v (msg : string) (e : error) : error :=
  errors_New (msg ++ ": " ++ error_text e).

(** [f.Readdirnames(n)] with [n > 0], on an open directory whose names not
    yet read are [remaining]: the next names, at most [n], and the names
    left; at the end of the directory, no name and [io.EOF]. *)
Definition Readdirnames (n : nat) (remaining : list string)
  : list string * option error * list string :=
  match remaining with
  | [] => ([], Some io_EOF, [])
  | _ => (firstn n remaining, None, skipn n remaining)
  end.

(** The two nested loops of [getOsReleaseFile]: batches of 100 names are
    read until one fails; the first name of a batch that ends with
    [os-release] is returned.  Every batch but the last shortens
    [remaining], so [fuel] above its length is never used up. *)
Fixpoint readdir_find (realPath : string) (fuel : nat) (remaining : list string)
  : Outcome (string * option error) :=
  match fuel with
  | O => ret ("", Some io_EOF)
  | S fuel' =>
      emit (ReadDirAt realPath) ;;;
      let '(etcSons, err, rest) := Readdirnames 100 remaining in
      match err with
      | Some e => ret ("", Some e)
      | None =>
          match find (fun name => strings.HasSuffix name osReleaseFileSuffix) etcSons with
          | Some name => zap_Debug "os release file found" ;;; ret (name, None)
          | None => readdir_find realPath fuel' rest
          end
      end
  end.

(** [getOsReleaseFile]. *)
Definition getOsReleaseFile (h : Host) : Outcome (string * option error) :=
  let hostEtcDir := path.Join [HostFileSystemDefaultLocation h; etcDirName] in
  err <- os_Open h hostEtcDir ;;
  match err with
  | Some e => ret ("", Some (fmt_Errorf_v "failed to open etc dir" e))
  | None =>
      match fs_at h hostEtcDir with
      | Some (FsDir _ _ _ _ entries) =>
          readdir_find hostEtcDir (S (List.length entries)) (map fst entries)
      | _ =>
          emit (ReadDirAt hostEtcDir) ;;; ret ("", Some (errors_New "not a directory"))
      end
  end.

(** [SenseOsRelease]. *)
Definition SenseOsRelease (h : Host) : Outcome (option string * option error) :=
  r <- getOsReleaseFile h ;;
  match snd r with
  | None => ReadFileOnHostFileSystem h (path.Join [etcDirName; fst r])
  | Some err => ret (Some "", Some (fmt_Errorf_v "failed to find os-release file" err))
  end.

(** [getAppArmorStatus]. *)
Definition getAppArmorStatus (h : Host) : Outcome string :=
  let statusStr := "unloaded" in
  let hostAppArmorProfilesFileName :=
    path.Join [HostFileSystemDefaultLocation h; appArmorProfilesFileName] in
  err <- os_Open h hostAppArmorProfilesFileName ;;
  match err with
  | None =>
      let statusStr := "stopped" in
      r <- ReadFileOnHostFileSystem h appArmorProfilesFileName ;;
      match r with
      | (Some content, None) =>
          if (0 <? String.length content)%nat then ret "running" else ret statusStr
      | _ => ret statusStr
      end
  | Some _ => ret statusStr
  end.

(** [getSELinuxStatus]. *)
Definition getSELinuxStatus (h : Host) : Outcome string :=
  let statusStr := "not found" in
  let hostAppArmorProfilesFileName :=
    path.Join [HostFileSystemDefaultLocation h; seLinuxConfigFileName] in
  err <- os_Open h hostAppArmorProfilesFileName ;;
  match err with
  | None =>
      r <- ReadFileOnHostFileSystem h appArmorProfilesFileName ;;
      match r with
      | (Some content, None) =>
          if (0 <? String.length content)%nat then ret content else ret statusStr
      | _ => ret statusStr
      end
  | Some _ => ret statusStr
  end.

(** The report of [SenseLinuxSecurityHardening]; the type is declared in
    another file of the package and has the two fields the sensor sets. *)
Record LinuxSecurityHardeningStatus : Type := {
  AppArmor : string;
  SeLinux : string
}.

(** [SenseLinuxSecurityHardening], with the encoder [json.Marshal] as a
    parameter. *)
Definition SenseLinuxSecurityHardening
           (json_Marshal : LinuxSecurityHardeningStatus -> option string * option error)
           (h : Host) : Outcome (option string * option error) :=
  appArmor <- getAppArmorStatus h ;;
  seLinux <- getSELinuxStatus h ;;
  ret (json_Marshal {| AppArmor := appArmor; SeLinux := seLinux |}).

(** ** The kubelet sensor *)

Definition kubeletProcessSuffix : string := "/kubelet".
Definition kubeletConfigArgName : string := "--config".
Definition kubeletClientCAArgName : string := "--client-ca-file".
Definition kubeletConfigDefaultPath : string := "/var/lib/kubelet/config.yaml".
Definition kubeletKubeConfigDefaultPath : string := "/etc/kubernetes/kubelet.conf".

Definition KubeletInfo_zero : KubeletInfo :=
  {| ServiceFiles := None; KubeletInfo_ConfigFile := None;
     KubeletInfo_KubeConfigFile := None; KubeletInfo_ClientCAFile := None;
     KubeletInfo_CmdLine := "" |}.

(** [LocateKubeletProcess]. *)
Definition LocateKubeletProcess (h : Host) : option ProcessDetails * option error :=
  LocateProcessByExecSuffix h kubeletProcessSuffix.

(** [makeKubeletServiceFilesInfo]. *)
Definition makeKubeletServiceFilesInfo (h : Host) (pid : Z) : Outcome (option (list FileInfo)) :=
  let (files, err) := getKubeletServiceFiles h pid in
  match err with
  | Some _ => zap_Warn "failed to getKubeletServiceFiles" ;;; ret None
  | None =>
      serviceFiles <-
        for_range files
          (fun serviceFiles file =>
             info <- makeHostFileInfoVerbose h file false ;;
             match info with
             | Some fi => ret (serviceFiles ++ [fi])
             | None => ret serviceFiles
             end)
          [] ;;
      if (List.length serviceFiles =? 0)%nat then ret None
      else ret (Some serviceFiles)
  end.

(** The type assertion [v.(map[string]interface{})] on a map entry. *)
Definition as_map (v : option yaml) : option (list (string * yaml)) :=
  match v with
  | Some (YMap fields) => Some fields
  | _ => None
  end.

(** The type assertion [v.(string)] on a map entry. *)
Definition as_string (v : option yaml) : option string :=
  match v with
  | Some (YString s) => Some s
  | _ => None
  end.

(** [kubeletExtractCAFileFromConf]. *)
Definition kubeletExtractCAFileFromConf (h : Host) (content : string)
  : string * option error :=
  let (confObj, err) := yaml_Unmarshal h content in
  match err with
  | Some e => ("", Some e)
  | None =>
      match as_map (assoc "authentication" confObj) with
      | None => ("", None)
      | Some auth =>
          match as_map (assoc "x509" auth) with
          | None => ("", None)
          | Some x509 =>
              match as_string (assoc "clientCAFile" x509) with
              | None => ("", None)
              | Some clientCAFile => (clientCAFile, None)
              end
          end
      end
  end.

(** [SenseKubeletInfo]. *)
Definition SenseKubeletInfo (h : Host) : Outcome (option KubeletInfo * option error) :=
  let (kubeletProcess, err) := LocateKubeletProcess h in
  match err with
  | Some e =>
      ret (Some KubeletInfo_zero, Some (fmt_Errorf_w "failed to LocateKubeletProcess" e))
  | None =>
      proc <- deref kubeletProcess ;;
      (* Service files *)
      serviceFiles <- makeKubeletServiceFilesInfo h (PID proc) ;;
      (* Kubelet config *)
      let configPath := kubeletConfigDefaultPath in
      let (p, ok) := GetArg proc kubeletConfigArgName in
      let configPath := if ok then p else configPath in
      config <- makeHostFileInfo h configPath true ;;
      let configInfo := fst config in
      retConfigFile <-
        match snd config with
        | None => ret configInfo
        | Some _ =>
            zap_Debug "SenseKubeletInfo failed to MakeHostFileInfo for kubelet config" ;;;
            ret None
        end ;;
      (* Kubelet kubeconfig *)
      let kubeConfigPath := kubeletConfigDefaultPath in
      let (p, ok) := GetArg proc (kubeConfigArgName h) in
      let kubeConfigPath := if ok then p else kubeConfigPath in
      kubeConfig <- makeHostFileInfo h kubeConfigPath false ;;
      retKubeConfigFile <-
        match snd kubeConfig with
        | None => ret (fst kubeConfig)
        | Some _ =>
            zap_Debug "SenseKubeletInfo failed to MakeHostFileInfo for kubelet kubeconfig" ;;;
            ret None
        end ;;
      (* Kubelet client ca certificate *)
      let (caFilePath, ok) := GetArg proc kubeletClientCAArgName in
      caFilePath <-
        match ok, configInfo with
        | false, Some ci =>
            match Content ci with
            | Some content =>
                zap_Error "extracting kubelet client ca certificate from config" ;;;
                let (extracted, err) := kubeletExtractCAFileFromConf h content in
                match err with
                | None => ret extracted
                | Some _ => ret caFilePath
                end
            | None => ret caFilePath
            end
        | _, _ => ret caFilePath
        end ;;
      retClientCAFile <-
        (if negb (String.eqb caFilePath "") then
           ca <- makeHostFileInfo h caFilePath false ;;
           match snd ca with
           | None => ret (fst ca)
           | Some _ =>
               zap_Debug "SenseKubeletInfo failed to MakeHostFileInfo for client ca file" ;;;
               ret None
           end
         else ret None) ;;
      ret (Some {| ServiceFiles := serviceFiles;
                   KubeletInfo_ConfigFile := retConfigFile;
                   KubeletInfo_KubeConfigFile := retKubeConfigFile;
                   KubeletInfo_ClientCAFile := retClientCAFile;
                   KubeletInfo_CmdLine := RawCmd proc |}, None)
  end.


(** [ReadKubeletConfig]. *)
Definition ReadKubeletConfig (h : Host) (kubeletConfArgs : string)
  : Outcome (option string * option error) :=
  r <- ReadFileOnHostFileSystem h kubeletConfArgs ;;
  zap_Debug "raw content" ;;;
  ret r.

(** [SenseKubeletConfigurations]. *)
Definition SenseKubeletConfigurations (h : Host) : Outcome (option string * option error) :=
  let (kubeletProcess, err) := LocateKubeletProcess h in
  match err with
  | Some e => ret (None, Some (fmt_Errorf_w "failed to LocateKubeletProcess" e))
  | None =>
      proc <- deref kubeletProcess ;;
      let (kubeletConfFileLocation, ok) := GetArg proc kubeletConfigArgName in
      if negb ok || String.eqb kubeletConfFileLocation "" then
        ret (None,
             Some (errors_New
                     "in SenseKubeletConfigurations failed to find kubelet config File location"))
      else
        zap_Debug "config loaction" ;;;
        ReadKubeletConfig h kubeletConfFileLocation
  end.

(** ** Example hosts *)

Definition dir (entries : list (string * FsNode)) : FsNode := FsDir 0 0 493 true entries.
Definition file (content : string) : FsNode := FsFile 0 0 420 true content.

Definition no_helpers_host (root : string) (procs : list ProcessDetails) (fs : FsNode) : Host :=
  {| HostFileSystemDefaultLocation := root;
     processTable := procs;
     fileSystem := fs;
     maxRecursionDepth := 10;
     kubeConfigArgName := "--kubeconfig";
     getContainerRuntimeCNIPaths := None;
     getKubeletServiceFiles := fun _ => ([], None);
     makeContaineredFileInfo := fun _ _ _ => (None, Some (errors_New "no such file"));
     yaml_Unmarshal := fun _ => ([], None) |}.

(** A worker node: no control-plane process, only the admin kubeconfig. *)
Definition worker_fs : FsNode :=
  dir [("host", dir [("etc", dir [("kubernetes", dir [("admin.conf", file "x")])])])].
Definition worker_host : Host := no_helpers_host "/host" [] worker_fs.

(** A node with nothing of a control plane on it. *)
Definition bare_host : Host := no_helpers_host "/host" [] (dir [("host", dir [])]).

Definition apiserver_proc : ProcessDetails :=
  {| PID := 812; ExecutablePath := "/usr/local/bin/kube-apiserver";
     Cmdline := ["kube-apiserver"; "--etcd-servers=https://127.0.0.1:2379"] |}.
Definition master_host : Host := no_helpers_host "/host" [apiserver_proc] worker_fs.


(** The scenario of section 8 of the spec: a directory [d] with [a.txt],
    [b.txt] and [sub/c.txt], and [maxRecursionDepth = 1]. *)
Definition scenario_d : FsNode :=
  dir [("a.txt", file "a"); ("b.txt", file "b"); ("sub", dir [("c.txt", file "c")])].
Definition scenario_host : Host :=
  {| HostFileSystemDefaultLocation := "/";
     processTable := [];
     fileSystem := dir [("d", scenario_d)];
     maxRecursionDepth := 1;
     kubeConfigArgName := "--kubeconfig";
     getContainerRuntimeCNIPaths := None;
     getKubeletServiceFiles := fun _ => ([], None);
     makeContaineredFileInfo := fun _ _ _ => (None, Some (errors_New "no such file"));
     yaml_Unmarshal := fun _ => ([], None) |}.

(** A tree as [Test_makeHostDirFilesInfo] walks it, with the host root [.]:
    four files and a subdirectory with a fifth. *)
Definition testmakehostfiles : FsNode :=
  dir [("file1", file "1"); ("file2", file "2"); ("dir", dir [("file5", file "5")]);
       ("file3", file "3"); ("file4", file "4")].
Definition test_host : Host :=
  no_helpers_host "." []
    (dir [("testdata", dir [("testmakehostfiles", testmakehostfiles)])]).

(** The two forms of an argument in a token sequence. *)
Definition separate_form (tokens : list string) (name value : string) : Prop :=
  exists pre post, tokens = pre ++ name :: value :: post.

Definition inline_form (tokens : list string) (name value : string) : Prop :=
  exists pre post, tokens = pre ++ (name ++ "=" ++ value)%string :: post.

(** A token that [GetArg] passes over: neither [name] nor [name=...]. *)
Definition other_token (name tok : string) : Prop :=
  tok <> name /\ strings.HasPrefix tok (name ++ "=") = false.

(** What an inspection of a logical path finds on the host: the file info,
    or nothing if the resolved path does not exist or cannot be accessed. *)
Definition stat_info (h : Host) (logicalPath : string) (readContent : bool)
  : option FileInfo :=
  option_map (node_FileInfo logicalPath readContent) (fs_at h (hostPath h logicalPath)).

Definition option_list {A} (o : option A) : list A :=
  match o with
  | Some a => [a]
  | None => []
  end.

(** A slice that is returned as nil when it is empty. *)
Definition nil_if_empty {A} (l : list A) : option (list A) :=
  match l with
  | [] => None
  | _ => Some l
  end.

(** The record [makeProcessInfoVerbose] assembles before its last test: a
    file info for each path that is not empty, and the raw command line of
    the process, if there is one. *)
Definition inspect_if_named (h : Host) (file_path : string) : option FileInfo :=
  if String.eqb file_path "" then None else stat_info h file_path false.

Definition assembled_K8sProcessInfo (h : Host) (p : option ProcessDetails)
           (specsPath configPath kubeConfigPath clientCaPath : string) : K8sProcessInfo :=
  {| SpecsFile := inspect_if_named h specsPath;
     ConfigFile := inspect_if_named h configPath;
     KubeConfigFile := inspect_if_named h kubeConfigPath;
     ClientCAFile := inspect_if_named h clientCaPath;
     CmdLine := match p with
                | Some d => RawCmd d
                | None => ""
                end |}.

(** Two observations of the file system: whether a real path can be opened,
    and the content of a real path that is a readable regular file. *)
Definition can_open (h : Host) (realPath : string) : bool :=
  match fs_at h realPath with
  | Some n => node_perm_ok n
  | None => false
  end.

Definition file_content (h : Host) (realPath : string) : option string :=
  match fs_at h realPath with
  | Some (FsFile _ _ _ true content) => Some content
  | _ => None
  end.

(** A host with SELinux configured and AppArmor profiles loaded. *)
Definition selinux_host : Host :=
  no_helpers_host "/host" []
    (dir [("host",
           dir [("etc", dir [("selinux", dir [("semanage.conf", file "module-store = direct")])]);
                ("sys", dir [("kernel", dir [("security", dir [("apparmor",
                   dir [("profiles", file "docker-default (enforce)")])])])])])]).

Definition etcd_proc : ProcessDetails :=
  {| PID := 934; ExecutablePath := "/usr/local/bin/etcd";
     Cmdline := ["etcd"; "--data-dir=/var/lib/etcd"; "--name"; "node1"] |}.
Definition etcd_bare_proc : ProcessDetails :=
  {| PID := 935; ExecutablePath := "/usr/local/bin/etcd"; Cmdline := ["etcd"] |}.
Definition etcd_host : Host := no_helpers_host "/host" [etcd_proc] worker_fs.
Definition etcd_bare_host : Host := no_helpers_host "/host" [etcd_bare_proc] worker_fs.

(** [errors.Is(err, target)] along the chain of wrapped errors; [error_eqb]
    stands for the comparison of the error values. *)
Fixpoint error_eqb (a b : error) : bool :=
  match a, b with
  | errors_New m1, errors_New m2 => String.eqb m1 m2
  | fmt_Errorf_w m1 w1, fmt_Errorf_w m2 w2 => String.eqb m1 m2 && error_eqb w1 w2
  | SenseError m1 f1 c1, SenseError m2 f2 c2 =>
      String.eqb m1 m2 && String.eqb f1 f2 && Z.eqb c1 c2
  | _, _ => false
  end.

Fixpoint errors_Is (err target : error) : bool :=
  error_eqb err target
  || match err with
     | fmt_Errorf_w _ wrapped => errors_Is wrapped target
     | _ => false
     end.

(** The config path [SenseKubeletInfo] inspects: the value of [--config], or
    the default. *)
Definition kubelet_configPath (proc : ProcessDetails) : string :=
  if snd (GetArg proc kubeletConfigArgName) then fst (GetArg proc kubeletConfigArgName)
  else kubeletConfigDefaultPath.

(** The paths that the kubelet itself names: its service files, the values
    of its [--config], kubeconfig and [--client-ca-file] arguments, and the
    [clientCAFile] of its config document. *)
Definition named_by_kubelet (h : Host) (proc : ProcessDetails) (name : string) : Prop :=
  In name (fst (getKubeletServiceFiles h (PID proc)))
  \/ GetArg proc kubeletConfigArgName = (name, true)
  \/ GetArg proc (kubeConfigArgName h) = (name, true)
  \/ GetArg proc kubeletClientCAArgName = (name, true)
  \/ exists ci content,
       stat_info h (kubelet_configPath proc) true = Some ci
       /\ Content ci = Some content
       /\ kubeletExtractCAFileFromConf h content = (name, None).

(** A kubelet started with a config file at the path of the kubeconfig
    default, and without a kubeconfig argument. *)
Definition kubelet_proc : ProcessDetails :=
  {| PID := 701; ExecutablePath := "/usr/bin/kubelet";
     Cmdline := ["/usr/bin/kubelet"; "--config=/etc/kubernetes/kubelet.conf"] |}.
Definition kubelet_fs : FsNode :=
  dir [("host",
        dir [("etc", dir [("kubernetes", dir [("kubelet.conf", file "kind: KubeletConfiguration")])]);
             ("var", dir [("lib", dir [("kubelet", dir [("config.yaml", file "kind: KubeletConfiguration")])])])])].
Definition kubelet_host : Host := no_helpers_host "/host" [kubelet_proc] kubelet_fs.

(** A kubelet started without arguments. *)
Definition plain_kubelet_proc : ProcessDetails :=
  {| PID := 702; ExecutablePath := "/usr/bin/kubelet"; Cmdline := ["/usr/bin/kubelet"] |}.
Definition plain_kubelet_host : Host := no_helpers_host "/host" [plain_kubelet_proc] kubelet_fs.

(** A node whose only trace of a control plane is an API-server process
    with an empty command line. *)
Definition idle_apiserver_proc : ProcessDetails :=
  {| PID := 813; ExecutablePath := "/usr/local/bin/kube-apiserver"; Cmdline := [] |}.
Definition idle_apiserver_host : Host :=
  no_helpers_host "/host" [idle_apiserver_proc] (dir [("host", dir [])]).

(** The paths of the files and directories [SenseControlPlaneInfo] looks for. *)
Definition controlPlanePaths : list string :=
  [apiServerSpecsPath; controllerManagerSpecsPath; controllerManagerConfigPath;
   schedulerSpecsPath; schedulerConfigPath; etcdConfigPath; adminConfigPath; pkiDir].

(** The string [Clean] returns for its final buffer. *)
Definition out_string (out : list ascii) : string :=
  match out with
  | [] => "."
  | _ => path.buf_string out
  end.

(** A name as a directory listing yields it: not empty, without a slash,
    and neither [.] nor [..]. *)
Definition real_name (w : string) : bool :=
  path.no_slash w
  && negb (String.eqb w "") && negb (String.eqb w ".") && negb (String.eqb w "..").

(** A host whose [/etc] holds an os-release file. *)
Definition os_release_host : Host :=
  no_helpers_host "/host" []
    (dir [("host",
           dir [("etc", dir [("hostname", file "node1");
                             ("os-release", file "NAME=Flatcar");
                             ("lsb-os-release", file "other")])])]).

(** What [getOsReleaseFile] returns for the names of a directory: the first
    name that ends with [os-release], or [io.EOF]. *)
Definition first_os_release (names : list string) : string * option error :=
  match find (fun name => strings.HasSuffix name osReleaseFileSuffix) names with
  | Some name => (name, None)
  | None => ("", Some io_EOF)
  end.

(** No file content is read in a run with these events. *)
Definition reads_no_file (evs : list Event) : Prop :=
  forall q, ~ In (ReadFileAt q) evs.

(** A directory of 150 entries, the os-release file being the 120th. *)
Definition big_etc : list (string * FsNode) :=
  map (fun _ => ("hosts", file "")) (seq 0 119)
  ++ [("os-release", file "NAME=Flatcar")]
  ++ map (fun _ => ("passwd", file "")) (seq 0 30).
Definition big_etc_host : Host :=
  no_helpers_host "/host" [] (dir [("host", dir [("etc", dir big_etc)])]).

(** The entries of [/etc] on [os_release_host]. *)
Definition os_release_etc : list (string * FsNode) :=
  [("hostname", file "node1"); ("os-release", file "NAME=Flatcar");
   ("lsb-os-release", file "other")].

(** The only file read in a run with these events is [realPath]. *)
Definition reads_only (realPath : string) (evs : list Event) : Prop :=
  forall q, In (ReadFileAt q) evs -> q = realPath.

(** The real paths stat'ed in a run, in order. *)
Definition stat_paths (evs : list Event) : list string :=
  flat_map (fun e => match e with StatAt p => [p] | _ => [] end) evs.

(** A kubelet with two service files, one of them missing on the host. *)
Definition service_kubelet_host : Host :=
  {| HostFileSystemDefaultLocation := "/host";
     processTable := [plain_kubelet_proc];
     fileSystem :=
       dir [("host",
             dir [("etc", dir [("systemd", dir [("kubelet.service", file "[Service]")])])])];
     maxRecursionDepth := 10;
     kubeConfigArgName := "--kubeconfig";
     getContainerRuntimeCNIPaths := None;
     getKubeletServiceFiles :=
       fun _ => (["/etc/systemd/kubelet.service"; "/etc/systemd/10-kubeadm.conf"], None);
     makeContaineredFileInfo := fun _ _ _ => (None, Some (errors_New "no such file"));
     yaml_Unmarshal := fun _ => ([], None) |}.

(** The kubeconfig path and the client-CA path [SenseKubeletInfo] inspects. *)
Definition kubelet_kubeConfigPath (h : Host) (proc : ProcessDetails) : string :=
  if snd (GetArg proc (kubeConfigArgName h)) then fst (GetArg proc (kubeConfigArgName h))
  else kubeletConfigDefaultPath.

Definition kubelet_caFilePath (h : Host) (proc : ProcessDetails) : string :=
  let (caArg, ok) := GetArg proc kubeletClientCAArgName in
  if ok then caArg
  else
    match stat_info h (kubelet_configPath proc) true with
    | Some ci =>
        match Content ci with
        | Some content =>
            let (extracted, err) := kubeletExtractCAFileFromConf h content in
            match err with
            | None => extracted
            | Some _ => caArg
            end
        | None => caArg
        end
    | None => caArg
    end.

(** The record [SenseKubeletInfo] returns for a located kubelet, given the
    service files it collected. *)
Definition kubelet_report (h : Host) (proc : ProcessDetails)
           (serviceFiles : option (list FileInfo)) : KubeletInfo :=
  {| ServiceFiles := serviceFiles;
     KubeletInfo_ConfigFile := stat_info h (kubelet_configPath proc) true;
     KubeletInfo_KubeConfigFile := stat_info h (kubelet_kubeConfigPath h proc) false;
     KubeletInfo_ClientCAFile :=
       if String.eqb (kubelet_caFilePath h proc) "" then None
       else stat_info h (kubelet_caFilePath h proc) false;
     KubeletInfo_CmdLine := RawCmd proc |}.

(** A kubelet with a config file and a client-CA argument. *)
Definition full_kubelet_proc : ProcessDetails :=
  {| PID := 703; ExecutablePath := "/usr/bin/kubelet";
     Cmdline := ["/usr/bin/kubelet"; "--config"; "/var/lib/kubelet/config.yaml";
                 "--client-ca-file=/etc/kubernetes/pki/ca.crt"] |}.
Definition full_kubelet_host : Host := no_helpers_host "/host" [full_kubelet_proc] kubelet_fs.

(** What [makeProcessInfoVerbose] returns: the assembled record, or nil if
    it is the zero value. *)
Definition k8s_process_info (h : Host) (p : option ProcessDetails)
           (specsPath configPath : string) : option K8sProcessInfo :=
  let info := assembled_K8sProcessInfo h p specsPath configPath "" "" in
  if K8sProcessInfo_is_zero info then None else Some info.

(** The etcd data-dir evidence: the inspection of the directory that
    [getEtcdDataDir] returns without an error. *)
Definition etcd_data_dir_info (h : Host) : option FileInfo :=
  match getEtcdDataDir h with
  | Returned (dataDir, None) _ => stat_info h dataDir false
  | _ => None
  end.

(** The file infos of a [K8sProcessInfo] and of a [ControlPlaneInfo] that
    come from the host file system (all but the encryption-provider config
    file, which is looked up below the root of the process). *)
Definition K8sProcessInfo_files (o : option K8sProcessInfo) : list FileInfo :=
  match o with
  | Some r =>
      option_list (SpecsFile r) ++ option_list (ConfigFile r)
      ++ option_list (KubeConfigFile r) ++ option_list (ClientCAFile r)
  | None => []
  end.

Definition ControlPlaneInfo_host_files (info : ControlPlaneInfo) : list FileInfo :=
  K8sProcessInfo_files
    (match APIServerInfo info with
     | Some api => ApiServerInfo_K8sProcessInfo api
     | None => None
     end)
  ++ K8sProcessInfo_files (ControllerManagerInfo info)
  ++ K8sProcessInfo_files (SchedulerInfo info)
  ++ option_list (EtcdConfigFile info)
  ++ option_list (EtcdDataDir info)
  ++ option_list (AdminConfigFile info)
  ++ option_list (PKIDIr info)
  ++ match PKIFiles info with Some l => l | None => [] end
  ++ match CNIConfigFiles info with Some l => l | None => [] end.

(** A control-plane node: API server and etcd run, the PKI directory and
    the admin kubeconfig are there. *)
Definition control_plane_fs : FsNode :=
  dir [("host",
        dir [("etc",
              dir [("kubernetes",
                    dir [("admin.conf", file "kubeconfig");
                         ("pki", dir [("ca.crt", file "cert");
                                      ("etcd", dir [("ca.crt", file "etcd cert")])])])]);
             ("var", dir [("lib", dir [("etcd", dir [])])])])].
Definition control_plane_host : Host :=
  no_helpers_host "/host" [apiserver_proc; etcd_proc] control_plane_fs.

(** * Theorems *)

(** ** Path resolution *)

Section CleanFacts.

Import path.

(** Before a slash, one more slash is an empty element: the main loop of
    [Clean] reaches the same state. *)
Lemma clean_loop_double_slash (n : nat) :
  forall pre q rooted inElem out dd,
    (String.length pre <= n)%nat ->
    clean_loop rooted (pre ++ String slash (String slash q)) inElem out dd
    = clean_loop rooted (pre ++ String slash q) inElem out dd.
Proof.
  induction n as [|n IH]; intros pre q rooted inElem out dd Hlen.
  - destruct pre; [|simpl in Hlen; lia].
    simpl. destruct inElem; reflexivity.
  - destruct pre as [|c pre]; [simpl; destruct inElem; reflexivity|].
    simpl in Hlen.
    assert (IH1 : forall inE o d,
               clean_loop rooted (pre ++ String slash (String slash q)) inE o d
               = clean_loop rooted (pre ++ String slash q) inE o d)
      by (intros; apply IH; lia).
    cbn [String.append clean_loop].
    destruct inElem.
    { destruct (is_slash c); apply IH1. }
    destruct (is_slash c); [apply IH1|].
    assert (Hend : end_or_slash (pre ++ String slash (String slash q))
                   = end_or_slash (pre ++ String slash q))
      by (destruct pre; reflexivity).
    rewrite Hend.
    destruct (is_dot c && end_or_slash (pre ++ String slash q)); [apply IH1|].
    destruct pre as [|c1 pre].
    { cbn [String.append].
      replace (is_dot slash) with false by reflexivity.
      rewrite andb_false_r. cbn [andb].
      apply (IH1 true). }
    cbn [String.append].
    assert (Hend1 : end_or_slash (pre ++ String slash (String slash q))
                    = end_or_slash (pre ++ String slash q))
      by (destruct pre; reflexivity).
    rewrite Hend1.
    destruct (is_dot c && is_dot c1 && end_or_slash (pre ++ String slash q)).
    + destruct (dotdot_elem rooted out dd) as [out' dd'].
      apply IH. simpl in Hlen. lia.
    + apply (IH1 true).
Qed.

Lemma Clean_double_slash (pre q : string) :
  Clean (pre ++ String slash (String slash q)) = Clean (pre ++ String slash q).
Proof.
  destruct pre as [|c pre].
  - reflexivity.
  - cbn [String.append Clean].
    destruct (is_slash c).
    + rewrite (clean_loop_double_slash (n := String.length pre)) by lia.
      reflexivity.
    + change (String c (pre ++ String slash (String slash q)))
        with (String c pre ++ String slash (String slash q))%string.
      change (String c (pre ++ String slash q))
        with (String c pre ++ String slash q)%string.
      rewrite (clean_loop_double_slash (n := String.length (String c pre))) by lia.
      reflexivity.
Qed.

(** A trailing slash is an empty element as well. *)
Lemma clean_loop_trailing_slash (n : nat) :
  forall pre rooted inElem out dd,
    (String.length pre <= n)%nat ->
    clean_loop rooted (pre ++ String slash "") inElem out dd
    = clean_loop rooted pre inElem out dd.
Proof.
  induction n as [|n IH]; intros pre rooted inElem out dd Hlen.
  - destruct pre; [|simpl in Hlen; lia].
    simpl. destruct inElem; reflexivity.
  - destruct pre as [|c pre]; [simpl; destruct inElem; reflexivity|].
    simpl in Hlen.
    assert (IH1 : forall inE o d,
               clean_loop rooted (pre ++ String slash "") inE o d
               = clean_loop rooted pre inE o d)
      by (intros; apply IH; lia).
    cbn [String.append clean_loop].
    destruct inElem.
    { destruct (is_slash c); apply IH1. }
    destruct (is_slash c); [apply IH1|].
    assert (Hend : end_or_slash (pre ++ String slash "") = end_or_slash pre)
      by (destruct pre; reflexivity).
    rewrite Hend.
    destruct (is_dot c && end_or_slash pre); [apply IH1|].
    destruct pre as [|c1 pre].
    { cbn [String.append].
      replace (is_dot slash) with false by reflexivity.
      rewrite andb_false_r. cbn [andb].
      apply (IH1 true). }
    cbn [String.append].
    assert (Hend1 : end_or_slash (pre ++ String slash "") = end_or_slash pre)
      by (destruct pre; reflexivity).
    rewrite Hend1.
    destruct (is_dot c && is_dot c1 && end_or_slash pre).
    + destruct (dotdot_elem rooted out dd) as [out' dd'].
      apply IH. simpl in Hlen. lia.
    + apply (IH1 true).
Qed.

Lemma Clean_trailing_slash (p : string) :
  p <> "" -> Clean (p ++ String slash "") = Clean p.
Proof.
  intros Hp. destruct p as [|c p]; [congruence|].
  cbn [String.append Clean].
  destruct (is_slash c).
  - rewrite (clean_loop_trailing_slash (n := String.length p)) by lia.
    reflexivity.
  - change (String c (p ++ String slash ""))
      with (String c p ++ String slash "")%string.
    rewrite (clean_loop_trailing_slash (n := String.length (String c p))) by lia.
    reflexivity.
Qed.

(** A slash is a synchronization point of the main loop: the state after
    it does not depend on what follows. *)
Lemma clean_loop_sync (n : nat) :
  forall pre rooted inElem out dd,
    (String.length pre <= n)%nat ->
    exists out' dd',
      forall w,
        clean_loop rooted (pre ++ String slash w) inElem out dd
        = clean_loop rooted w false out' dd'.
Proof.
  induction n as [|n IH]; intros pre rooted inElem out dd Hlen.
  - destruct pre; [|simpl in Hlen; lia].
    exists out, dd. intros w. simpl. destruct inElem; reflexivity.
  - destruct pre as [|c pre].
    { exists out, dd. intros w. simpl. destruct inElem; reflexivity. }
    simpl in Hlen.
    assert (IH1 : forall inE o d,
               exists out' dd',
                 forall w,
                   clean_loop rooted (pre ++ String slash w) inE o d
                   = clean_loop rooted w false out' dd')
      by (intros; apply IH; lia).
    cbn [String.append clean_loop].
    destruct inElem.
    { destruct (is_slash c); apply IH1. }
    destruct (is_slash c); [apply IH1|].
    assert (Hend : forall w, end_or_slash (pre ++ String slash w)
                             = end_or_slash (pre ++ String slash ""))
      by (intros; destruct pre; reflexivity).
    destruct (is_dot c && end_or_slash (pre ++ String slash "")) eqn:Hdot.
    { destruct (IH1 false out dd) as (out' & dd' & Hrun).
      exists out', dd'. intros w. rewrite Hend, Hdot. apply Hrun. }
    destruct pre as [|c1 pre].
    { destruct (IH1 true (c :: (if need_slash rooted out then slash :: out else out)) dd)
        as (out' & dd' & Hrun).
      exists out', dd'. intros w. rewrite Hend, Hdot.
      cbn [String.append].
      replace (is_dot slash) with false by reflexivity.
      rewrite andb_false_r. cbn [andb].
      apply (Hrun w). }
    assert (Hend1 : forall w, end_or_slash (pre ++ String slash w)
                              = end_or_slash (pre ++ String slash ""))
      by (intros; destruct pre; reflexivity).
    destruct (is_dot c && is_dot c1 && end_or_slash (pre ++ String slash "")) eqn:Hdd.
    + destruct (dotdot_elem rooted out dd) as [o1 d1] eqn:Hde.
      destruct (IH pre rooted false o1 d1 ltac:(simpl in Hlen; lia))
        as (out' & dd' & Hrun).
      exists out', dd'. intros w. rewrite Hend, Hdot.
      cbn [String.append]. rewrite Hend1, Hdd. apply Hrun.
    + destruct (IH1 true (c :: (if need_slash rooted out then slash :: out else out)) dd)
        as (out' & dd' & Hrun).
      exists out', dd'. intros w. rewrite Hend, Hdot.
      cbn [String.append]. rewrite Hend1, Hdd.
      apply (Hrun w).
Qed.

Lemma clean_loop_copy (w : string) :
  forall rooted out dd,
    no_slash w = true ->
    clean_loop rooted w true out dd = rev (list_ascii_of_string w) ++ out.
Proof.
  induction w as [|c w IH]; intros rooted out dd Hw; [reflexivity|].
  cbn [no_slash] in Hw. apply andb_prop in Hw. destruct Hw as [Hc Hw].
  cbn [clean_loop list_ascii_of_string rev].
  apply negb_true_iff in Hc. rewrite Hc.
  rewrite IH by assumption. now rewrite <- app_assoc.
Qed.

Lemma clean_loop_plain_elem (w : string) :
  forall rooted out dd,
    plain_elem w = true ->
    clean_loop rooted w false out dd
    = rev (list_ascii_of_string w)
      ++ (if need_slash rooted out then slash :: out else out).
Proof.
  intros rooted out dd Hw. destruct w as [|c w]; [discriminate|].
  cbn [plain_elem no_slash] in Hw.
  apply andb_prop in Hw. destruct Hw as [Hdot Hw].
  apply andb_prop in Hw. destruct Hw as [Hc Hw].
  apply negb_true_iff in Hdot. apply negb_true_iff in Hc.
  cbn [clean_loop list_ascii_of_string rev]. rewrite Hc, Hdot. cbn [andb].
  destruct w as [|c1 w1].
  - reflexivity.
  - rewrite clean_loop_copy by assumption.
    now rewrite <- app_assoc.
Qed.

Lemma string_of_list_ascii_app (a b : list ascii) :
  string_of_list_ascii (a ++ b)
  = (string_of_list_ascii a ++ string_of_list_ascii b)%string.
Proof. induction a as [|c a IH]; simpl; [reflexivity | now rewrite IH]. Qed.

(** The cleaned path ends with its last element, if that is a plain one. *)
Lemma Clean_ends_with (pre w : string) :
  plain_elem w = true ->
  exists s, Clean (pre ++ String slash w) = (s ++ w)%string.
Proof.
  intros Hw.
  assert (Hbuf : forall rooted out dd,
             exists o, clean_loop rooted w false out dd
                       = rev (list_ascii_of_string w) ++ o).
  { intros. rewrite clean_loop_plain_elem by assumption. eauto. }
  assert (Hout : forall o,
             match rev (list_ascii_of_string w) ++ o with
             | [] => "."
             | _ :: _ => buf_string (rev (list_ascii_of_string w) ++ o)
             end = (buf_string o ++ w)%string).
  { intros o. unfold buf_string.
    rewrite rev_app_distr, rev_involutive, string_of_list_ascii_app.
    rewrite string_of_list_ascii_of_string.
    destruct w as [|c w']; [discriminate|].
    cbn [list_ascii_of_string rev].
    destruct (rev (list_ascii_of_string w')); reflexivity. }
  destruct pre as [|c pre].
  - cbn [String.append Clean].
    replace (is_slash slash) with true by reflexivity.
    destruct (Hbuf true [slash] 1%nat) as (o & ->).
    exists (buf_string o). apply Hout.
  - cbn [String.append Clean].
    destruct (is_slash c).
    + destruct (@clean_loop_sync (String.length pre) pre true false [slash] 1%nat
                  ltac:(lia)) as (out' & dd' & ->).
      destruct (Hbuf true out' dd') as (o & ->).
      exists (buf_string o). apply Hout.
    + change (String c (pre ++ String slash w))
        with (String c pre ++ String slash w)%string.
      destruct (@clean_loop_sync (String.length (String c pre)) (String c pre)
                  false false [] 0%nat ltac:(lia)) as (out' & dd' & ->).
      destruct (Hbuf false out' dd') as (o & ->).
      exists (buf_string o). apply Hout.
Qed.

End CleanFacts.

Lemma string_app_empty_r (s : string) : (s ++ "")%string = s.
Proof. induction s as [|c s IH]; simpl; [reflexivity | now rewrite IH]. Qed.

Lemma string_app_assoc (a b c : string) : ((a ++ b) ++ c = a ++ b ++ c)%string.
Proof. induction a as [|x a IH]; simpl; [reflexivity | now rewrite IH]. Qed.

Lemma string_length_app (a b : string) :
  String.length (a ++ b)%string = (String.length a + String.length b)%nat.
Proof. induction a as [|x a IH]; simpl; [reflexivity | now rewrite IH]. Qed.

Lemma string_eqb_empty (s : string) : String.eqb s "" = true <-> s = "".
Proof. apply String.eqb_eq. Qed.

(** With a non-empty root, [path.Join] cleans [root/logicalPath]. *)
Lemma Resolve_nonempty_root (hostRoot logicalPath : string) :
  hostRoot <> "" ->
  Resolve hostRoot logicalPath = path.Clean (hostRoot ++ "/" ++ logicalPath)%string.
Proof.
  intros Hroot. destruct hostRoot as [|c root]; [congruence|].
  unfold Resolve, path.Join. cbn -[path.Clean String.append].
  change ("" ++ String c root)%string with (String c root).
  cbn [String.eqb negb orb].
  now rewrite string_app_assoc.
Qed.

(** On a non-empty root and a logical path that is empty or starts with a
    slash, [path.Join] normalizes the plain concatenation. *)
Lemma Resolve_is_Clean_of_concat (hostRoot logicalPath : string) :
  hostRoot <> "" ->
  logicalPath = "" \/ strings.HasPrefix logicalPath "/" = true ->
  Resolve hostRoot logicalPath = path.Clean (hostRoot ++ logicalPath)%string.
Proof.
  intros Hroot Hp. rewrite Resolve_nonempty_root by assumption.
  destruct Hp as [-> | Hp].
  - change ("/" ++ "")%string with (String path.slash "").
    rewrite string_app_empty_r.
    now apply Clean_trailing_slash.
  - destruct logicalPath as [|d p]; [discriminate|].
    unfold strings.HasPrefix in Hp. cbn [String.prefix] in Hp.
    destruct (ascii_dec "/"%char d) as [<-|]; [|discriminate].
    change ("/" ++ String "/"%char p)%string
      with (String path.slash (String path.slash p)).
    apply Clean_double_slash.
Qed.

(** ** Runs that return and runs that panic *)

Lemma returns_not_panics {A} (m : Outcome A) : returns m -> ~ panics m.
Proof. intros (a & e & ->) (e' & H). discriminate. Qed.

Lemma returns_ret {A} (a : A) : returns (ret a).
Proof. now exists a, []. Qed.

Lemma returns_emit (e : Event) : returns (emit e).
Proof. now exists tt, [e]. Qed.

Lemma returns_bind {A B} (m : Outcome A) (k : A -> Outcome B) :
  returns m -> (forall a, returns (k a)) -> returns (bind m k).
Proof.
  intros (a & e & ->) Hk. destruct (Hk a) as (b & e' & Hb).
  exists b, (e ++ e'). unfold bind. now rewrite Hb.
Qed.

Lemma panics_bind_l {A B} (m : Outcome A) (k : A -> Outcome B) :
  panics m -> panics (bind m k).
Proof. intros (e & ->). now exists e. Qed.

Lemma panics_bind_r {A B} (m : Outcome A) (k : A -> Outcome B) :
  returns m -> (forall a, panics (k a)) -> panics (bind m k).
Proof.
  intros (a & e & ->) Hk. destruct (Hk a) as (e' & Hb).
  exists (e ++ e'). unfold bind. now rewrite Hb.
Qed.

Lemma returns_log_if_err (err : option error) (msg : string) :
  returns (log_if_err err msg).
Proof. destruct err; [apply returns_emit | apply returns_ret]. Qed.

Ltac returns_step :=
  first [ apply returns_ret | apply returns_emit | apply returns_log_if_err
        | apply returns_bind; [|intros ?] ].

Lemma returns_for_range {A S} (l : list A) (body : S -> A -> Outcome S) :
  (forall s x, returns (body s x)) -> forall s, returns (for_range l body s).
Proof.
  intros Hbody. induction l as [|x l IH]; intros s; simpl.
  - apply returns_ret.
  - apply returns_bind; [apply Hbody | intros s'; apply IH].
Qed.

Lemma returns_makeHostFileInfo h p rc : returns (makeHostFileInfo h p rc).
Proof.
  unfold makeHostFileInfo. apply returns_bind; [apply returns_emit | intros _].
  destruct (fs_at h (hostPath h p)) as [n|]; [|apply returns_ret].
  apply returns_bind; [|intros _; apply returns_ret].
  destruct (rc && negb (node_is_dir n)); [apply returns_emit | apply returns_ret].
Qed.

Lemma returns_makeHostFileInfoVerbose h p rc :
  returns (makeHostFileInfoVerbose h p rc).
Proof.
  unfold makeHostFileInfoVerbose.
  apply returns_bind; [apply returns_makeHostFileInfo | intros r].
  destruct (snd r); repeat returns_step.
Qed.

Lemma returns_makeProcessInfoVerbose h p s c k ca :
  returns (makeProcessInfoVerbose h p s c k ca).
Proof.
  unfold makeProcessInfoVerbose.
  apply returns_bind.
  - apply returns_for_range. intros info [[data file_path] name].
    destruct (String.eqb file_path ""); [apply returns_ret|].
    apply returns_bind; [apply returns_makeHostFileInfoVerbose|].
    intros; apply returns_ret.
  - intros info.
    match goal with |- returns (if ?b then _ else _) => destruct b end;
      apply returns_ret.
Qed.

(** Without an API-server handle the collection stops in
    [makeAPIserverEncryptionProviderConfigFile], whose first statement calls
    [GetArg] through the nil pointer. *)
Lemma makeAPIserverEncryptionProviderConfigFile_nil h :
  makeAPIserverEncryptionProviderConfigFile h None = Panicked [].
Proof. reflexivity. Qed.

Lemma collectControlPlaneInfo_panics h :
  find (fun p => strings.HasSuffix (ExecutablePath p) apiServerExe) (processTable h) = None ->
  panics (collectControlPlaneInfo h).
Proof.
  intros Hfind. unfold collectControlPlaneInfo.
  unfold LocateProcessByExecSuffix at 1. rewrite Hfind.
  apply panics_bind_r; [apply returns_log_if_err | intros _].
  destruct (LocateProcessByExecSuffix h controllerManagerExe) as [cm e2].
  apply panics_bind_r; [apply returns_log_if_err | intros _].
  destruct (LocateProcessByExecSuffix h schedulerExe) as [sc e3].
  apply panics_bind_r; [apply returns_log_if_err | intros _].
  apply panics_bind_r; [apply returns_makeProcessInfoVerbose | intros apiK8s].
  apply panics_bind_l. now exists [].
Qed.

Lemma SenseControlPlaneInfo_panics h :
  find (fun p => strings.HasSuffix (ExecutablePath p) apiServerExe) (processTable h) = None ->
  panics (SenseControlPlaneInfo h).
Proof.
  intros Hfind. unfold SenseControlPlaneInfo.
  apply panics_bind_l. now apply collectControlPlaneInfo_panics.
Qed.

(** ** DirectoryWalker *)


Lemma truncation_warnings_app (e1 e2 : list Event) :
  truncation_warnings (e1 ++ e2) = (truncation_warnings e1 + truncation_warnings e2)%nat.
Proof. unfold truncation_warnings. now rewrite filter_app, length_app. Qed.

Lemma truncation_warnings_cons (e : Event) (evs : list Event) :
  truncation_warnings (e :: evs)
  = ((if is_truncation_warning e then 1 else 0) + truncation_warnings evs)%nat.
Proof.
  unfold truncation_warnings. cbn [List.filter].
  destruct (is_truncation_warning e); reflexivity.
Qed.

Lemma truncation_warnings_nil : truncation_warnings [] = 0%nat.
Proof. reflexivity. Qed.

Ltac count_truncations :=
  cbn [app];
  repeat first [ rewrite truncation_warnings_app
               | rewrite truncation_warnings_cons
               | rewrite truncation_warnings_nil ];
  cbv [is_truncation_warning maxDepthExceededMsg];
  repeat match goal with
         | |- context [String.eqb ?a ?b] =>
             let v := eval vm_compute in (String.eqb a b) in
             change (String.eqb a b) with v
         end;
  cbv iota.

Section WalkerFacts.

Variable h : Host.
Variable filter : option (string -> bool).

(** The loop over the entries, given that every descent behaves as the
    spec says of a walk with [l] levels left. *)
Lemma walk_entries_spec (l : nat) (dir : string)
      (descend : FsNode -> string -> Outcome (option (list FileInfo) * option error)) :
  (forall child filePath,
      exists evs,
        descend child filePath = Returned (walk_value filter l filePath child) evs
        /\ truncation_warnings evs
           = List.length (truncated_branches l filePath child)) ->
  forall uid gid mode entries,
  exists evs,
    walk_entries h true filter descend dir entries
    = Returned (files_within filter (S l) dir (FsDir uid gid mode true entries)) evs
    /\ truncation_warnings evs
       = List.length (truncated_branches (S l) dir (FsDir uid gid mode true entries)).
Proof.
  intros Hdesc uid gid mode entries.
  cbn [files_within truncated_branches].
  induction entries as [|[name child] rest IH].
  - exists []. split; reflexivity.
  - destruct IH as (evs_rest & Hrest & Hcount_rest).
    cbn [walk_entries] in *. cbn [flat_map fst snd].
    rewrite Hrest. rewrite length_app.
    destruct child as [u g m ok content | u g m ok sub].
    + eexists. split; [reflexivity|].
      count_truncations. rewrite Hcount_rest. cbn [List.length]. lia.
    + destruct (Hdesc (FsDir u g m ok sub) (path.Join [dir; name]))
        as (evs_sub & Hsub & Hcount_sub).
      rewrite Hsub.
      destruct l as [|l'].
      * cbn [walk_value bind ret files_within app].
        eexists. split; [reflexivity|].
        count_truncations. rewrite Hcount_sub, Hcount_rest. lia.
      * destruct ok.
        -- cbn [walk_value bind ret app].
           eexists. split; [rewrite app_nil_r; reflexivity|].
           count_truncations. rewrite Hcount_sub, Hcount_rest. lia.
        -- cbn [walk_value bind ret zap_Warn emit app files_within].
           eexists. split; [reflexivity|].
           count_truncations. rewrite Hcount_sub, Hcount_rest. lia.
Qed.

(** The walk, by the number of levels that are left below the cap. *)
Lemma walk_node_spec (levels : nat) :
  forall n dir currentDepth,
    (maxRecursionDepth h - currentDepth = levels)%nat ->
    exists evs,
      walk_node h true filter n dir currentDepth
      = Returned (walk_value filter levels dir n) evs
      /\ truncation_warnings evs = List.length (truncated_branches levels dir n).
Proof.
  induction levels as [|l IH]; intros n dir currentDepth Hlev.
  - assert (Hcap : (maxRecursionDepth h <=? currentDepth)%nat = true)
      by (apply Nat.leb_le; lia).
    exists [Log WarnLevel maxDepthExceededMsg].
    split; [|reflexivity].
    destruct n; cbn [walk_node]; rewrite Hcap; reflexivity.
  - assert (Hcap : (maxRecursionDepth h <=? currentDepth)%nat = false)
      by (apply Nat.leb_gt; lia).
    destruct n as [u g m ok content | u g m ok entries].
    + exists []. split; [|reflexivity].
      cbn [walk_node]. rewrite Hcap. reflexivity.
    + destruct ok.
      * destruct (@walk_entries_spec l dir
                    (fun child filePath => walk_node h true filter child filePath (S currentDepth))
                    (fun child filePath => IH child filePath (S currentDepth) ltac:(lia))
                    u g m entries) as (evs & Hwalk & Hcount).
        cbn [walk_node]. rewrite Hcap.
        rewrite Hwalk.
        eexists. split; [reflexivity|].
        count_truncations. rewrite Hcount. lia.
      * exists []. split; [|reflexivity].
        cbn [walk_node]. rewrite Hcap. reflexivity.
Qed.

End WalkerFacts.


Section WalkerPruned.

Variable h : Host.
Variable recursive : bool.
Variable filter : option (string -> bool).

Lemma walk_entries_pruned (l : nat) (dir : string)
      (descend : FsNode -> string -> Outcome (option (list FileInfo) * option error)) :
  (forall child filePath, descend child filePath = descend (prune l child) filePath) ->
  forall entries,
    walk_entries h recursive filter descend dir entries
    = walk_entries h recursive filter descend dir
        (map (fun e => (fst e, prune l (snd e))) entries).
Proof.
  intros Hdesc entries.
  induction entries as [|[name child] rest IH]; [reflexivity|].
  cbn [map fst snd walk_entries] in *. rewrite <- IH.
  destruct child as [u g m ok content | u g m ok sub].
  - destruct l; reflexivity.
  - rewrite (Hdesc (FsDir u g m ok sub)).
    destruct l; reflexivity.
Qed.

Lemma walk_node_pruned (levels : nat) :
  forall n dir currentDepth,
    (maxRecursionDepth h - currentDepth = levels)%nat ->
    walk_node h recursive filter n dir currentDepth
    = walk_node h recursive filter (prune levels n) dir currentDepth.
Proof.
  induction levels as [|l IH]; intros n dir currentDepth Hlev.
  - assert (Hcap : (maxRecursionDepth h <=? currentDepth)%nat = true)
      by (apply Nat.leb_le; lia).
    destruct n; cbn [prune walk_node]; rewrite Hcap; reflexivity.
  - destruct n as [u g m ok content | u g m ok entries]; [reflexivity|].
    cbn [prune walk_node].
    destruct (maxRecursionDepth h <=? currentDepth)%nat; [reflexivity|].
    destruct ok; [|reflexivity].
    rewrite <- (@walk_entries_pruned l dir); [reflexivity|].
    intros child filePath. apply IH. lia.
Qed.

End WalkerPruned.

(** C4: for every directory tree and every starting depth, the recursive
    walk returns exactly the files that lie within the levels left below
    [maxRecursionDepth], with a nil error; it logs exactly one truncation
    warning for each branch the cap cuts; and it touches nothing below the
    cap (it behaves alike on the tree cut at the cap). *)
Theorem Walk_bounded_by_depth_cap :
  forall (h : Host) (filter : option (string -> bool)) (dir : string)
         (currentDepth : nat) (uid gid mode : Z) (entries : list (string * FsNode)),
    let root := FsDir uid gid mode true entries in
    let levels := (maxRecursionDepth h - currentDepth)%nat in
    fs_at h (hostPath h dir) = Some root ->
    exists evs,
      makeHostDirFilesInfo h true filter dir currentDepth
      = Returned (Some (files_within filter levels dir root), None) evs
      /\ truncation_warnings evs = List.length (truncated_branches levels dir root)
      /\ makeHostDirFilesInfo h true filter dir currentDepth
         = walk_node h true filter (prune levels root) dir currentDepth.
Proof.
  intros h filter dir currentDepth uid gid mode entries root levels Hroot.
  destruct (@walk_node_spec h filter levels root dir currentDepth eq_refl)
    as (evs & Hwalk & Hcount).
  exists evs. unfold makeHostDirFilesInfo. rewrite Hroot.
  split; [|split].
  - rewrite Hwalk. unfold walk_value, root. destruct levels; reflexivity.
  - exact Hcount.
  - now apply walk_node_pruned.
Qed.

Lemma Walk_bounded_by_depth_cap_witness :
  exists evs,
    makeHostDirFilesInfo scenario_host true None "/d" 0
    = Returned (Some (files_within None 1 "/d" scenario_d), None) evs
    /\ truncation_warnings evs = List.length (truncated_branches 1 "/d" scenario_d)
    /\ makeHostDirFilesInfo scenario_host true None "/d" 0
       = walk_node scenario_host true None (prune 1 scenario_d) "/d" 0.
Proof.
  apply (@Walk_bounded_by_depth_cap scenario_host None "/d" 0 0%Z 0%Z 493%Z
           [("a.txt", file "a"); ("b.txt", file "b"); ("sub", dir [("c.txt", file "c")])]).
  reflexivity.
Defined.

(** The scenario of the spec: two entries and one truncation warning. *)
Example Walk_scenario :
  exists evs,
    makeHostDirFilesInfo scenario_host true None "/d" 0
    = Returned (Some [node_FileInfo "/d/a.txt" false (file "a");
                      node_FileInfo "/d/b.txt" false (file "b")], None) evs
    /\ truncation_warnings evs = 1%nat.
Proof. eexists. split; reflexivity. Qed.

(** The test of the walker: five files from depth 0, four files and one
    truncation warning from depth [maxRecursionDepth - 1]. *)
Example Walk_test_makeHostDirFilesInfo :
  exists files0 evs0 files1 evs1,
    makeHostDirFilesInfo test_host true None "testdata/testmakehostfiles" 0
    = Returned (Some files0, None) evs0
    /\ List.length files0 = 5%nat
    /\ makeHostDirFilesInfo test_host true None "testdata/testmakehostfiles"
         (maxRecursionDepth test_host - 1)
       = Returned (Some files1, None) evs1
    /\ List.length files1 = 4%nat
    /\ truncation_warnings evs1 = 1%nat.
Proof. do 4 eexists. repeat split; reflexivity. Qed.

(** ** ArgParser *)

Lemma prefix_app (a b : string) : String.prefix a (a ++ b) = true.
Proof.
  induction a as [|c a IH]; simpl.
  - now destruct b.
  - destruct (ascii_dec c c); [exact IH | congruence].
Qed.

Lemma prefix_drop (a s : string) :
  String.prefix a s = true -> s = (a ++ strings.drop (String.length a) s)%string.
Proof.
  revert s. induction a as [|c a IH]; intros s H; simpl.
  - reflexivity.
  - destruct s as [|d s]; [discriminate|]. simpl in H.
    destruct (ascii_dec c d) as [->|]; [|discriminate].
    f_equal. now apply IH.
Qed.

Lemma drop_app (a b : string) : strings.drop (String.length a) (a ++ b) = b.
Proof. induction a as [|c a IH]; simpl; [now destruct b | exact IH]. Qed.

Lemma app_eq_self_absurd (a b : string) : (a ++ b)%string = a -> b = "".
Proof.
  induction a as [|c a IH]; simpl; intros H; [exact H|].
  injection H as H. now apply IH.
Qed.

Lemma inline_token_not_name (name value : string) :
  (name ++ "=" ++ value)%string <> name.
Proof. intros H. apply app_eq_self_absurd in H. discriminate. Qed.

Lemma inline_token_prefix (name value : string) :
  strings.HasPrefix (name ++ "=" ++ value) (name ++ "=") = true.
Proof.
  unfold strings.HasPrefix. rewrite <- string_app_assoc. apply prefix_app.
Qed.

Lemma inline_token_value (name value : string) :
  strings.drop (String.length name + 1) (name ++ "=" ++ value) = value.
Proof.
  rewrite <- string_app_assoc.
  replace (String.length name + 1)%nat with (String.length (name ++ "=")).
  - apply drop_app.
  - rewrite string_length_app. reflexivity.
Qed.

(** The value [GetArg] returns is the one of the first token that has one
    of the two forms. *)
Lemma GetArg_tokens_skip (name : string) (pre rest : list string) :
  Forall (other_token name) pre ->
  GetArg_tokens (pre ++ rest) name = GetArg_tokens rest name.
Proof.
  induction 1 as [|tok pre [Hne Hpre] _ IH]; [reflexivity|].
  cbn [app GetArg_tokens].
  apply String.eqb_neq in Hne. rewrite Hne, Hpre. exact IH.
Qed.

Lemma GetArg_tokens_found (tokens : list string) (name value : string) :
  GetArg_tokens tokens name = (value, true) ->
  separate_form tokens name value \/ inline_form tokens name value.
Proof.
  induction tokens as [|tok rest IH]; cbn [GetArg_tokens]; [discriminate|].
  destruct (String.eqb_spec tok name) as [->|Hne].
  - destruct rest as [|v rest']; [discriminate|].
    intros [= ->]. left. now exists [], rest'.
  - destruct (strings.HasPrefix tok (name ++ "=")) eqn:Hpre.
    + intros [= <-]. right. exists [], rest. cbn [app]. f_equal.
      unfold strings.HasPrefix in Hpre. apply prefix_drop in Hpre.
      rewrite string_length_app in Hpre. cbn [String.length] in Hpre.
      rewrite string_app_assoc in Hpre. exact Hpre.
    + intros H. destruct (IH H) as [(pre & post & ->) | (pre & post & ->)].
      * left. now exists (tok :: pre), post.
      * right. now exists (tok :: pre), post.
Qed.

Lemma GetArg_tokens_present (tokens : list string) (name : string) :
  (exists value, separate_form tokens name value \/ inline_form tokens name value) ->
  exists value, GetArg_tokens tokens name = (value, true).
Proof.
  induction tokens as [|tok rest IH]; intros (value & Hform).
  - destruct Hform as [(pre & post & H) | (pre & post & H)];
      destruct pre; discriminate.
  - cbn [GetArg_tokens].
    destruct (String.eqb_spec tok name) as [->|Hne].
    + destruct rest as [|v rest']; [|now exists v].
      exfalso.
      destruct Hform as [(pre & post & H) | (pre & post & H)].
      * destruct pre as [|x [|y pre]]; discriminate.
      * destruct pre as [|x pre].
        -- injection H as H _. symmetry in H. now apply inline_token_not_name in H.
        -- destruct pre; discriminate.
    + destruct (strings.HasPrefix tok (name ++ "=")) eqn:Hpre; [now eexists|].
      apply IH.
      destruct Hform as [(pre & post & H) | (pre & post & H)].
      * destruct pre as [|x pre].
        -- injection H as H _. congruence.
        -- injection H as _ H. exists value. left. now exists pre, post.
      * destruct pre as [|x pre].
        -- injection H as H _. subst tok.
           change (String "="%char value) with ("=" ++ value)%string in Hpre.
           rewrite inline_token_prefix in Hpre. discriminate.
        -- injection H as _ H. exists value. right. now exists pre, post.
Qed.

Lemma GetArg_tokens_not_found (tokens : list string) (name value : string) :
  GetArg_tokens tokens name = (value, false) -> value = "".
Proof.
  induction tokens as [|tok rest IH]; cbn [GetArg_tokens]; intros Hget.
  - now injection Hget as <-.
  - destruct (String.eqb tok name).
    + destruct rest; [now injection Hget as <- | discriminate].
    + destruct (strings.HasPrefix tok (name ++ "=")); [discriminate|].
      now apply IH.
Qed.

(** C5: over every token sequence, [GetArg] finds the argument exactly when
    the sequence has a token equal to [name] followed by a value token or a
    token [name=value]; the value is the one of the first such token; with
    neither form it returns the empty string and false.  [--config] is found
    with value [/a/b] in both forms. *)
Theorem GetArg_both_forms :
  forall (tokens : list string) (name : string),
    ((exists value, separate_form tokens name value \/ inline_form tokens name value) ->
     exists value,
       GetArg_tokens tokens name = (value, true)
       /\ (separate_form tokens name value \/ inline_form tokens name value))
    /\ (forall pre value post,
           Forall (other_token name) pre ->
           GetArg_tokens (pre ++ name :: value :: post) name = (value, true)
           /\ GetArg_tokens (pre ++ (name ++ "=" ++ value)%string :: post) name
              = (value, true))
    /\ (~ (exists value, separate_form tokens name value \/ inline_form tokens name value) ->
        GetArg_tokens tokens name = ("", false))
    /\ GetArg_tokens ["--config"; "/a/b"] "--config" = ("/a/b", true)
    /\ GetArg_tokens ["--config=/a/b"] "--config" = ("/a/b", true).
Proof.
  intros tokens name. split; [|split; [|split; [|split]]].
  - intros Hform. destruct (GetArg_tokens_present Hform) as (value & Hget).
    exists value. split; [exact Hget | now apply GetArg_tokens_found].
  - intros pre value post Hpre. rewrite !GetArg_tokens_skip by assumption.
    cbn [GetArg_tokens]. rewrite String.eqb_refl. split; [reflexivity|].
    destruct (String.eqb_spec (name ++ "=" ++ value) name) as [Heq|_].
    + now apply inline_token_not_name in Heq.
    + now rewrite inline_token_prefix, inline_token_value.
  - intros Hnone.
    destruct (GetArg_tokens tokens name) as [value [|]] eqn:Hget.
    + exfalso. apply Hnone. exists value. now apply GetArg_tokens_found.
    + f_equal. now apply GetArg_tokens_not_found in Hget.
  - reflexivity.
  - reflexivity.
Qed.

Lemma GetArg_both_forms_witness :
  exists value,
    GetArg_tokens ["kubelet"; "--v=2"; "--config"; "/a/b"] "--config" = (value, true)
    /\ (separate_form ["kubelet"; "--v=2"; "--config"; "/a/b"] "--config" value
        \/ inline_form ["kubelet"; "--v=2"; "--config"; "/a/b"] "--config" value).
Proof.
  apply (proj1 (GetArg_both_forms ["kubelet"; "--v=2"; "--config"; "/a/b"] "--config")).
  exists "/a/b". left. now exists ["kubelet"; "--v=2"], [].
Defined.

(** ** FileInspector *)

(** Membership in a list of events built with cons and append. *)
Ltac split_in H :=
  repeat match type of H with
         | In _ (_ ++ _) => apply in_app_or in H; destruct H as [H|H]
         | In _ (_ :: _) => destruct H as [H|H]
         | In _ [] => destruct H
         | False => destruct H
         end.

Lemma makeHostFileInfo_value h p rc :
  exists evs,
    makeHostFileInfo h p rc
    = Returned (stat_info h p rc,
                match stat_info h p rc with
                | None => Some (errors_New "stat failed")
                | Some _ => None
                end) evs
    /\ forall q, In (StatAt q) evs -> q = hostPath h p.
Proof.
  unfold makeHostFileInfo, stat_info.
  destruct (fs_at h (hostPath h p)) as [n|]; cbn [option_map].
  - destruct (rc && negb (node_is_dir n)); cbn; eexists; (split; [reflexivity|]);
      intros q Hq; split_in Hq; congruence.
  - cbn. eexists. split; [reflexivity|].
    intros q Hq; split_in Hq; congruence.
Qed.

Lemma makeHostFileInfo_stats h p rc :
  In (StatAt (hostPath h p)) (events_of (makeHostFileInfo h p rc)).
Proof.
  unfold makeHostFileInfo.
  destruct (fs_at h (hostPath h p)) as [n|]; [|now left].
  destruct (rc && negb (node_is_dir n)); now left.
Qed.

Ltac find_in :=
  solve [ assumption
        | left; reflexivity
        | apply in_or_app; left; find_in
        | apply in_or_app; right; find_in
        | right; find_in ].

Lemma makeHostFileInfoVerbose_value h p rc :
  exists evs,
    makeHostFileInfoVerbose h p rc = Returned (stat_info h p rc) evs
    /\ forall q, In (StatAt q) evs -> q = hostPath h p.
Proof.
  unfold makeHostFileInfoVerbose.
  destruct (makeHostFileInfo_value h p rc) as (evs & -> & Hevs).
  destruct (stat_info h p rc); cbn; eexists; (split; [reflexivity|]);
    intros q Hq; split_in Hq; try discriminate; now apply Hevs.
Qed.

(** The service files that can be inspected; a file that cannot is skipped
    and the loop goes on. *)
Lemma makeKubeletServiceFilesInfo_value h pid files :
  getKubeletServiceFiles h pid = (files, None) ->
  exists evs,
    makeKubeletServiceFilesInfo h pid
    = Returned (nil_if_empty (flat_map (fun f => option_list (stat_info h f false)) files)) evs
    /\ forall q, In (StatAt q) evs -> In q (map (hostPath h) files).
Proof.
  intros Hfiles. unfold makeKubeletServiceFilesInfo. rewrite Hfiles. clear Hfiles.
  assert (Hloop : forall acc,
             exists evs,
               for_range files
                 (fun serviceFiles file =>
                    info <- makeHostFileInfoVerbose h file false ;;
                    match info with
                    | Some fi => ret (serviceFiles ++ [fi])
                    | None => ret serviceFiles
                    end) acc
               = Returned (acc ++ flat_map (fun f => option_list (stat_info h f false)) files) evs
               /\ forall q, In (StatAt q) evs -> In q (map (hostPath h) files)).
  { induction files as [|f rest IH]; intros acc; cbn [for_range flat_map map].
    - exists []. rewrite app_nil_r. split; [reflexivity | intros q []].
    - destruct (makeHostFileInfoVerbose_value h f false) as (e1 & -> & He1).
      destruct (stat_info h f false) as [fi|]; cbn [bind ret option_list].
      + destruct (IH (acc ++ [fi])) as (e2 & -> & He2).
        eexists. split; [now rewrite <- app_assoc|].
        intros q Hq. split_in Hq.
        * left. symmetry. now apply He1.
        * right. now apply He2.
      + destruct (IH acc) as (e2 & -> & He2).
        eexists. split; [reflexivity|].
        intros q Hq. split_in Hq.
        * left. symmetry. now apply He1.
        * right. now apply He2. }
  destruct (Hloop []) as (evs & -> & Hevs). cbn [app bind].
  destruct (flat_map _ files); cbn; eexists; (split; [reflexivity|]);
    intros q Hq; split_in Hq; now apply Hevs.
Qed.

(** ** The control-plane sensor *)

Lemma K8sProcessInfo_is_zero_iff (r : K8sProcessInfo) :
  K8sProcessInfo_is_zero r = true <-> r = K8sProcessInfo_zero.
Proof.
  destruct r as [s c k ca cmd]. unfold K8sProcessInfo_is_zero, K8sProcessInfo_zero.
  cbn [SpecsFile ConfigFile KubeConfigFile ClientCAFile CmdLine].
  split.
  - destruct s, c, k, ca; try discriminate.
    intros H. apply String.eqb_eq in H. now subst.
  - intros [= -> -> -> -> ->]. reflexivity.
Qed.

Ltac inspect_file h file_path :=
  let E := fresh "Enamed" in
  destruct (String.eqb file_path "") eqn:E;
  [| let e := fresh "e" in
     let He := fresh "He" in
     destruct (makeHostFileInfoVerbose_value h file_path false) as (e & -> & He) ];
  cbn [bind ret].

Lemma makeProcessInfoVerbose_value h p specsPath configPath kubeConfigPath clientCaPath :
  let info := assembled_K8sProcessInfo h p specsPath configPath kubeConfigPath clientCaPath in
  exists evs,
    makeProcessInfoVerbose h p specsPath configPath kubeConfigPath clientCaPath
    = Returned (if K8sProcessInfo_is_zero info then None else Some info) evs.
Proof.
  unfold makeProcessInfoVerbose, assembled_K8sProcessInfo, inspect_if_named.
  cbn [for_range].
  inspect_file h specsPath; inspect_file h configPath;
    inspect_file h kubeConfigPath; inspect_file h clientCaPath;
    destruct p as [d|];
    cbv [set_SpecsFile set_ConfigFile set_KubeConfigFile set_ClientCAFile set_CmdLine
         SpecsFile ConfigFile KubeConfigFile ClientCAFile CmdLine K8sProcessInfo_zero
         K8sProcessInfo_is_zero];
    repeat match goal with
           | |- context [match ?o with Some _ => _ | None => _ end] => destruct o
           | |- context [if ?b then _ else _] => destruct b
           end;
    cbn [bind ret]; eexists; reflexivity.
Qed.

(** C7: [makeProcessInfoVerbose] returns nil exactly when the record it
    assembled is the zero value: no file info was found for the specs,
    config, kubeconfig and client-CA paths and the command line is empty.
    In every other case, and so for a located process whose command line is
    not empty, it returns the assembled record. *)
Theorem makeProcessInfoVerbose_nil_iff_zero :
  forall (h : Host) (p : option ProcessDetails)
         (specsPath configPath kubeConfigPath clientCaPath : string),
    let info := assembled_K8sProcessInfo h p specsPath configPath kubeConfigPath clientCaPath in
    exists result evs,
      makeProcessInfoVerbose h p specsPath configPath kubeConfigPath clientCaPath
      = Returned result evs
      /\ (result = None <-> info = K8sProcessInfo_zero)
      /\ (info <> K8sProcessInfo_zero -> result = Some info)
      /\ (forall d, p = Some d -> RawCmd d <> "" -> result = Some info).
Proof.
  intros h p s c k ca info.
  destruct (makeProcessInfoVerbose_value h p s c k ca) as (evs & Hrun).
  fold info in Hrun. rewrite Hrun.
  pose proof (K8sProcessInfo_is_zero_iff info) as Hzero.
  exists (if K8sProcessInfo_is_zero info then None else Some info), evs.
  split; [reflexivity|].
  destruct (K8sProcessInfo_is_zero info).
  - assert (Hinfo : info = K8sProcessInfo_zero) by now apply Hzero.
    split; [tauto|]. split; [congruence|].
    intros d -> Hcmd. exfalso. apply Hcmd.
    change (CmdLine info = ""). now rewrite Hinfo.
  - assert (Hinfo : info <> K8sProcessInfo_zero)
      by (intros Heq; apply Hzero in Heq; discriminate).
    split; [split; [discriminate | contradiction]|].
    split; reflexivity.
Qed.

Lemma makeProcessInfoVerbose_nil_iff_zero_witness :
  exists result evs,
    makeProcessInfoVerbose master_host (Some apiserver_proc) apiServerSpecsPath "" "" ""
    = Returned result evs
    /\ result = Some (assembled_K8sProcessInfo master_host (Some apiserver_proc)
                        apiServerSpecsPath "" "" "").
Proof.
  destruct (makeProcessInfoVerbose_nil_iff_zero master_host (Some apiserver_proc)
              apiServerSpecsPath "" "" "") as (result & evs & Hrun & _ & _ & Hcmd).
  exists result, evs. split; [exact Hrun|].
  apply (Hcmd apiserver_proc eq_refl). discriminate.
Defined.

(** ** The OS-release sensor *)

(** C8: [getSELinuxStatus] opens [/etc/selinux/semanage.conf] under the host
    root and reads nothing of it.  If the open fails the status is
    [not found]; else it reads the AppArmor profiles file and returns its
    content when the read succeeds with a non-empty content, and [not found]
    in every other case.  The only file it ever reads is the AppArmor
    profiles file. *)
Theorem getSELinuxStatus_reads_apparmor_profiles :
  forall h : Host,
    let selinuxConf := Resolve (HostFileSystemDefaultLocation h) seLinuxConfigFileName in
    let profiles := Resolve (HostFileSystemDefaultLocation h) appArmorProfilesFileName in
    getSELinuxStatus h
    = (if can_open h selinuxConf then
         Returned
           match file_content h profiles with
           | Some content =>
               if (0 <? String.length content)%nat then content else "not found"
           | None => "not found"
           end
           [OpenAt selinuxConf; ReadFileAt profiles]
       else Returned "not found" [OpenAt selinuxConf])
    /\ forall p, In (ReadFileAt p) (events_of (getSELinuxStatus h)) -> p = profiles.
Proof.
  intros h selinuxConf profiles.
  assert (Hrun : getSELinuxStatus h
    = (if can_open h selinuxConf then
         Returned
           match file_content h profiles with
           | Some content =>
               if (0 <? String.length content)%nat then content else "not found"
           | None => "not found"
           end
           [OpenAt selinuxConf; ReadFileAt profiles]
       else Returned "not found" [OpenAt selinuxConf])).
  { unfold getSELinuxStatus, os_Open, can_open, ReadFileOnHostFileSystem, os_ReadFile,
      file_content, hostPath.
    fold (Resolve (HostFileSystemDefaultLocation h) seLinuxConfigFileName).
    fold selinuxConf. fold profiles.
    destruct (fs_at h selinuxConf) as [n|]; [|reflexivity].
    destruct (node_perm_ok n); [|reflexivity].
    destruct (fs_at h profiles) as [[u g m [|] content | u g m ok entries]|];
      try reflexivity.
    cbn. destruct (String.length content); reflexivity. }
  split; [exact Hrun|].
  rewrite Hrun. intros p Hp.
  destruct (can_open h selinuxConf); cbn [events_of] in Hp; split_in Hp; congruence.
Qed.

Example getSELinuxStatus_apparmor_content :
  getSELinuxStatus selinux_host
  = Returned "docker-default (enforce)"
      [OpenAt "/host/etc/selinux/semanage.conf";
       ReadFileAt "/host/sys/kernel/security/apparmor/profiles"].
Proof. reflexivity. Qed.

(** [getOsReleaseFile] resolves [/etc] under the host root and lists it. *)
Example getOsReleaseFile_no_release_file :
  getOsReleaseFile selinux_host
  = Returned ("", Some io_EOF)
      [OpenAt "/host/etc"; ReadDirAt "/host/etc"; ReadDirAt "/host/etc"].
Proof. reflexivity. Qed.

(** ** [getEtcdDataDir] *)

Lemma LocateProcessByExecSuffix_cases h suffix :
  (exists p, LocateProcessByExecSuffix h suffix = (Some p, None)
             /\ strings.HasSuffix (ExecutablePath p) suffix = true)
  \/ LocateProcessByExecSuffix h suffix = (None, Some ErrProcessNotFound).
Proof.
  unfold LocateProcessByExecSuffix.
  destruct (find _ (processTable h)) as [p|] eqn:Hfind.
  - left. exists p. split; [reflexivity|]. now apply find_some in Hfind.
  - now right.
Qed.

(** C10: [getEtcdDataDir] returns [ErrDataDirNotFound] if and only if an
    etcd process is located and its command line has no [--data-dir]
    argument or an empty value for it; if no process is located it returns
    the locate error wrapped, which is not [ErrDataDirNotFound]; and a
    non-empty value is returned with a nil error. *)
Theorem getEtcdDataDir_errors :
  forall h : Host,
    ((exists dataDir evs,
         getEtcdDataDir h = Returned (dataDir, Some ErrDataDirNotFound) evs)
     <-> exists p,
          LocateProcessByExecSuffix h etcdExe = (Some p, None)
          /\ (snd (GetArg p etcdDataDirArg) = false \/ fst (GetArg p etcdDataDirArg) = ""))
    /\ (forall e,
           LocateProcessByExecSuffix h etcdExe = (None, Some e) ->
           let wrapped := fmt_Errorf_w "failed to locate kube-proxy process" e in
           getEtcdDataDir h = Returned ("", Some wrapped) []
           /\ wrapped <> ErrDataDirNotFound
           /\ errors_Is wrapped ErrDataDirNotFound = false)
    /\ (forall p dataDir,
           LocateProcessByExecSuffix h etcdExe = (Some p, None) ->
           GetArg p etcdDataDirArg = (dataDir, true) ->
           dataDir <> "" ->
           getEtcdDataDir h = Returned (dataDir, None) []).
Proof.
  intros h. unfold getEtcdDataDir.
  destruct (LocateProcessByExecSuffix_cases h etcdExe) as [(p & Hloc & _) | Hloc];
    rewrite Hloc.
  - cbn [deref bind ret].
    destruct (GetArg p etcdDataDirArg) as [dataDir ok] eqn:Hget.
    split; [|split].
    + split.
      * intros (v & evs & Hrun). exists p. split; [reflexivity|].
        rewrite Hget. cbn [fst snd].
        destruct ok; [|now left]. right.
        cbn [negb orb] in Hrun.
        destruct (String.eqb_spec dataDir ""); [assumption|].
        cbn in Hrun. discriminate.
      * intros (p' & [= <-] & Hcase). rewrite Hget in Hcase. cbn [fst snd] in Hcase.
        exists "", [].
        destruct Hcase as [-> | ->]; [reflexivity|].
        destruct ok; reflexivity.
    + intros e [=].
    + intros p' dataDir' [= <-] Hget' Hne. rewrite Hget in Hget'.
      injection Hget' as -> ->.
      apply String.eqb_neq in Hne. rewrite Hne. reflexivity.
  - split; [|split].
    + split; [intros (v & evs & [=]) | intros (p & [=] & _)].
    + intros e [= <-]. cbn zeta. split; [reflexivity|]. split; [discriminate | reflexivity].
    + intros p dataDir [=].
Qed.

Lemma getEtcdDataDir_errors_witness :
  getEtcdDataDir etcd_host = Returned ("/var/lib/etcd", None) [].
Proof.
  apply (proj2 (proj2 (getEtcdDataDir_errors etcd_host)) etcd_proc "/var/lib/etcd").
  - reflexivity.
  - reflexivity.
  - discriminate.
Defined.

Example getEtcdDataDir_no_data_dir :
  getEtcdDataDir etcd_bare_host = Returned ("", Some ErrDataDirNotFound) [].
Proof. reflexivity. Qed.

Example getEtcdDataDir_no_process :
  getEtcdDataDir worker_host
  = Returned ("", Some (fmt_Errorf_w "failed to locate kube-proxy process" ErrProcessNotFound)) [].
Proof. reflexivity. Qed.

(** ** The kubelet sensor *)

Lemma makeKubeletServiceFilesInfo_events h pid :
  exists r evs,
    makeKubeletServiceFilesInfo h pid = Returned r evs
    /\ forall q, In (StatAt q) evs ->
                 In q (map (hostPath h) (fst (getKubeletServiceFiles h pid))).
Proof.
  destruct (getKubeletServiceFiles h pid) as [files [e|]] eqn:Hfiles.
  - unfold makeKubeletServiceFilesInfo. rewrite Hfiles. cbn.
    do 2 eexists. split; [reflexivity|]. intros q Hq. split_in Hq. discriminate.
  - destruct (makeKubeletServiceFilesInfo_value h pid Hfiles) as (evs & -> & Hevs).
    do 2 eexists. split; [reflexivity | exact Hevs].
Qed.

(** What [SenseKubeletInfo] captures as the kubeconfig file and which paths
    it inspects, for a located kubelet. *)
Lemma SenseKubeletInfo_inspects h proc :
  LocateKubeletProcess h = (Some proc, None) ->
  exists info evs,
    SenseKubeletInfo h = Returned (Some info, None) evs
    /\ KubeletInfo_KubeConfigFile info
       = stat_info h (if snd (GetArg proc (kubeConfigArgName h))
                      then fst (GetArg proc (kubeConfigArgName h))
                      else kubeletConfigDefaultPath) false
    /\ In (StatAt (hostPath h (if snd (GetArg proc (kubeConfigArgName h))
                               then fst (GetArg proc (kubeConfigArgName h))
                               else kubeletConfigDefaultPath))) evs
    /\ forall q, In (StatAt q) evs ->
                 q = hostPath h kubeletConfigDefaultPath
                 \/ exists name, q = hostPath h name /\ named_by_kubelet h proc name.
Proof.
  intros Hloc. unfold SenseKubeletInfo. rewrite Hloc. cbn [deref bind ret].
  destruct (makeKubeletServiceFilesInfo_events h (PID proc)) as (sf & e0 & -> & He0).
  cbn [bind].
  assert (Hsvc : forall q, In (StatAt q) e0 ->
                   exists name, q = hostPath h name /\ named_by_kubelet h proc name).
  { intros q Hq. apply He0 in Hq. apply in_map_iff in Hq.
    destruct Hq as (name & <- & Hin). exists name. split; [reflexivity | now left]. }
  clear He0.
  pose proof (eq_refl (kubelet_configPath proc)) as Hcfg.
  unfold kubelet_configPath at 2 in Hcfg.
  destruct (GetArg proc kubeletConfigArgName) as [cfgArg cfgOk] eqn:Hcfgarg.
  destruct (GetArg proc (kubeConfigArgName h)) as [kcArg kcOk] eqn:Hkcarg.
  destruct (GetArg proc kubeletClientCAArgName) as [caArg caOk] eqn:Hcaarg.
  cbn [fst snd] in *.
  set (configPath := if cfgOk then cfgArg else kubeletConfigDefaultPath) in *.
  set (kubeConfigPath := if kcOk then kcArg else kubeletConfigDefaultPath).
  assert (Hconfig : configPath = kubeletConfigDefaultPath
                    \/ named_by_kubelet h proc configPath).
  { subst configPath. destruct cfgOk; [right | now left].
    right. left. exact Hcfgarg. }
  assert (Hkube : kubeConfigPath = kubeletConfigDefaultPath
                  \/ named_by_kubelet h proc kubeConfigPath).
  { subst kubeConfigPath. destruct kcOk; [right | now left].
    right. right. left. exact Hkcarg. }
  assert (Hstat : forall q name,
             q = hostPath h name ->
             name = kubeletConfigDefaultPath \/ named_by_kubelet h proc name ->
             q = hostPath h kubeletConfigDefaultPath
             \/ exists name, q = hostPath h name /\ named_by_kubelet h proc name).
  { intros q name -> [-> | Hnamed]; [now left | right; now exists name]. }
  destruct (makeHostFileInfo_value h configPath true) as (ecfg & -> & Hecfg).
  cbn [bind ret fst snd].
  assert (Hca : exists caFilePath evs,
             (match caOk, stat_info h configPath true with
              | false, Some ci =>
                  match Content ci with
                  | Some content =>
                      zap_Error "extracting kubelet client ca certificate from config" ;;;
                      let (extracted, err) := kubeletExtractCAFileFromConf h content in
                      match err with
                      | None => ret extracted
                      | Some _ => ret caArg
                      end
                  | None => ret caArg
                  end
              | _, _ => ret caArg
              end) = Returned caFilePath evs
             /\ (forall q, ~ In (StatAt q) evs)
             /\ (caFilePath = "" \/ named_by_kubelet h proc caFilePath)).
  { assert (Hnone : caArg = "" \/ named_by_kubelet h proc caArg).
    { destruct caOk.
      - right. right. right. right. left. exact Hcaarg.
      - left. now apply GetArg_tokens_not_found in Hcaarg. }
    destruct caOk.
    - exists caArg, []. split; [reflexivity|]. split; [intros q []|exact Hnone].
    - destruct (stat_info h configPath true) as [ci|] eqn:Hci.
      + destruct (Content ci) as [content|] eqn:Hcontent.
        * cbn [bind zap_Error emit].
          destruct (kubeletExtractCAFileFromConf h content) as [extracted [err|]] eqn:Hext;
            cbn; do 2 eexists; (split; [reflexivity|]);
            (split; [intros q Hq; split_in Hq; discriminate|]); [exact Hnone|].
          right. right. right. right. right. exists ci, content.
          rewrite Hcfg. now repeat split.
        * exists caArg, []. split; [reflexivity|]. split; [intros q []|exact Hnone].
      + exists caArg, []. split; [reflexivity|]. split; [intros q []|exact Hnone]. }
  destruct Hca as (caFilePath & eca & Hcarun & Hnostat & Hcaname).
  rewrite Hcarun. clear Hcarun.
  pose proof (makeHostFileInfo_stats h kubeConfigPath false) as Hkcin.
  destruct (makeHostFileInfo_value h kubeConfigPath false) as (ekc & Hkcrun & Hekc).
  rewrite Hkcrun in Hkcin |- *. clear Hkcrun.
  cbn [events_of] in Hkcin.
  cbn [bind ret fst snd].
  assert (Hcastat : negb (String.eqb caFilePath "") = true ->
                    named_by_kubelet h proc caFilePath).
  { intros Hne. destruct Hcaname as [-> | Hnamed]; [discriminate | exact Hnamed]. }
  destruct (makeHostFileInfo_value h caFilePath false) as (eca' & Hcarun & Heca').
  destruct (negb (String.eqb caFilePath "")); [rewrite Hcarun|]; clear Hcarun;
    destruct (stat_info h configPath true);
    destruct (stat_info h kubeConfigPath false);
    try destruct (stat_info h caFilePath false);
    cbn [bind ret zap_Debug emit fst snd];
    do 2 eexists; (split; [reflexivity|]); (split; [reflexivity|]);
    (split; [find_in|]);
    intros q Hq; split_in Hq; try discriminate;
    match goal with
    | Hq : In (StatAt q) e0 |- _ => right; now apply Hsvc
    | Hq : In (StatAt q) ecfg |- _ =>
        apply Hecfg in Hq; now apply (Hstat q configPath)
    | Hq : In (StatAt q) ekc |- _ =>
        apply Hekc in Hq; now apply (Hstat q kubeConfigPath)
    | Hq : In (StatAt q) eca |- _ => now apply Hnostat in Hq
    | Hq : In (StatAt q) eca' |- _ =>
        apply Heca' in Hq; right; exists caFilePath;
        split; [exact Hq | now apply Hcastat]
    end.
Qed.

Lemma last_byte_app (s w : string) :
  w <> "" -> last_byte (s ++ w) = last_byte w.
Proof.
  intros Hw. induction s as [|c s IH]; [reflexivity|].
  cbn [String.append last_byte]. rewrite IH.
  destruct (s ++ w)%string eqn:E; [|reflexivity].
  destruct s; [cbn in E; congruence | discriminate].
Qed.

(** The resolved kubeconfig default path and the resolved config default
    path differ under every host root: they end with different bytes. *)
Lemma kubelet_default_paths_differ (h : Host) :
  hostPath h kubeletKubeConfigDefaultPath <> hostPath h kubeletConfigDefaultPath.
Proof.
  unfold hostPath.
  destruct (HostFileSystemDefaultLocation h) as [|c root] eqn:Hroot.
  - vm_compute. discriminate.
  - rewrite !Resolve_nonempty_root by discriminate.
    set (r := String c root).
    change (r ++ "/" ++ kubeletKubeConfigDefaultPath)%string
      with (r ++ "//etc/kubernetes" ++ String path.slash "kubelet.conf")%string.
    change (r ++ "/" ++ kubeletConfigDefaultPath)%string
      with (r ++ "//var/lib/kubelet" ++ String path.slash "config.yaml")%string.
    rewrite <- !string_app_assoc.
    destruct (@Clean_ends_with (r ++ "//etc/kubernetes") "kubelet.conf" eq_refl)
      as (s1 & ->).
    destruct (@Clean_ends_with (r ++ "//var/lib/kubelet") "config.yaml" eq_refl)
      as (s2 & ->).
    intros Heq. apply (f_equal last_byte) in Heq.
    rewrite !last_byte_app in Heq by discriminate.
    discriminate.
Qed.

(** C9 (as amended): for a located kubelet whose command line carries no
    kubeconfig argument, the kubeconfig evidence is the inspection of the
    config-file default path [/var/lib/kubelet/config.yaml]; every path the
    sensor inspects is that default or a path the kubelet itself names (a
    service file, the value of [--config], of the kubeconfig argument or of
    [--client-ca-file], the [clientCAFile] of its config), so the declared
    kubeconfig default path is never a default: it is inspected only when
    the kubelet itself names it. *)
Theorem SenseKubeletInfo_kubeconfig_default :
  forall (h : Host) (proc : ProcessDetails),
    LocateKubeletProcess h = (Some proc, None) ->
    snd (GetArg proc (kubeConfigArgName h)) = false ->
    exists info evs,
      SenseKubeletInfo h = Returned (Some info, None) evs
      /\ KubeletInfo_KubeConfigFile info = stat_info h kubeletConfigDefaultPath false
      /\ In (StatAt (hostPath h kubeletConfigDefaultPath)) evs
      /\ (forall q, In (StatAt q) evs ->
                    q = hostPath h kubeletConfigDefaultPath
                    \/ exists name, q = hostPath h name /\ named_by_kubelet h proc name)
      /\ (In (StatAt (hostPath h kubeletKubeConfigDefaultPath)) evs ->
          exists name,
            named_by_kubelet h proc name
            /\ hostPath h name = hostPath h kubeletKubeConfigDefaultPath).
Proof.
  intros h proc Hloc Hnoarg.
  destruct (SenseKubeletInfo_inspects h Hloc)
    as (info & evs & Hrun & Hkube & Hinspected & Hstat).
  rewrite Hnoarg in Hkube, Hinspected.
  exists info, evs. split; [exact Hrun|]. split; [exact Hkube|].
  split; [exact Hinspected|]. split; [exact Hstat|].
  intros Hin. destruct (Hstat _ Hin) as [Heq | (name & Heq & Hnamed)].
  - now apply kubelet_default_paths_differ in Heq.
  - exists name. split; [exact Hnamed | now symmetry].
Qed.

Lemma SenseKubeletInfo_kubeconfig_default_witness :
  exists info evs,
    SenseKubeletInfo plain_kubelet_host = Returned (Some info, None) evs
    /\ KubeletInfo_KubeConfigFile info
       = stat_info plain_kubelet_host kubeletConfigDefaultPath false
    /\ In (StatAt (hostPath plain_kubelet_host kubeletConfigDefaultPath)) evs
    /\ (forall q, In (StatAt q) evs ->
                  q = hostPath plain_kubelet_host kubeletConfigDefaultPath
                  \/ exists name,
                      q = hostPath plain_kubelet_host name
                      /\ named_by_kubelet plain_kubelet_host plain_kubelet_proc name)
    /\ (In (StatAt (hostPath plain_kubelet_host kubeletKubeConfigDefaultPath)) evs ->
        exists name,
          named_by_kubelet plain_kubelet_host plain_kubelet_proc name
          /\ hostPath plain_kubelet_host name
             = hostPath plain_kubelet_host kubeletKubeConfigDefaultPath).
Proof.
  apply (@SenseKubeletInfo_kubeconfig_default plain_kubelet_host plain_kubelet_proc).
  - reflexivity.
  - reflexivity.
Defined.

(** Against C9 as stated: a kubelet without a kubeconfig argument whose
    [--config] names [/etc/kubernetes/kubelet.conf]; the sensor inspects
    that path. *)
Lemma kubeconfig_default_path_inspected :
  LocateKubeletProcess kubelet_host = (Some kubelet_proc, None)
  /\ snd (GetArg kubelet_proc (kubeConfigArgName kubelet_host)) = false
  /\ In (StatAt (hostPath kubelet_host kubeletKubeConfigDefaultPath))
        (events_of (SenseKubeletInfo kubelet_host)).
Proof.
  split; [reflexivity|]. split; [reflexivity|].
  vm_compute. left. reflexivity.
Qed.

(** ** Soft failures of the inspection *)

Lemma stat_info_missing h p rc :
  fs_at h (hostPath h p) = None -> stat_info h p rc = None.
Proof. intros H. unfold stat_info. now rewrite H. Qed.

Lemma flat_map_skip {A B} (f : A -> list B) (pre post : list A) (x : A) :
  f x = [] -> flat_map f (pre ++ x :: post) = flat_map f (pre ++ post).
Proof.
  intros Hx. rewrite !flat_map_app. cbn [flat_map]. now rewrite Hx.
Qed.

(** C6: for every path that does not exist or cannot be accessed, the
    inspection returns nil and records one warning ([makeHostFileInfo]
    returns nil with the error its caller logs); nothing panics, and the
    callers go on as if the path had not been named:
    [makeProcessInfoVerbose] returns what it returns without the specs path,
    and [makeKubeletServiceFilesInfo] what it returns without that file. *)
Theorem Inspect_missing_is_soft_failure :
  forall (h : Host) (p : string) (readContent : bool),
    fs_at h (hostPath h p) = None ->
    makeHostFileInfoVerbose h p readContent
    = Returned None [StatAt (hostPath h p); Log WarnLevel "failed to MakeHostFileInfo"]
    /\ makeHostFileInfo h p readContent
       = Returned (None, Some (errors_New "stat failed")) [StatAt (hostPath h p)]
    /\ (forall proc configPath kubeConfigPath clientCaPath,
           exists r evs evs',
             makeProcessInfoVerbose h proc p configPath kubeConfigPath clientCaPath
             = Returned r evs
             /\ makeProcessInfoVerbose h proc "" configPath kubeConfigPath clientCaPath
                = Returned r evs')
    /\ (forall pid pre post,
           getKubeletServiceFiles h pid = (pre ++ p :: post, None) ->
           exists evs,
             makeKubeletServiceFilesInfo h pid
             = Returned
                 (nil_if_empty
                    (flat_map (fun f => option_list (stat_info h f false)) (pre ++ post)))
                 evs).
Proof.
  intros h p rc Hmissing.
  assert (Hfi : makeHostFileInfo h p rc
                = Returned (None, Some (errors_New "stat failed")) [StatAt (hostPath h p)]).
  { unfold makeHostFileInfo. now rewrite Hmissing. }
  split; [|split; [exact Hfi | split]].
  - unfold makeHostFileInfoVerbose. now rewrite Hfi.
  - intros proc c k ca.
    destruct (makeProcessInfoVerbose_value h proc p c k ca) as (evs & Hrun).
    destruct (makeProcessInfoVerbose_value h proc "" c k ca) as (evs' & Hrun').
    do 3 eexists. split; [exact Hrun|]. rewrite Hrun'.
    assert (Hnone : assembled_K8sProcessInfo h proc p c k ca
                    = assembled_K8sProcessInfo h proc "" c k ca).
    { unfold assembled_K8sProcessInfo, inspect_if_named.
      rewrite (@stat_info_missing h p false Hmissing).
      destruct (String.eqb p ""); reflexivity. }
    now rewrite <- Hnone.
  - intros pid pre post Hfiles.
    destruct (makeKubeletServiceFilesInfo_value h pid Hfiles) as (evs & Hrun & _).
    exists evs. rewrite Hrun. f_equal. f_equal.
    apply flat_map_skip.
    now rewrite (@stat_info_missing h p false Hmissing).
Qed.

Lemma Inspect_missing_is_soft_failure_witness :
  makeHostFileInfoVerbose worker_host "/etc/kubernetes/pki" false
  = Returned None [StatAt (hostPath worker_host "/etc/kubernetes/pki");
                   Log WarnLevel "failed to MakeHostFileInfo"].
Proof.
  apply (@Inspect_missing_is_soft_failure worker_host "/etc/kubernetes/pki" false).
  reflexivity.
Defined.

(** ** Path resolution: the claim and the code *)

(** Against C1 as stated: with the host root [/host], the resolution of
    [/../etc/shadow] does not fail; it yields [/etc/shadow], which is not
    below the host root. *)
Lemma Resolve_escapes_host_root :
  Resolve "/host" "/../etc/shadow" = "/etc/shadow"
  /\ is_descendant "/host" (Resolve "/host" "/../etc/shadow") = false
  /\ Resolve_spec "/host" "/../etc/shadow" = InvalidPath.
Proof. repeat split; reflexivity. Qed.

(** C1 (as amended): for every non-empty host root and every logical path
    that is empty or starts with a slash, the resolution is the normalized
    concatenation of the two, whether or not it stays below the host root:
    there is no InvalidPath failure, and the result is the one section 4.1
    specifies whenever that one is not InvalidPath.  With the host root
    [/host], [/../etc/shadow] resolves to [/etc/shadow] and
    [/etc/kubelet.conf] to [/host/etc/kubelet.conf]. *)
Theorem Resolve_joins_and_normalizes :
  (forall hostRoot logicalPath : string,
      hostRoot <> "" ->
      logicalPath = "" \/ strings.HasPrefix logicalPath "/" = true ->
      Resolve hostRoot logicalPath = path.Clean (hostRoot ++ logicalPath)%string
      /\ Resolve_spec hostRoot logicalPath
         = if is_descendant hostRoot (Resolve hostRoot logicalPath)
           then Resolved (Resolve hostRoot logicalPath)
           else InvalidPath)
  /\ Resolve "/host" "/../etc/shadow" = "/etc/shadow"
  /\ Resolve "/host" "/etc/kubelet.conf" = "/host/etc/kubelet.conf".
Proof.
  split; [|split; reflexivity].
  intros hostRoot logicalPath Hroot Hp.
  pose proof (@Resolve_is_Clean_of_concat hostRoot logicalPath Hroot Hp) as Hres.
  split; [exact Hres|].
  unfold Resolve_spec. now rewrite <- Hres.
Qed.

Lemma Resolve_joins_and_normalizes_witness :
  Resolve "/host" "/etc/kubelet.conf" = path.Clean ("/host" ++ "/etc/kubelet.conf")%string
  /\ Resolve_spec "/host" "/etc/kubelet.conf"
     = if is_descendant "/host" (Resolve "/host" "/etc/kubelet.conf")
       then Resolved (Resolve "/host" "/etc/kubelet.conf")
       else InvalidPath.
Proof.
  apply (proj1 Resolve_joins_and_normalizes "/host" "/etc/kubelet.conf").
  - discriminate.
  - right. reflexivity.
Defined.

(** ** [SenseControlPlaneInfo] *)

Lemma bind_Returned_inv {A B} (m : Outcome A) (k : A -> Outcome B) (b : B) (e : list Event) :
  bind m k = Returned b e ->
  exists a e1 e2, m = Returned a e1 /\ k a = Returned b e2 /\ e = e1 ++ e2.
Proof.
  unfold bind. destruct m as [a e1|e1]; [|discriminate].
  destruct (k a) as [b' e2|e2] eqn:Hk; [|discriminate].
  intros [= <- <-]. now exists a, e1, e2.
Qed.

Lemma returns_walk_node h filter n dir currentDepth :
  returns (walk_node h true filter n dir currentDepth).
Proof.
  destruct (@walk_node_spec h filter _ n dir currentDepth eq_refl) as (evs & Hrun & _).
  rewrite Hrun. now do 2 eexists.
Qed.

Lemma returns_makeHostDirFilesInfo h filter dir currentDepth :
  returns (makeHostDirFilesInfo h true filter dir currentDepth).
Proof.
  unfold makeHostDirFilesInfo.
  destruct (fs_at h (hostPath h dir)); [apply returns_walk_node | apply returns_ret].
Qed.

Lemma returns_getEtcdDataDir h : returns (getEtcdDataDir h).
Proof.
  unfold getEtcdDataDir.
  destruct (LocateProcessByExecSuffix_cases h etcdExe) as [(p & -> & _) | ->].
  - cbn [deref bind ret].
    destruct (GetArg p etcdDataDirArg) as [dataDir ok].
    destruct (negb ok || String.eqb dataDir ""); now do 2 eexists.
  - apply returns_ret.
Qed.

Lemma returns_makeAPIserverEncryptionProviderConfigFile h p :
  returns (makeAPIserverEncryptionProviderConfigFile h (Some p)).
Proof.
  unfold makeAPIserverEncryptionProviderConfigFile. cbn [deref].
  apply returns_bind; [apply returns_ret | intros d].
  destruct (GetArg d apiEncryptionProviderConfigArg) as [cfg ok].
  destruct ok; cbn [negb]; [|repeat returns_step].
  destruct (makeContaineredFileInfo h cfg true d) as [fi [e|]]; repeat returns_step.
Qed.

(** With an API-server process the collection runs to its end. *)
Lemma returns_collectControlPlaneInfo h p :
  LocateProcessByExecSuffix h apiServerExe = (Some p, None) ->
  returns (collectControlPlaneInfo h).
Proof.
  intros Hloc. unfold collectControlPlaneInfo. rewrite Hloc.
  destruct (LocateProcessByExecSuffix h controllerManagerExe) as [cm e2].
  destruct (LocateProcessByExecSuffix h schedulerExe) as [sc e3].
  repeat first
         [ apply returns_ret | apply returns_emit | apply returns_log_if_err
         | apply returns_makeProcessInfoVerbose
         | apply returns_makeAPIserverEncryptionProviderConfigFile
         | apply returns_makeHostFileInfoVerbose
         | apply returns_makeHostDirFilesInfo
         | apply returns_getEtcdDataDir
         | apply returns_bind; [|intros ?]
         | match goal with
           | |- returns (match ?x with _ => _ end) => destruct x
           end ].
Qed.

(** The record the collection returns has its [APIServerInfo] set. *)
Lemma collectControlPlaneInfo_APIServerInfo h info evs :
  collectControlPlaneInfo h = Returned info evs ->
  exists api, APIServerInfo info = Some api.
Proof.
  unfold collectControlPlaneInfo.
  destruct (LocateProcessByExecSuffix h apiServerExe) as [ap e1].
  destruct (LocateProcessByExecSuffix h controllerManagerExe) as [cm e2].
  destruct (LocateProcessByExecSuffix h schedulerExe) as [sc e3].
  intros H.
  repeat (apply bind_Returned_inv in H;
          let a := fresh "a" in
          let Hm := fresh "Hm" in
          destruct H as (a & ? & ? & Hm & H & ?); clear Hm; cbv beta in H).
  unfold ret in H. injection H as <- _.
  eexists. reflexivity.
Qed.

(** The last [if] of [SenseControlPlaneInfo], on a collection that ran to
    its end: the category error if and only if the nine fields are nil, the
    record with a nil error otherwise. *)
Lemma SenseControlPlaneInfo_decides h p :
  LocateProcessByExecSuffix h apiServerExe = (Some p, None) ->
  exists info api evs,
    collectControlPlaneInfo h = Returned info evs
    /\ APIServerInfo info = Some api
    /\ SenseControlPlaneInfo h
       = Returned (if no_evidence api info then (None, Some ErrNotControlPlane)
                   else (Some info, None)) evs.
Proof.
  intros Hloc.
  destruct (returns_collectControlPlaneInfo h Hloc) as (info & evs & Hrun).
  destruct (collectControlPlaneInfo_APIServerInfo h Hrun) as (api & Hapi).
  exists info, api, evs. split; [exact Hrun|]. split; [exact Hapi|].
  unfold SenseControlPlaneInfo. rewrite Hrun. cbn [bind]. rewrite Hapi.
  cbn [deref ret bind]. destruct (no_evidence api info); cbn; now rewrite !app_nil_r.
Qed.

Example SenseControlPlaneInfo_idle_apiserver :
  exists evs,
    SenseControlPlaneInfo idle_apiserver_host = Returned (None, Some ErrNotControlPlane) evs.
Proof. eexists. reflexivity. Qed.

Example SenseControlPlaneInfo_master :
  exists info evs,
    SenseControlPlaneInfo master_host = Returned (Some info, None) evs
    /\ AdminConfigFile info = stat_info master_host adminConfigPath false.
Proof. do 2 eexists. split; reflexivity. Qed.

(** C2, at a worker node: no process ends with [/kube-apiserver], the admin
    kubeconfig is there to be collected, and [SenseControlPlaneInfo] panics
    right after the first [makeProcessInfoVerbose], in
    [makeAPIserverEncryptionProviderConfigFile]: nothing else is collected
    and nothing is returned. *)
Theorem SenseControlPlaneInfo_worker_node_panics :
  LocateProcessByExecSuffix worker_host apiServerExe = (None, Some ErrProcessNotFound)
  /\ stat_info worker_host adminConfigPath false <> None
  /\ SenseControlPlaneInfo worker_host
     = Panicked [Log ErrorLevel "SenseControlPlaneInfo";
                 Log ErrorLevel "SenseControlPlaneInfo";
                 Log ErrorLevel "SenseControlPlaneInfo";
                 StatAt "/host/etc/kubernetes/manifests/kube-apiserver.yaml";
                 Log WarnLevel "failed to MakeHostFileInfo"].
Proof. split; [reflexivity|]. split; [discriminate | reflexivity]. Qed.

(** C3, at a node with no evidence of a control plane at all (no process,
    none of the files, no CNI paths): [SenseControlPlaneInfo] does not
    return the category error; it panics. *)
Theorem SenseControlPlaneInfo_no_evidence_panics :
  processTable bare_host = []
  /\ Forall (fun p => stat_info bare_host p false = None) controlPlanePaths
  /\ getContainerRuntimeCNIPaths bare_host = None
  /\ SenseControlPlaneInfo bare_host
     = Panicked [Log ErrorLevel "SenseControlPlaneInfo";
                 Log ErrorLevel "SenseControlPlaneInfo";
                 Log ErrorLevel "SenseControlPlaneInfo";
                 StatAt "/host/etc/kubernetes/manifests/kube-apiserver.yaml";
                 Log WarnLevel "failed to MakeHostFileInfo"].
Proof.
  split; [reflexivity|]. split; [|split; reflexivity].
  repeat constructor.
Qed.
Example Clean_ex1 : path.Clean "/host//../etc/shadow" = "/etc/shadow".
Proof. reflexivity. Qed.
Example Clean_ex2 : path.Clean "a/b/../../../c/./d/" = "../c/d".
Proof. reflexivity. Qed.
Example Clean_ex3 : path.Clean "/../a//b/./c/.." = "/a/b".
Proof. reflexivity. Qed.
Example Clean_ex4 : path.Clean "abc/def/.." = "abc".
Proof. reflexivity. Qed.
Example Clean_ex5 : path.Clean "../../abc" = "../../abc".
Proof. reflexivity. Qed.
Example Clean_ex6 : path.Clean "abc/./../def" = "def".
Proof. reflexivity. Qed.
Example Clean_ex7 : path.Clean "abc/../../././../def" = "../../def".
Proof. reflexivity. Qed.
Example Clean_ex8 : path.Clean "/abc/def/../../.." = "/".
Proof. reflexivity. Qed.
Example Clean_ex9 : path.Clean "a/.." = ".".
Proof. reflexivity. Qed.
Example Clean_ex10 : path.Clean "..a/b...//.c" = "..a/b.../.c".
Proof. reflexivity. Qed.
Example Join_ex1 : path.Join ["/host"; "/etc/kubelet.conf"] = "/host/etc/kubelet.conf".
Proof. reflexivity. Qed.
Example Join_ex2 : path.Join [""; "a"] = "a".
Proof. reflexivity. Qed.
Example Join_ex3 : path.Join ["a"; ""; "b"] = "a/b".
Proof. reflexivity. Qed.


(** * Further properties of the sensors *)

(** ** Resolution of host paths *)

Section CleanNames.

Import path.

Lemma is_dot_true (c : ascii) : is_dot c = true -> c = dot.
Proof. apply Ascii.eqb_eq. Qed.

(** A real name is copied to the buffer as one element. *)
Lemma clean_loop_real_name (w : string) :
  forall rooted out dd,
    real_name w = true ->
    clean_loop rooted w false out dd
    = rev (list_ascii_of_string w)
      ++ (if need_slash rooted out then slash :: out else out).
Proof.
  intros rooted out dd Hw. unfold real_name in Hw.
  repeat (apply andb_prop in Hw; destruct Hw as [Hw ?]).
  destruct w as [|c w1]; [discriminate|].
  destruct (is_dot c) eqn:Hdot.
  - apply is_dot_true in Hdot. subst c.
    destruct w1 as [|c1 w2]; [discriminate|].
    cbn [no_slash] in Hw.
    apply andb_prop in Hw. destruct Hw as [_ Hw].
    pose proof Hw as Hw1.
    cbn [no_slash] in Hw. apply andb_prop in Hw. destruct Hw as [Hc1 Hw2].
    apply negb_true_iff in Hc1.
    cbn [clean_loop]. replace (is_slash dot) with false by reflexivity.
    replace (is_dot dot) with true by reflexivity.
    cbn [end_or_slash andb]. rewrite Hc1.
    assert (Hdd : is_dot c1 && end_or_slash w2 = false).
    { destruct (is_dot c1) eqn:Hd1; [|reflexivity].
      apply is_dot_true in Hd1. subst c1.
      destruct w2 as [|c2 w3]; [discriminate|].
      cbn [no_slash] in Hw2. apply andb_prop in Hw2. destruct Hw2 as [Hc2 _].
      apply negb_true_iff in Hc2. cbn [end_or_slash andb]. exact Hc2. }
    rewrite Hdd.
    rewrite clean_loop_copy by exact Hw2.
    cbn [list_ascii_of_string rev]. now rewrite <- !app_assoc.
  - apply clean_loop_plain_elem. cbn [plain_elem]. now rewrite Hdot, Hw.
Qed.

(** Below a directory whose cleaned path ends with a name of two bytes or
    more, a real name is appended after a slash. *)
Lemma Clean_child (pre v w : string) :
  real_name v = true -> (2 <= String.length v)%nat -> real_name w = true ->
  Clean (pre ++ String slash (v ++ String slash w))
  = (Clean (pre ++ String slash v) ++ String slash w)%string.
Proof.
  intros Hv Hlen Hw.
  assert (Hloop : forall rooted inElem out dd p,
             exists o,
               clean_loop rooted (p ++ String slash v) inElem out dd
               = rev (list_ascii_of_string v) ++ o
               /\ clean_loop rooted (p ++ String slash (v ++ String slash w)) inElem out dd
                  = rev (list_ascii_of_string w)
                    ++ slash :: rev (list_ascii_of_string v) ++ o).
  { intros rooted inElem out dd p.
    destruct (@clean_loop_sync (String.length p) p rooted inElem out dd (le_n _))
      as (out1 & dd1 & Hsync).
    rewrite !Hsync.
    destruct (@clean_loop_sync (String.length v) v rooted false out1 dd1 (le_n _))
      as (out2 & dd2 & Hsync2).
    rewrite Hsync2.
    pose proof (Hsync2 "") as Hv2.
    rewrite (@clean_loop_trailing_slash (String.length v)) in Hv2 by lia.
    cbn [clean_loop] in Hv2. subst out2.
    rewrite !clean_loop_real_name by assumption.
    eexists. split; [reflexivity|].
    assert (Hneed : need_slash rooted
                      (rev (list_ascii_of_string v)
                       ++ (if need_slash rooted out1 then slash :: out1 else out1))
                    = true).
    { unfold need_slash at 1. rewrite length_app, length_rev.
      assert (Hl : List.length (list_ascii_of_string v) = String.length v).
      { clear. induction v; simpl; congruence. }
      rewrite Hl.
      destruct rooted; cbn [andb negb orb].
      - rewrite orb_false_r. apply negb_true_iff, Nat.eqb_neq. lia.
      - apply negb_true_iff, Nat.eqb_neq. lia. }
    rewrite Hneed. reflexivity. }
  assert (Hstr : forall o,
             out_string (rev (list_ascii_of_string w)
                         ++ slash :: rev (list_ascii_of_string v) ++ o)%list
             = (out_string (rev (list_ascii_of_string v) ++ o)%list
                ++ String slash w)%string).
  { intros o.
    assert (Hne : v <> "") by (intros ->; discriminate).
    assert (Hnil : rev (list_ascii_of_string v) ++ o <> []).
    { destruct v as [|c v']; [congruence|]. cbn [list_ascii_of_string rev].
      intros H. apply app_eq_nil in H. destruct H as [H _].
      apply app_eq_nil in H. destruct H as [_ H]. discriminate. }
    unfold out_string.
    destruct (rev (list_ascii_of_string v) ++ o) as [|x l] eqn:E; [congruence|].
    destruct (rev (list_ascii_of_string w) ++ slash :: x :: l) as [|y l'] eqn:E';
      [apply app_eq_nil in E'; destruct E' as [_ E']; discriminate|].
    rewrite <- E'. unfold buf_string.
    rewrite rev_app_distr. cbn [rev]. rewrite rev_involutive.
    rewrite <- !app_assoc. cbn [app].
    rewrite !string_of_list_ascii_app. cbn [string_of_list_ascii].
    rewrite string_of_list_ascii_of_string, string_app_assoc. reflexivity. }
  destruct pre as [|c pre].
  - change (Clean ("" ++ String slash (v ++ String slash w)))
      with (out_string (clean_loop true ("" ++ String slash (v ++ String slash w))
                          true [slash] 1)).
    change (Clean ("" ++ String slash v))
      with (out_string (clean_loop true ("" ++ String slash v) true [slash] 1)).
    destruct (Hloop true true [slash] 1%nat "") as (o & -> & ->).
    apply Hstr.
  - cbn [String.append].
    destruct (is_slash c) eqn:Hc.
    + change (Clean (String c (pre ++ String slash (v ++ String slash w))))
        with (out_string (if is_slash c
                          then clean_loop true (pre ++ String slash (v ++ String slash w))
                                 false [slash] 1
                          else clean_loop false
                                 (String c (pre ++ String slash (v ++ String slash w)))
                                 false [] 0)).
      change (Clean (String c (pre ++ String slash v)))
        with (out_string (if is_slash c
                          then clean_loop true (pre ++ String slash v) false [slash] 1
                          else clean_loop false (String c (pre ++ String slash v))
                                 false [] 0)).
      rewrite Hc.
      destruct (Hloop true false [slash] 1%nat pre) as (o & -> & ->).
      apply Hstr.
    + change (Clean (String c (pre ++ String slash (v ++ String slash w))))
        with (out_string (if is_slash c
                          then clean_loop true (pre ++ String slash (v ++ String slash w))
                                 false [slash] 1
                          else clean_loop false
                                 (String c (pre ++ String slash (v ++ String slash w)))
                                 false [] 0)).
      change (Clean (String c (pre ++ String slash v)))
        with (out_string (if is_slash c
                          then clean_loop true (pre ++ String slash v) false [slash] 1
                          else clean_loop false (String c (pre ++ String slash v))
                                 false [] 0)).
      rewrite Hc.
      change (String c (pre ++ String slash (v ++ String slash w)))
        with (String c pre ++ String slash (v ++ String slash w))%string.
      change (String c (pre ++ String slash v))
        with (String c pre ++ String slash v)%string.
      destruct (Hloop false false [] 0%nat (String c pre)) as (o & -> & ->).
      apply Hstr.
Qed.

End CleanNames.

Lemma Resolve_empty_root (p : string) :
  p <> "" -> Resolve "" p = path.Clean p.
Proof.
  intros Hp. destruct p as [|c p]; [congruence|]. reflexivity.
Qed.

(** X1: a leading slash of the logical path does not matter: under a
    non-empty host root, [/p] and [p] resolve to the same real path. *)
Theorem Resolve_leading_slash :
  forall hostRoot p : string,
    hostRoot <> "" ->
    Resolve hostRoot (String "/" p) = Resolve hostRoot p.
Proof.
  intros hostRoot p Hroot.
  rewrite !Resolve_nonempty_root by assumption.
  change ("/" ++ String "/"%char p)%string
    with (String path.slash (String path.slash p)).
  change ("/" ++ p)%string with (String path.slash p).
  apply Clean_double_slash.
Qed.

Lemma Resolve_leading_slash_witness :
  Resolve "." "/testdata/testmakehostfiles" = Resolve "." "testdata/testmakehostfiles".
Proof.
  apply (@Resolve_leading_slash "." "testdata/testmakehostfiles").
  discriminate.
Defined.

(** The real path of an entry of a directory whose logical path is clean
    and ends with a name of two bytes or more. *)
Lemma Resolve_child (hostRoot d v name : string) :
  let dir := (d ++ String path.slash v)%string in
  real_name v = true -> (2 <= String.length v)%nat ->
  path.Clean dir = dir ->
  real_name name = true ->
  Resolve hostRoot (path.Join [dir; name])
  = (Resolve hostRoot dir ++ String path.slash name)%string.
Proof.
  intros dir Hv Hlen Hclean Hname.
  assert (Hdir : dir <> "") by (subst dir; destruct d; discriminate).
  assert (Hjoin : path.Join [dir; name] = (dir ++ String path.slash name)%string).
  { change (path.Join [dir; name]) with (Resolve dir name).
    rewrite Resolve_nonempty_root by assumption.
    change ("/" ++ name)%string with (String path.slash name).
    subst dir. rewrite string_app_assoc. cbn [String.append].
    rewrite Clean_child by assumption. rewrite Hclean, string_app_assoc. reflexivity. }
  rewrite Hjoin.
  destruct hostRoot as [|c root].
  - rewrite !Resolve_empty_root by (try assumption; destruct dir; discriminate).
    subst dir. rewrite string_app_assoc. cbn [String.append].
    now rewrite Clean_child by assumption.
  - rewrite !Resolve_nonempty_root by discriminate.
    subst dir.
    replace (String c root ++ "/" ++ (d ++ String path.slash v) ++ String path.slash name)%string
      with ((String c root ++ "/" ++ d) ++ String path.slash (v ++ String path.slash name))%string.
    + rewrite Clean_child by assumption.
      now rewrite !string_app_assoc.
    + rewrite !string_app_assoc. cbn [String.append]. reflexivity.
Qed.

Lemma split_elems_app_slash (a b cur : string) :
  split_elems (a ++ String path.slash b) cur = split_elems a cur ++ split_elems b "".
Proof.
  revert cur. induction a as [|c a IH]; intros cur; cbn [String.append split_elems].
  - reflexivity.
  - destruct (path.is_slash c); [cbn [app]; f_equal|]; apply IH.
Qed.

Lemma split_elems_no_slash (w cur : string) :
  path.no_slash w = true -> split_elems w cur = [(cur ++ w)%string].
Proof.
  revert cur. induction w as [|c w IH]; intros cur Hw; cbn [split_elems].
  - now rewrite string_app_empty_r.
  - cbn [path.no_slash] in Hw. apply andb_prop in Hw. destruct Hw as [Hc Hw].
    apply negb_true_iff in Hc. rewrite Hc. rewrite IH by assumption.
    now rewrite string_app_assoc.
Qed.

Lemma real_name_is_real_elem (w : string) :
  real_name w = true -> path.no_slash w = true /\ is_real_elem w = true.
Proof.
  unfold real_name, is_real_elem. intros H.
  repeat (apply andb_prop in H; destruct H as [H ?]).
  split; [assumption|]. now apply andb_true_intro.
Qed.

Lemma path_elems_child (dir name : string) :
  real_name name = true ->
  path_elems (dir ++ String path.slash name) = path_elems dir ++ [name].
Proof.
  intros Hname. apply real_name_is_real_elem in Hname. destruct Hname as [Hns Hreal].
  unfold path_elems. rewrite split_elems_app_slash, filter_app.
  rewrite (@split_elems_no_slash name "") by assumption.
  cbn [String.append List.filter]. now rewrite Hreal.
Qed.

Lemma fs_lookup_app (n : FsNode) (l1 l2 : list string) :
  fs_lookup n (l1 ++ l2)
  = match fs_lookup n l1 with
    | Some m => fs_lookup m l2
    | None => None
    end.
Proof.
  revert n. induction l1 as [|e l1 IH]; intros n; cbn [app fs_lookup].
  - reflexivity.
  - destruct n as [u g m ok c | u g m [|] entries]; try reflexivity.
    destruct (assoc e entries); [apply IH | reflexivity].
Qed.

(** In a directory that can be traversed, the node at [dir/name] is the
    entry [name] of the directory. *)
Lemma fs_at_child (h : Host) (dir name : string) uid gid mode entries :
  fs_at h dir = Some (FsDir uid gid mode true entries) ->
  real_name name = true ->
  fs_at h (dir ++ String path.slash name) = assoc name entries.
Proof.
  intros Hdir Hname. unfold fs_at in *.
  rewrite path_elems_child by assumption.
  rewrite fs_lookup_app, Hdir. cbn [fs_lookup].
  now destruct (assoc name entries).
Qed.

(** ** The OS-release sensor: [getOsReleaseFile] and [SenseOsRelease] *)

Lemma find_firstn_skipn {A} (f : A -> bool) (n : nat) (l : list A) :
  find f l
  = match find f (firstn n l) with
    | Some x => Some x
    | None => find f (skipn n l)
    end.
Proof.
  revert l. induction n as [|n IH]; intros l; [reflexivity|].
  destruct l as [|x l]; [reflexivity|].
  cbn [firstn skipn find]. destruct (f x); [reflexivity | apply IH].
Qed.

Lemma readdir_find_value (realPath : string) :
  forall fuel names,
    (List.length names < fuel)%nat ->
    exists evs,
      readdir_find realPath fuel names = Returned (first_os_release names) evs
      /\ reads_no_file evs.
Proof.
  induction fuel as [|fuel IH]; intros names Hfuel; [lia|].
  cbn [readdir_find]. unfold first_os_release.
  destruct names as [|n0 names'].
  - cbn. eexists. split; [reflexivity|].
    intros q Hq. split_in Hq. discriminate.
  - set (names := n0 :: names') in *.
    unfold Readdirnames. cbn [names].
    fold names.
    rewrite (find_firstn_skipn _ 100 names).
    destruct (find _ (firstn 100 names)) as [name|] eqn:Hfind.
    + cbn. eexists. split; [reflexivity|].
      intros q Hq. split_in Hq; discriminate.
    + destruct (IH (skipn 100 names)) as (evs & Hrun & Hno).
      { rewrite length_skipn. subst names. cbn [List.length] in *. lia. }
      rewrite Hrun. unfold first_os_release. cbn [bind emit].
      eexists. split; [reflexivity|].
      intros q Hq. split_in Hq; [discriminate|]. now apply Hno in Hq.
Qed.

Lemma os_Open_dir h realPath uid gid mode entries :
  fs_at h realPath = Some (FsDir uid gid mode true entries) ->
  os_Open h realPath = Returned None [OpenAt realPath].
Proof. intros H. unfold os_Open. now rewrite H. Qed.

Lemma os_Open_fails h realPath :
  can_open h realPath = false ->
  exists e, os_Open h realPath = Returned (Some e) [OpenAt realPath].
Proof.
  unfold can_open, os_Open. intros H.
  destruct (fs_at h realPath) as [n|]; [rewrite H|]; now eexists.
Qed.

Lemma getOsReleaseFile_dir h uid gid mode entries :
  fs_at h (Resolve (HostFileSystemDefaultLocation h) etcDirName)
  = Some (FsDir uid gid mode true entries) ->
  exists evs,
    getOsReleaseFile h = Returned (first_os_release (map fst entries)) evs
    /\ reads_no_file evs.
Proof.
  intros Hdir.
  unfold getOsReleaseFile. fold (Resolve (HostFileSystemDefaultLocation h) etcDirName).
  rewrite (os_Open_dir _ _ Hdir), Hdir. cbn [bind].
  destruct (@readdir_find_value (Resolve (HostFileSystemDefaultLocation h) etcDirName)
              (S (List.length entries)) (map fst entries))
    as (evs & Hrun & Hno).
  { rewrite length_map. lia. }
  rewrite Hrun. eexists. split; [reflexivity|].
  intros q Hq. split_in Hq; [discriminate|]. now apply Hno in Hq.
Qed.

(** X2: [getOsReleaseFile] lists the host's [/etc] in batches of 100 names,
    and the batches do not show: it returns the first name of the directory,
    in listing order, that ends with [os-release], and [io.EOF] with an empty
    name if there is none.  If [/etc] cannot be opened under the host root
    it returns an error after the open, without listing anything.  It never
    reads a file. *)
Theorem getOsReleaseFile_first_entry :
  forall h : Host,
    let hostEtcDir := Resolve (HostFileSystemDefaultLocation h) etcDirName in
    (can_open h hostEtcDir = false ->
     exists e, getOsReleaseFile h = Returned ("", Some e) [OpenAt hostEtcDir])
    /\ (forall uid gid mode entries,
           fs_at h hostEtcDir = Some (FsDir uid gid mode true entries) ->
           exists evs,
             getOsReleaseFile h = Returned (first_os_release (map fst entries)) evs
             /\ reads_no_file evs
             /\ match first_os_release (map fst entries) with
                | (name, None) =>
                    In name (map fst entries)
                    /\ strings.HasSuffix name osReleaseFileSuffix = true
                | (name, Some _) =>
                    name = ""
                    /\ forall n, In n (map fst entries) ->
                                 strings.HasSuffix n osReleaseFileSuffix = false
                end).
Proof.
  intros h hostEtcDir. split.
  - intros Hopen. destruct (os_Open_fails h hostEtcDir Hopen) as (e & Hrun).
    unfold getOsReleaseFile. fold (Resolve (HostFileSystemDefaultLocation h) etcDirName).
    fold hostEtcDir. rewrite Hrun. now eexists.
  - intros uid gid mode entries Hdir.
    destruct (getOsReleaseFile_dir h Hdir) as (evs & Hrun & Hno).
    exists evs. split; [exact Hrun|]. split; [exact Hno|].
    unfold first_os_release.
    destruct (find _ (map fst entries)) as [name|] eqn:Hfind.
    + now apply find_some in Hfind.
    + split; [reflexivity|]. intros n Hn.
      now apply (find_none _ _ Hfind).
Qed.

Lemma getOsReleaseFile_first_entry_witness :
  exists evs,
    getOsReleaseFile big_etc_host = Returned (first_os_release (map fst big_etc)) evs
    /\ reads_no_file evs
    /\ match first_os_release (map fst big_etc) with
       | (name, None) =>
           In name (map fst big_etc)
           /\ strings.HasSuffix name osReleaseFileSuffix = true
       | (name, Some _) =>
           name = ""
           /\ forall n, In n (map fst big_etc) ->
                        strings.HasSuffix n osReleaseFileSuffix = false
       end.
Proof.
  apply (proj2 (getOsReleaseFile_first_entry big_etc_host) 0%Z 0%Z 493%Z big_etc).
  reflexivity.
Defined.

Example getOsReleaseFile_second_batch :
  exists evs,
    getOsReleaseFile big_etc_host = Returned ("os-release", None) evs
    /\ List.length (List.filter (fun e => match e with ReadDirAt _ => true | _ => false end) evs)
       = 2%nat.
Proof. eexists. split; reflexivity. Qed.

(** X3: when [getOsReleaseFile] finds a name in the host's [/etc],
    [SenseOsRelease] reads the entry of that name in that directory, and
    nothing else: the real path read is the resolved [/etc], a slash and the
    name; if the entry is a readable regular file its content is returned
    with a nil error. *)
Theorem SenseOsRelease_reads_found_entry :
  forall (h : Host) uid gid mode entries name,
    let hostEtcDir := Resolve (HostFileSystemDefaultLocation h) etcDirName in
    let osRelease := (hostEtcDir ++ String path.slash name)%string in
    fs_at h hostEtcDir = Some (FsDir uid gid mode true entries) ->
    first_os_release (map fst entries) = (name, None) ->
    real_name name = true ->
    exists r evs,
      SenseOsRelease h = Returned r evs
      /\ In (ReadFileAt osRelease) evs
      /\ (forall q, In (ReadFileAt q) evs -> q = osRelease)
      /\ fs_at h osRelease = assoc name entries
      /\ (forall u g m content,
             assoc name entries = Some (FsFile u g m true content) ->
             r = (Some content, None)).
Proof.
  intros h uid gid mode entries name hostEtcDir osRelease Hdir Hfirst Hname.
  destruct (getOsReleaseFile_dir h Hdir) as (evs & Hrun & Hno).
  unfold SenseOsRelease. rewrite Hrun, Hfirst. cbn [bind fst snd].
  unfold ReadFileOnHostFileSystem, hostPath.
  assert (Hpath : Resolve (HostFileSystemDefaultLocation h) (path.Join [etcDirName; name])
                  = osRelease).
  { apply (@Resolve_child (HostFileSystemDefaultLocation h) "" "etc" name);
      [reflexivity | cbn; lia | reflexivity | assumption]. }
  rewrite Hpath.
  assert (Hchild : fs_at h osRelease = assoc name entries)
    by (apply (@fs_at_child h hostEtcDir name uid gid mode entries Hdir Hname)).
  unfold os_ReadFile. cbn [bind emit]. rewrite Hchild.
  destruct (assoc name entries) as [[u g m [|] content | u g m ok sub]|];
    cbn [ret]; do 2 eexists; (split; [reflexivity|]);
    (split; [find_in|]);
    (split; [intros q Hq; split_in Hq; try congruence; now apply Hno in Hq|]);
    (split; [reflexivity|]); intros; congruence.
Qed.

Lemma SenseOsRelease_reads_found_entry_witness :
  exists r evs,
    SenseOsRelease os_release_host = Returned r evs
    /\ In (ReadFileAt "/host/etc/os-release") evs
    /\ (forall q, In (ReadFileAt q) evs -> q = "/host/etc/os-release")
    /\ fs_at os_release_host "/host/etc/os-release" = assoc "os-release" os_release_etc
    /\ (forall u g m content,
           assoc "os-release" os_release_etc = Some (FsFile u g m true content) ->
           r = (Some content, None)).
Proof.
  apply (@SenseOsRelease_reads_found_entry os_release_host 0%Z 0%Z 493%Z
           os_release_etc "os-release").
  - reflexivity.
  - reflexivity.
  - reflexivity.
Defined.

Example SenseOsRelease_content :
  exists evs, SenseOsRelease os_release_host = Returned (Some "NAME=Flatcar", None) evs.
Proof. eexists. reflexivity. Qed.

(** X4: if the host's [/etc] cannot be opened, or holds no name that ends
    with [os-release], [SenseOsRelease] returns an empty, non-nil content
    together with an error whose text carries the cause, and it reads no
    file. *)
Theorem SenseOsRelease_without_file :
  forall h : Host,
    let hostEtcDir := Resolve (HostFileSystemDefaultLocation h) etcDirName in
    can_open h hostEtcDir = false
    \/ (exists uid gid mode entries,
           fs_at h hostEtcDir = Some (FsDir uid gid mode true entries)
           /\ forall n, In n (map fst entries) ->
                        strings.HasSuffix n osReleaseFileSuffix = false) ->
    exists cause evs,
      SenseOsRelease h
      = Returned (Some "", Some (fmt_Errorf_v "failed to find os-release file" cause)) evs
      /\ reads_no_file evs.
Proof.
  intros h hostEtcDir [Hopen | (uid & gid & mode & entries & Hdir & Hnone)].
  - destruct (os_Open_fails h hostEtcDir Hopen) as (e & Hrun).
    unfold SenseOsRelease, getOsReleaseFile.
    fold (Resolve (HostFileSystemDefaultLocation h) etcDirName). fold hostEtcDir.
    rewrite Hrun. cbn. do 2 eexists. split; [reflexivity|].
    intros q Hq. split_in Hq. discriminate.
  - destruct (getOsReleaseFile_dir h Hdir) as (evs & Hrun & Hno).
    unfold SenseOsRelease. rewrite Hrun. unfold first_os_release.
    destruct (find _ (map fst entries)) as [name|] eqn:Hfind.
    + apply find_some in Hfind. destruct Hfind as [Hin Hsuf].
      rewrite (Hnone _ Hin) in Hsuf. discriminate.
    + cbn. do 2 eexists. split; [reflexivity|].
      intros q Hq. rewrite app_nil_r in Hq. now apply Hno in Hq.
Qed.

Lemma SenseOsRelease_without_file_witness :
  exists cause evs,
    SenseOsRelease bare_host
    = Returned (Some "", Some (fmt_Errorf_v "failed to find os-release file" cause)) evs
    /\ reads_no_file evs.
Proof.
  apply (@SenseOsRelease_without_file bare_host).
  left. reflexivity.
Defined.

(** ** The security-hardening sensor *)

Lemma getSELinuxStatus_value (h : Host) :
  let selinuxConf := Resolve (HostFileSystemDefaultLocation h) seLinuxConfigFileName in
  let profiles := Resolve (HostFileSystemDefaultLocation h) appArmorProfilesFileName in
  getSELinuxStatus h
  = (if can_open h selinuxConf then
       Returned
         match file_content h profiles with
         | Some content =>
             if (0 <? String.length content)%nat then content else "not found"
         | None => "not found"
         end
         [OpenAt selinuxConf; ReadFileAt profiles]
     else Returned "not found" [OpenAt selinuxConf]).
Proof.
  intros selinuxConf profiles.
  unfold getSELinuxStatus, os_Open, can_open, ReadFileOnHostFileSystem, os_ReadFile,
    file_content, hostPath.
  fold (Resolve (HostFileSystemDefaultLocation h) seLinuxConfigFileName).
  fold selinuxConf. fold profiles.
  destruct (fs_at h selinuxConf) as [n|]; [|reflexivity].
  destruct (node_perm_ok n); [|reflexivity].
  destruct (fs_at h profiles) as [[u g m [|] content | u g m ok entries]|];
    try reflexivity.
  cbn. destruct (String.length content); reflexivity.
Qed.

(** X5: [getAppArmorStatus] reports [unloaded] when the AppArmor profiles
    file cannot be opened under the host root, [running] when it can be
    opened and read with a non-empty content, and [stopped] otherwise; it
    touches no other path. *)
Theorem getAppArmorStatus_cases :
  forall h : Host,
    let profiles := Resolve (HostFileSystemDefaultLocation h) appArmorProfilesFileName in
    getAppArmorStatus h
    = if can_open h profiles then
        Returned
          match file_content h profiles with
          | Some content =>
              if (0 <? String.length content)%nat then "running" else "stopped"
          | None => "stopped"
          end
          [OpenAt profiles; ReadFileAt profiles]
      else Returned "unloaded" [OpenAt profiles].
Proof.
  intros h profiles.
  unfold getAppArmorStatus, os_Open, can_open, ReadFileOnHostFileSystem, os_ReadFile,
    file_content, hostPath.
  fold (Resolve (HostFileSystemDefaultLocation h) appArmorProfilesFileName).
  fold profiles.
  destruct (fs_at h profiles) as [[u g m [|] content | u g m [|] entries]|];
    try reflexivity.
  cbn. destruct (String.length content); reflexivity.
Qed.

(** X6: in the report of [SenseLinuxSecurityHardening] the SELinux field
    never tells anything about SELinux: it is [not found] or the content of
    the AppArmor profiles file, and whenever it is not [not found] the
    AppArmor field is [running].  The encoder is applied to the two
    statuses, whatever they are. *)
Theorem SenseLinuxSecurityHardening_fields :
  forall (json_Marshal : LinuxSecurityHardeningStatus -> option string * option error)
         (h : Host),
    let profiles := Resolve (HostFileSystemDefaultLocation h) appArmorProfilesFileName in
    exists appArmor seLinux evs,
      SenseLinuxSecurityHardening json_Marshal h
      = Returned (json_Marshal {| AppArmor := appArmor; SeLinux := seLinux |}) evs
      /\ (seLinux = "not found" \/ file_content h profiles = Some seLinux)
      /\ (seLinux <> "not found" -> appArmor = "running")
      /\ (appArmor = "unloaded" \/ appArmor = "stopped" \/ appArmor = "running")
      /\ reads_only profiles evs.
Proof.
  intros json_Marshal h profiles.
  unfold SenseLinuxSecurityHardening. rewrite getSELinuxStatus_value.
  fold profiles.
  set (selinuxConf := Resolve (HostFileSystemDefaultLocation h) seLinuxConfigFileName).
  unfold getAppArmorStatus, os_Open, ReadFileOnHostFileSystem, os_ReadFile, hostPath,
    can_open, file_content.
  fold (Resolve (HostFileSystemDefaultLocation h) appArmorProfilesFileName).
  fold profiles.
  destruct (fs_at h profiles) as [[u g m [|] content | u g m [|] entries]|];
    destruct (fs_at h selinuxConf) as [[u' g' m' [|] c' | u' g' m' [|] e']|];
    cbn [node_perm_ok bind ret emit app];
    try destruct (String.length content) eqn:Hlen;
    cbn [Nat.ltb Nat.leb bind ret app];
    do 3 eexists; (split; [reflexivity|]);
    (split; [first [left; reflexivity | right; reflexivity]|]);
    (split; [first [reflexivity | intros Hne; now contradiction Hne]|]);
    (split; [first [left; reflexivity | right; left; reflexivity
                   | right; right; reflexivity]|]);
    intros q Hq; split_in Hq; congruence.
Qed.

Example SenseLinuxSecurityHardening_report :
  exists evs,
    SenseLinuxSecurityHardening (fun s => (Some (AppArmor s ++ "," ++ SeLinux s)%string, None))
      selinux_host
    = Returned (Some "running,docker-default (enforce)", None) evs.
Proof. eexists. reflexivity. Qed.

(** ** The kubelet sensor: service files *)

Lemma stat_info_Path h p rc fi : stat_info h p rc = Some fi -> Path fi = p.
Proof.
  unfold stat_info. destruct (fs_at h (hostPath h p)) as [[]|]; cbn;
    intros [= <-]; reflexivity.
Qed.

Lemma stat_info_no_content h p fi : stat_info h p false = Some fi -> Content fi = None.
Proof.
  unfold stat_info. destruct (fs_at h (hostPath h p)) as [[]|]; cbn;
    intros [= <-]; reflexivity.
Qed.

Lemma flat_map_option_length {A B} (f : A -> option B) (l : list A) :
  (List.length (flat_map (fun x => option_list (f x)) l) <= List.length l)%nat.
Proof.
  induction l as [|x l IH]; cbn [flat_map List.length]; [lia|].
  rewrite length_app. destruct (f x); cbn [option_list List.length]; lia.
Qed.

(** X7: [makeKubeletServiceFilesInfo] returns nil when the service files
    cannot be listed and when none of them can be inspected, and never an
    empty slice that is not nil; each info it returns is the inspection,
    without content, of one of the listed files, and there are no more
    infos than files. *)
Theorem makeKubeletServiceFilesInfo_result :
  forall (h : Host) (pid : Z),
  exists r evs,
    makeKubeletServiceFilesInfo h pid = Returned r evs
    /\ r <> Some []
    /\ (snd (getKubeletServiceFiles h pid) <> None -> r = None)
    /\ (forall l, r = Some l ->
          (List.length l <= List.length (fst (getKubeletServiceFiles h pid)))%nat
          /\ Forall (fun fi =>
                       In (Path fi) (fst (getKubeletServiceFiles h pid))
                       /\ stat_info h (Path fi) false = Some fi
                       /\ Content fi = None) l)
    /\ (Forall (fun f => stat_info h f false = None) (fst (getKubeletServiceFiles h pid)) ->
        r = None).
Proof.
  intros h pid.
  destruct (getKubeletServiceFiles h pid) as [files [e|]] eqn:Hfiles.
  - unfold makeKubeletServiceFilesInfo. rewrite Hfiles. cbn.
    do 2 eexists. split; [reflexivity|].
    split; [discriminate|]. split; [reflexivity|].
    split; [intros l Hl; discriminate | reflexivity].
  - destruct (makeKubeletServiceFilesInfo_value h pid Hfiles) as (evs & Hrun & _).
    rewrite Hrun. cbn [fst snd]. do 2 eexists. split; [reflexivity|].
    set (infos := flat_map (fun f => option_list (stat_info h f false)) files).
    assert (Hinfos : Forall (fun fi =>
                               In (Path fi) files
                               /\ stat_info h (Path fi) false = Some fi
                               /\ Content fi = None) infos).
    { apply Forall_forall. intros fi Hfi. subst infos.
      apply in_flat_map in Hfi. destruct Hfi as (f & Hf & Hfi).
      destruct (stat_info h f false) as [fi'|] eqn:Hstat; [|destruct Hfi].
      destruct Hfi as [<-|[]].
      rewrite (stat_info_Path _ _ _ Hstat).
      split; [exact Hf|]. split; [exact Hstat|].
      now apply stat_info_no_content in Hstat. }
    split; [destruct infos; discriminate|].
    split; [congruence|]. split.
    + intros l Hl.
      assert (l = infos) by (destruct infos; [discriminate | now injection Hl]).
      subst l. split; [apply flat_map_option_length | exact Hinfos].
    + intros Hnone.
      assert (infos = []) as ->; [|reflexivity].
      subst infos. clear - Hnone.
      induction Hnone as [|f files Hf _ IH]; cbn [flat_map]; [reflexivity|].
      now rewrite Hf, IH.
Qed.

Example makeKubeletServiceFilesInfo_skips_missing :
  exists evs,
    makeKubeletServiceFilesInfo service_kubelet_host 702
    = Returned (Some [node_FileInfo "/etc/systemd/kubelet.service" false (file "[Service]")])
        evs.
Proof. eexists. reflexivity. Qed.

(** ** What [makeProcessInfoVerbose] inspects *)

Lemma stat_paths_app (e1 e2 : list Event) :
  stat_paths (e1 ++ e2) = stat_paths e1 ++ stat_paths e2.
Proof. apply flat_map_app. Qed.

Lemma reads_no_file_app (e1 e2 : list Event) :
  reads_no_file e1 -> reads_no_file e2 -> reads_no_file (e1 ++ e2).
Proof.
  intros H1 H2 q Hq. apply in_app_or in Hq. destruct Hq as [Hq|Hq];
    [now apply H1 in Hq | now apply H2 in Hq].
Qed.

Lemma reads_no_file_nil : reads_no_file [].
Proof. intros q []. Qed.

Lemma reads_no_file_log lvl msg : reads_no_file [Log lvl msg].
Proof. intros q Hq. split_in Hq. discriminate. Qed.

Lemma makeHostFileInfoVerbose_trace h p :
  exists evs,
    makeHostFileInfoVerbose h p false = Returned (stat_info h p false) evs
    /\ stat_paths evs = [hostPath h p]
    /\ reads_no_file evs.
Proof.
  unfold makeHostFileInfoVerbose, makeHostFileInfo, stat_info.
  destruct (fs_at h (hostPath h p)) as [n|]; cbn; eexists;
    (split; [reflexivity|]); (split; [reflexivity|]);
    intros q Hq; split_in Hq; discriminate.
Qed.

Ltac trace_file h file_path :=
  let E := fresh "Enamed" in
  destruct (String.eqb file_path "") eqn:E;
  [| let e := fresh "e" in
     let Hs := fresh "Hs" in
     let Hr := fresh "Hr" in
     destruct (makeHostFileInfoVerbose_trace h file_path) as (e & -> & Hs & Hr) ];
  cbn [bind ret].

(** X8: [makeProcessInfoVerbose] inspects exactly the paths that are not
    empty, in the order specs, config, kubeconfig, client CA; an empty path
    is skipped, not resolved to the host root; and no file content is
    read. *)
Theorem makeProcessInfoVerbose_inspects :
  forall (h : Host) (p : option ProcessDetails)
         (specsPath configPath kubeConfigPath clientCaPath : string),
  exists r evs,
    makeProcessInfoVerbose h p specsPath configPath kubeConfigPath clientCaPath
    = Returned r evs
    /\ stat_paths evs
       = map (hostPath h)
           (List.filter (fun file_path => negb (String.eqb file_path ""))
              [specsPath; configPath; kubeConfigPath; clientCaPath])
    /\ reads_no_file evs.
Proof.
  intros h p s c k ca.
  unfold makeProcessInfoVerbose. cbn [for_range List.filter].
  trace_file h s; trace_file h c; trace_file h k; trace_file h ca;
    cbn [negb map];
    match goal with
    | |- context [if ?b then ret None else _] => destruct b
    end;
    cbn [bind ret]; do 2 eexists; (split; [reflexivity|]);
    rewrite ?app_nil_r, ?app_nil_l, ?stat_paths_app;
    (split;
     [ repeat match goal with H : stat_paths _ = _ |- _ => rewrite H; clear H end;
       reflexivity
     | repeat first [ apply reads_no_file_nil | assumption
                    | apply reads_no_file_app ] ]).
Qed.

(** ** The kubelet sensor: the report *)

Lemma makeHostFileInfo_trace h p rc :
  exists evs,
    makeHostFileInfo h p rc
    = Returned (stat_info h p rc,
                match stat_info h p rc with
                | None => Some (errors_New "stat failed")
                | Some _ => None
                end) evs
    /\ reads_only (hostPath h p) evs
    /\ (rc = false -> reads_no_file evs).
Proof.
  unfold makeHostFileInfo, stat_info.
  destruct (fs_at h (hostPath h p)) as [n|]; cbn [option_map].
  - destruct rc; cbn [andb].
    + destruct (negb (node_is_dir n)); cbn; eexists; (split; [reflexivity|]);
        (split; [intros q Hq; split_in Hq; congruence | discriminate]).
    + cbn. eexists. split; [reflexivity|].
      split; [intros q Hq | intros _ q Hq]; split_in Hq; discriminate.
  - cbn. eexists. split; [reflexivity|].
    split; [intros q Hq | intros _ q Hq]; split_in Hq; discriminate.
Qed.

Lemma makeKubeletServiceFilesInfo_reads_no_file h pid :
  exists r evs,
    makeKubeletServiceFilesInfo h pid = Returned r evs /\ reads_no_file evs.
Proof.
  unfold makeKubeletServiceFilesInfo.
  destruct (getKubeletServiceFiles h pid) as [files [e|]].
  - cbn. do 2 eexists. split; [reflexivity | apply reads_no_file_log].
  - assert (Hloop : forall acc,
               exists l evs,
                 for_range files
                   (fun serviceFiles file =>
                      info <- makeHostFileInfoVerbose h file false ;;
                      match info with
                      | Some fi => ret (serviceFiles ++ [fi])
                      | None => ret serviceFiles
                      end) acc
                 = Returned l evs /\ reads_no_file evs).
    { induction files as [|f rest IH]; intros acc; cbn [for_range].
      - do 2 eexists. split; [reflexivity | apply reads_no_file_nil].
      - destruct (makeHostFileInfoVerbose_trace h f) as (e1 & -> & _ & Hr1).
        destruct (stat_info h f false) as [fi|]; cbn [bind ret].
        + destruct (IH (acc ++ [fi])) as (l & e2 & -> & Hr2).
          do 2 eexists. split; [reflexivity|].
          rewrite app_nil_r. now apply reads_no_file_app.
        + destruct (IH acc) as (l & e2 & -> & Hr2).
          do 2 eexists. split; [reflexivity|].
          rewrite app_nil_r. now apply reads_no_file_app. }
    destruct (Hloop []) as (l & evs & -> & Hr). cbn [bind].
    destruct (List.length l =? 0)%nat; cbn [ret]; do 2 eexists;
      (split; [reflexivity|]); now rewrite app_nil_r.
Qed.

Lemma reads_only_app (realPath : string) (e1 e2 : list Event) :
  reads_only realPath e1 -> reads_only realPath e2 -> reads_only realPath (e1 ++ e2).
Proof.
  intros H1 H2 q Hq. apply in_app_or in Hq. destruct Hq; auto.
Qed.

Lemma reads_no_file_only (realPath : string) (evs : list Event) :
  reads_no_file evs -> reads_only realPath evs.
Proof. intros H q Hq. now apply H in Hq. Qed.

(** The run of [SenseKubeletInfo] for a located kubelet. *)
Lemma SenseKubeletInfo_value h proc :
  LocateKubeletProcess h = (Some proc, None) ->
  exists serviceFiles evs0 evs,
    makeKubeletServiceFilesInfo h (PID proc) = Returned serviceFiles evs0
    /\ SenseKubeletInfo h = Returned (Some (kubelet_report h proc serviceFiles), None) evs
    /\ reads_only (hostPath h (kubelet_configPath proc)) evs.
Proof.
  intros Hloc. unfold SenseKubeletInfo. rewrite Hloc. cbn [deref bind ret].
  destruct (makeKubeletServiceFilesInfo_reads_no_file h (PID proc))
    as (sf & e0 & Hsf & Hr0).
  rewrite Hsf. exists sf, e0. cbn [bind].
  unfold kubelet_report, kubelet_caFilePath, kubelet_kubeConfigPath, kubelet_configPath.
  destruct (GetArg proc kubeletConfigArgName) as [cfgArg cfgOk].
  destruct (GetArg proc (kubeConfigArgName h)) as [kcArg kcOk].
  destruct (GetArg proc kubeletClientCAArgName) as [caArg caOk].
  cbn [fst snd].
  set (configPath := if cfgOk then cfgArg else kubeletConfigDefaultPath).
  set (kubeConfigPath := if kcOk then kcArg else kubeletConfigDefaultPath).
  destruct (makeHostFileInfo_trace h configPath true) as (ecfg & -> & Hrcfg & _).
  destruct (makeHostFileInfo_trace h kubeConfigPath false) as (ekc & -> & _ & Hrkc).
  specialize (Hrkc eq_refl).
  cbn [bind ret fst snd].
  assert (Hca : forall caFilePath,
             exists eca,
               makeHostFileInfo h caFilePath false
               = Returned (stat_info h caFilePath false,
                           match stat_info h caFilePath false with
                           | None => Some (errors_New "stat failed")
                           | Some _ => None
                           end) eca
               /\ reads_no_file eca).
  { intros caFilePath.
    destruct (makeHostFileInfo_trace h caFilePath false) as (eca & Hrun & _ & Hr).
    exists eca. split; [exact Hrun | now apply Hr]. }
  assert (Hfin : forall (evs : list Event),
             reads_no_file evs ->
             reads_only (hostPath h configPath) (([] ++ e0 ++ ecfg ++ evs))).
  { intros evs Hevs. cbn [app].
    apply reads_only_app; [now apply reads_no_file_only|].
    apply reads_only_app; [assumption | now apply reads_no_file_only]. }
  destruct (stat_info h configPath true) as [ci|] eqn:Hci;
    (destruct caOk;
     [| try (destruct (Content ci) as [content|];
             [destruct (kubeletExtractCAFileFromConf h content)
                as [extracted [err|]]|])]);
    cbn [bind ret zap_Error zap_Debug emit fst snd];
    match goal with
    | |- context [negb (String.eqb ?ca "")] =>
        destruct (Hca ca) as (eca & Hcarun & Hreca);
        destruct (String.eqb ca ""); cbn [negb]; [|rewrite Hcarun];
        destruct (stat_info h kubeConfigPath false);
        try destruct (stat_info h ca false)
    end;
    cbn [bind ret zap_Error zap_Debug emit fst snd];
    eexists; (split; [reflexivity|]); (split; [reflexivity|]);
    rewrite ?app_nil_r; apply Hfin;
    repeat first [ assumption | apply reads_no_file_nil | apply reads_no_file_log
                 | apply reads_no_file_app
                 | match goal with
                   | |- reads_no_file (?x :: ?l) =>
                       change (x :: l) with ([x] ++ l)
                   end ].
Qed.

(** X9: for a located kubelet [SenseKubeletInfo] returns its report with a
    nil error, and the only file whose content it reads is the config file
    (the value of [--config], or the default): the kubeconfig file, the
    client-CA file and the service files are captured without content. *)
Theorem SenseKubeletInfo_reads_config_only :
  forall (h : Host) (proc : ProcessDetails),
    LocateKubeletProcess h = (Some proc, None) ->
    exists info evs,
      SenseKubeletInfo h = Returned (Some info, None) evs
      /\ reads_only (hostPath h (kubelet_configPath proc)) evs
      /\ KubeletInfo_ConfigFile info = stat_info h (kubelet_configPath proc) true
      /\ (forall fi, KubeletInfo_KubeConfigFile info = Some fi -> Content fi = None)
      /\ (forall fi, KubeletInfo_ClientCAFile info = Some fi -> Content fi = None)
      /\ (forall l fi, ServiceFiles info = Some l -> In fi l -> Content fi = None)
      /\ KubeletInfo_CmdLine info = RawCmd proc.
Proof.
  intros h proc Hloc.
  destruct (SenseKubeletInfo_value h Hloc) as (sf & e0 & evs & Hsf & Hrun & Hreads).
  exists (kubelet_report h proc sf), evs.
  split; [exact Hrun|]. split; [exact Hreads|]. split; [reflexivity|].
  cbn [kubelet_report KubeletInfo_KubeConfigFile KubeletInfo_ClientCAFile ServiceFiles
       KubeletInfo_CmdLine].
  split; [intros fi Hfi; now apply stat_info_no_content in Hfi|].
  split.
  { intros fi Hfi. destruct (String.eqb (kubelet_caFilePath h proc) ""); [discriminate|].
    now apply stat_info_no_content in Hfi. }
  split; [|reflexivity].
  intros l fi Hl Hin. subst sf.
  destruct (getKubeletServiceFiles h (PID proc)) as [files [e|]] eqn:Hfiles.
  - unfold makeKubeletServiceFilesInfo in Hsf. rewrite Hfiles in Hsf. discriminate.
  - destruct (makeKubeletServiceFilesInfo_value h (PID proc) Hfiles) as (evs' & Hrun' & _).
    rewrite Hrun' in Hsf. injection Hsf as Hsf _.
    assert (Hl : l = flat_map (fun f => option_list (stat_info h f false)) files)
      by (destruct (flat_map _ files); [discriminate | now injection Hsf]).
    subst l. apply in_flat_map in Hin. destruct Hin as (f & _ & Hfi).
    destruct (stat_info h f false) as [fi'|] eqn:Hstat; [|destruct Hfi].
    destruct Hfi as [<-|[]]. now apply stat_info_no_content in Hstat.
Qed.

Lemma SenseKubeletInfo_reads_config_only_witness :
  exists info evs,
    SenseKubeletInfo full_kubelet_host = Returned (Some info, None) evs
    /\ reads_only (hostPath full_kubelet_host (kubelet_configPath full_kubelet_proc)) evs
    /\ KubeletInfo_ConfigFile info
       = stat_info full_kubelet_host (kubelet_configPath full_kubelet_proc) true
    /\ (forall fi, KubeletInfo_KubeConfigFile info = Some fi -> Content fi = None)
    /\ (forall fi, KubeletInfo_ClientCAFile info = Some fi -> Content fi = None)
    /\ (forall l fi, ServiceFiles info = Some l -> In fi l -> Content fi = None)
    /\ KubeletInfo_CmdLine info = RawCmd full_kubelet_proc.
Proof.
  apply (@SenseKubeletInfo_reads_config_only full_kubelet_host full_kubelet_proc).
  reflexivity.
Defined.

(** X10: the client-CA evidence of [SenseKubeletInfo].  A
    [--client-ca-file] argument decides alone, also with an empty value (no
    evidence then): the config document is not consulted.  Without the
    argument the path is the [clientCAFile] that is extracted from the
    content of the captured config file; if no config content was captured,
    or the extraction fails, there is no client-CA evidence. *)
Theorem SenseKubeletInfo_client_ca :
  forall (h : Host) (proc : ProcessDetails),
    LocateKubeletProcess h = (Some proc, None) ->
    exists info evs,
      SenseKubeletInfo h = Returned (Some info, None) evs
      /\ (forall v,
             GetArg proc kubeletClientCAArgName = (v, true) ->
             KubeletInfo_ClientCAFile info
             = if String.eqb v "" then None else stat_info h v false)
      /\ (snd (GetArg proc kubeletClientCAArgName) = false ->
          forall ci content extracted,
            KubeletInfo_ConfigFile info = Some ci ->
            Content ci = Some content ->
            kubeletExtractCAFileFromConf h content = (extracted, None) ->
            KubeletInfo_ClientCAFile info
            = if String.eqb extracted "" then None else stat_info h extracted false)
      /\ (snd (GetArg proc kubeletClientCAArgName) = false ->
          (KubeletInfo_ConfigFile info = None
           \/ (exists ci, KubeletInfo_ConfigFile info = Some ci /\ Content ci = None)
           \/ (exists ci content,
                  KubeletInfo_ConfigFile info = Some ci /\ Content ci = Some content
                  /\ snd (kubeletExtractCAFileFromConf h content) <> None)) ->
          KubeletInfo_ClientCAFile info = None).
Proof.
  intros h proc Hloc.
  destruct (SenseKubeletInfo_value h Hloc) as (sf & e0 & evs & _ & Hrun & _).
  exists (kubelet_report h proc sf), evs. split; [exact Hrun|].
  cbn [kubelet_report KubeletInfo_ClientCAFile KubeletInfo_ConfigFile].
  unfold kubelet_caFilePath.
  destruct (GetArg proc kubeletClientCAArgName) as [caArg caOk] eqn:Hget.
  cbn [snd]. split; [|split].
  - intros v [= <- ->]. reflexivity.
  - intros -> ci content extracted Hci Hcontent Hext.
    now rewrite Hci, Hcontent, Hext.
  - intros -> Hcases.
    assert (HcaArg : caArg = "") by (now apply GetArg_tokens_not_found in Hget).
    subst caArg.
    destruct Hcases as [Hnone | [(ci & Hci & Hcontent) | (ci & content & Hci & Hcontent & Herr)]].
    + now rewrite Hnone.
    + now rewrite Hci, Hcontent.
    + rewrite Hci, Hcontent.
      destruct (kubeletExtractCAFileFromConf h content) as [extracted [err|]];
        [reflexivity | now contradiction Herr].
Qed.

Lemma SenseKubeletInfo_client_ca_witness :
  exists info evs,
    SenseKubeletInfo full_kubelet_host = Returned (Some info, None) evs
    /\ KubeletInfo_ClientCAFile info
       = stat_info full_kubelet_host "/etc/kubernetes/pki/ca.crt" false.
Proof.
  destruct (@SenseKubeletInfo_client_ca full_kubelet_host full_kubelet_proc eq_refl)
    as (info & evs & Hrun & Harg & _).
  exists info, evs. split; [exact Hrun|].
  apply (Harg "/etc/kubernetes/pki/ca.crt"). reflexivity.
Defined.

(** ** The kubelet sensor: [SenseKubeletConfigurations] *)

Lemma error_eqb_refl (e : error) : error_eqb e e = true.
Proof.
  induction e as [msg | msg w IH | m f c]; cbn [error_eqb].
  - apply String.eqb_refl.
  - now rewrite String.eqb_refl, IH.
  - now rewrite !String.eqb_refl, Z.eqb_refl.
Qed.

Lemma LocateKubeletProcess_cases h :
  (exists proc, LocateKubeletProcess h = (Some proc, None))
  \/ LocateKubeletProcess h = (None, Some ErrProcessNotFound).
Proof.
  unfold LocateKubeletProcess.
  destruct (LocateProcessByExecSuffix_cases h kubeletProcessSuffix)
    as [(p & Hp & _) | Hnone]; [left; now exists p | now right].
Qed.

(** X11: on a host without a kubelet process both kubelet sensors touch
    nothing and return the locate error wrapped, so that the cause can be
    tested with [errors.Is]; [SenseKubeletInfo] still returns a record, the
    zero value, and [SenseKubeletConfigurations] a nil content. *)
Theorem kubelet_sensors_without_kubelet :
  forall h : Host,
    find (fun p => strings.HasSuffix (ExecutablePath p) kubeletProcessSuffix)
         (processTable h) = None ->
    let err := fmt_Errorf_w "failed to LocateKubeletProcess" ErrProcessNotFound in
    SenseKubeletInfo h = Returned (Some KubeletInfo_zero, Some err) []
    /\ SenseKubeletConfigurations h = Returned (None, Some err) []
    /\ errors_Is err ErrProcessNotFound = true
    /\ error_eqb err ErrProcessNotFound = false.
Proof.
  intros h Hfind err.
  assert (Hloc : LocateKubeletProcess h = (None, Some ErrProcessNotFound)).
  { unfold LocateKubeletProcess, LocateProcessByExecSuffix. now rewrite Hfind. }
  unfold SenseKubeletInfo, SenseKubeletConfigurations. rewrite Hloc.
  repeat split.
Qed.

Lemma kubelet_sensors_without_kubelet_witness :
  SenseKubeletInfo worker_host
  = Returned (Some KubeletInfo_zero,
              Some (fmt_Errorf_w "failed to LocateKubeletProcess" ErrProcessNotFound)) [].
Proof.
  apply (@kubelet_sensors_without_kubelet worker_host). reflexivity.
Defined.

(** X12: the two kubelet sensors agree on the config content: whenever
    [SenseKubeletConfigurations] returns a content with a nil error,
    [SenseKubeletInfo] captures a config file with that content, at the
    path the [--config] argument gives. *)
Theorem kubelet_sensors_agree_on_config :
  forall (h : Host) (content : string) (evs : list Event),
    SenseKubeletConfigurations h = Returned (Some content, None) evs ->
    exists proc configPath info evs' ci,
      LocateKubeletProcess h = (Some proc, None)
      /\ GetArg proc kubeletConfigArgName = (configPath, true)
      /\ configPath <> ""
      /\ SenseKubeletInfo h = Returned (Some info, None) evs'
      /\ KubeletInfo_ConfigFile info = Some ci
      /\ Path ci = configPath
      /\ Content ci = Some content.
Proof.
  intros h content evs Hrun.
  unfold SenseKubeletConfigurations in Hrun.
  destruct (LocateKubeletProcess_cases h) as [(proc & Hloc) | Hloc];
    rewrite Hloc in Hrun; [|discriminate].
  cbn [deref bind ret] in Hrun.
  destruct (GetArg proc kubeletConfigArgName) as [loc ok] eqn:Hget.
  destruct ok; cbn [negb orb] in Hrun; [|discriminate].
  destruct (String.eqb_spec loc "") as [->|Hne]; [discriminate|].
  unfold ReadKubeletConfig, ReadFileOnHostFileSystem, os_ReadFile in Hrun.
  cbn [bind zap_Debug emit ret] in Hrun.
  destruct (SenseKubeletInfo_value h Hloc) as (sf & e0 & evs' & _ & Hinfo & _).
  assert (Hcfg : kubelet_configPath proc = loc)
    by (unfold kubelet_configPath; now rewrite Hget).
  assert (Hci : stat_info h loc true
                = option_map (node_FileInfo loc true) (fs_at h (hostPath h loc)))
    by reflexivity.
  destruct (fs_at h (hostPath h loc)) as [[u g m [|] c | u g m ok entries]|];
    cbn in Hrun; try discriminate.
  injection Hrun as -> _.
  exists proc, loc, (kubelet_report h proc sf), evs'.
  eexists.
  split; [exact Hloc|]. split; [exact Hget|]. split; [exact Hne|].
  split; [exact Hinfo|].
  cbn [kubelet_report KubeletInfo_ConfigFile]. rewrite Hcfg, Hci.
  cbn [option_map node_FileInfo andb Path Content]. repeat split.
Qed.

Lemma kubelet_sensors_agree_on_config_witness :
  exists proc configPath info evs' ci,
    LocateKubeletProcess full_kubelet_host = (Some proc, None)
    /\ GetArg proc kubeletConfigArgName = (configPath, true)
    /\ configPath <> ""
    /\ SenseKubeletInfo full_kubelet_host = Returned (Some info, None) evs'
    /\ KubeletInfo_ConfigFile info = Some ci
    /\ Path ci = configPath
    /\ Content ci = Some "kind: KubeletConfiguration".
Proof.
  apply (@kubelet_sensors_agree_on_config full_kubelet_host "kind: KubeletConfiguration"
           [Log DebugLevel "config loaction";
            ReadFileAt "/host/var/lib/kubelet/config.yaml";
            Log DebugLevel "raw content"]).
  reflexivity.
Defined.

(** X13: the two kubelet sensors part on a kubelet without a [--config]
    argument: [SenseKubeletConfigurations] returns an error and touches no
    file, while [SenseKubeletInfo] falls back to the default path
    [/var/lib/kubelet/config.yaml] and captures it with its content.  An
    empty value of the argument is an error for the former as well. *)
Theorem kubelet_sensors_part_without_config :
  forall (h : Host) (proc : ProcessDetails),
    LocateKubeletProcess h = (Some proc, None) ->
    (snd (GetArg proc kubeletConfigArgName) = false
     \/ fst (GetArg proc kubeletConfigArgName) = "" ->
     exists e, SenseKubeletConfigurations h = Returned (None, Some e) [])
    /\ (snd (GetArg proc kubeletConfigArgName) = false ->
        exists info evs,
          SenseKubeletInfo h = Returned (Some info, None) evs
          /\ KubeletInfo_ConfigFile info = stat_info h kubeletConfigDefaultPath true).
Proof.
  intros h proc Hloc. split.
  - intros Hcase. unfold SenseKubeletConfigurations. rewrite Hloc.
    cbn [deref bind ret].
    destruct (GetArg proc kubeletConfigArgName) as [loc ok]. cbn [fst snd] in Hcase.
    destruct Hcase as [-> | ->]; [now eexists|].
    destruct ok; now eexists.
  - intros Hno.
    destruct (SenseKubeletInfo_value h Hloc) as (sf & e0 & evs & _ & Hrun & _).
    exists (kubelet_report h proc sf), evs. split; [exact Hrun|].
    cbn [kubelet_report KubeletInfo_ConfigFile]. unfold kubelet_configPath.
    now rewrite Hno.
Qed.

Lemma kubelet_sensors_part_without_config_witness :
  exists e, SenseKubeletConfigurations plain_kubelet_host = Returned (None, Some e) [].
Proof.
  apply (proj1 (@kubelet_sensors_part_without_config plain_kubelet_host plain_kubelet_proc
                  eq_refl)).
  left. reflexivity.
Defined.

Example SenseKubeletInfo_default_config :
  exists info evs,
    SenseKubeletInfo plain_kubelet_host = Returned (Some info, None) evs
    /\ option_map Content (KubeletInfo_ConfigFile info)
       = Some (Some "kind: KubeletConfiguration").
Proof. do 2 eexists. split; reflexivity. Qed.

(** ** The control-plane sensor: the report *)

Lemma files_within_no_content (filter : option (string -> bool)) (levels : nat) :
  forall dir n,
    Forall (fun fi => Content fi = None) (files_within filter levels dir n).
Proof.
  induction levels as [|l IH]; intros dir n; cbn [files_within]; [constructor|].
  destruct n as [u g m ok c | u g m [|] entries]; try constructor.
  induction entries as [|[name child] rest IHrest]; cbn [flat_map fst snd];
    [constructor|].
  apply Forall_app. split; [|exact IHrest].
  destruct child as [u' g' m' ok' c' | u' g' m' ok' sub].
  - destruct (keep filter name); repeat constructor.
  - apply IH.
Qed.

Lemma makeHostDirFilesInfo_no_content h filter dir currentDepth :
  exists r evs,
    makeHostDirFilesInfo h true filter dir currentDepth = Returned r evs
    /\ forall l, fst r = Some l -> Forall (fun fi => Content fi = None) l.
Proof.
  unfold makeHostDirFilesInfo.
  destruct (fs_at h (hostPath h dir)) as [n|].
  - destruct (@walk_node_spec h filter _ n dir currentDepth eq_refl) as (evs & Hrun & _).
    rewrite Hrun. do 2 eexists. split; [reflexivity|].
    intros l Hl. unfold walk_value in Hl.
    destruct (maxRecursionDepth h - currentDepth)%nat as [|lv] eqn:Hlv.
    + injection Hl as <-. constructor.
    + destruct n as [u g m ok c | u g m [|] entries]; try discriminate.
      injection Hl as <-.
      apply (files_within_no_content filter (S lv) dir (FsDir u g m true entries)).
  - cbn. do 2 eexists. split; [reflexivity|]. discriminate.
Qed.

Lemma getEtcdDataDir_value h :
  exists r, getEtcdDataDir h = Returned r [].
Proof.
  unfold getEtcdDataDir.
  destruct (LocateProcessByExecSuffix_cases h etcdExe) as [(p & -> & _) | ->].
  - cbn [deref bind ret].
    destruct (GetArg p etcdDataDirArg) as [dataDir ok].
    destruct (negb ok || String.eqb dataDir ""); now eexists.
  - now eexists.
Qed.

(** The record the collection assembles when an API-server process is
    located. *)
Lemma collectControlPlaneInfo_value h p :
  LocateProcessByExecSuffix h apiServerExe = (Some p, None) ->
  exists enc pki cni evs,
    collectControlPlaneInfo h
    = Returned
        {| APIServerInfo :=
             Some {| EncryptionProviderConfigFile := enc;
                     ApiServerInfo_K8sProcessInfo :=
                       k8s_process_info h (Some p) apiServerSpecsPath "" |};
           ControllerManagerInfo :=
             k8s_process_info h (fst (LocateProcessByExecSuffix h controllerManagerExe))
               controllerManagerSpecsPath controllerManagerConfigPath;
           SchedulerInfo :=
             k8s_process_info h (fst (LocateProcessByExecSuffix h schedulerExe))
               schedulerSpecsPath schedulerConfigPath;
           EtcdConfigFile := stat_info h etcdConfigPath false;
           EtcdDataDir := etcd_data_dir_info h;
           AdminConfigFile := stat_info h adminConfigPath false;
           PKIDIr := stat_info h pkiDir false;
           PKIFiles := pki;
           CNIConfigFiles := fst cni;
           CNIConfigPath := snd cni |} evs
    /\ (forall l, pki = Some l -> Forall (fun fi => Content fi = None) l)
    /\ (forall l, fst cni = Some l -> Forall (fun fi => Content fi = None) l)
    /\ (getContainerRuntimeCNIPaths h = None -> cni = (None, ""))
    /\ (forall paths, getContainerRuntimeCNIPaths h = Some paths ->
                      snd cni = Conf_dir paths).
Proof.
  intros Hloc. unfold collectControlPlaneInfo, k8s_process_info, etcd_data_dir_info.
  rewrite Hloc.
  destruct (LocateProcessByExecSuffix h controllerManagerExe) as [cm e2].
  destruct (LocateProcessByExecSuffix h schedulerExe) as [sc e3].
  cbn [fst log_if_err].
  destruct (makeProcessInfoVerbose_value h (Some p) apiServerSpecsPath "" "" "")
    as (ev1 & ->).
  destruct (returns_makeAPIserverEncryptionProviderConfigFile h p) as (enc & ev2 & ->).
  destruct (makeProcessInfoVerbose_value h cm controllerManagerSpecsPath
              controllerManagerConfigPath "" "") as (ev3 & ->).
  destruct (makeProcessInfoVerbose_value h sc schedulerSpecsPath
              schedulerConfigPath "" "") as (ev4 & ->).
  destruct (makeHostFileInfoVerbose_value h etcdConfigPath false) as (ev5 & -> & _).
  destruct (makeHostFileInfoVerbose_value h adminConfigPath false) as (ev6 & -> & _).
  destruct (makeHostFileInfoVerbose_value h pkiDir false) as (ev7 & -> & _).
  destruct (makeHostDirFilesInfo_no_content h None pkiDir 0) as (pki & ev8 & -> & Hpki).
  destruct (getEtcdDataDir_value h) as ([dataDir etcdErr] & ->).
  exists enc, (fst pki).
  destruct e2, e3; cbn [log_if_err zap_Error emit ret bind fst snd];
    destruct (snd pki); cbn [log_if_err zap_Error emit ret bind fst snd];
    (destruct etcdErr as [ee|];
     [| destruct (makeHostFileInfoVerbose_value h dataDir false) as (ev9 & -> & _)]);
    cbn [log_if_err zap_Error emit ret bind fst snd];
    (destruct (getContainerRuntimeCNIPaths h) as [paths|];
     [ destruct (makeHostDirFilesInfo_no_content h None (Conf_dir paths) 0)
         as ([files err] & ev & -> & Hfiles);
       cbn [bind fst snd] in *;
       destruct err;
       [| destruct (List.length match files with Some l => l | None => [] end =? 0)%nat]
     | ]);
    cbn [log_if_err zap_Error zap_Debug emit ret bind fst snd];
    (eexists (_, _); eexists; split; [reflexivity|]); cbn [fst snd];
    (split; [exact Hpki|]);
    (split; [first [exact Hfiles | discriminate]|]);
    (split; [first [discriminate | reflexivity]|]);
    first [discriminate | now intros ? [= <-]].
Qed.

(** X14: on every host without a process whose executable ends with
    [/kube-apiserver], [SenseControlPlaneInfo] panics (the nil handle is
    dereferenced in [makeAPIserverEncryptionProviderConfigFile]); by then it
    has inspected the API-server specs file and nothing else, and it has
    read no file. *)
Theorem SenseControlPlaneInfo_needs_api_server :
  forall h : Host,
    find (fun p => strings.HasSuffix (ExecutablePath p) apiServerExe) (processTable h)
    = None ->
    exists evs,
      SenseControlPlaneInfo h = Panicked evs
      /\ stat_paths evs = [hostPath h apiServerSpecsPath]
      /\ reads_no_file evs.
Proof.
  intros h Hfind.
  unfold SenseControlPlaneInfo, collectControlPlaneInfo.
  unfold LocateProcessByExecSuffix at 1. rewrite Hfind.
  destruct (LocateProcessByExecSuffix h controllerManagerExe) as [cm e2].
  destruct (LocateProcessByExecSuffix h schedulerExe) as [sc e3].
  unfold makeProcessInfoVerbose. cbn [for_range].
  replace (String.eqb apiServerSpecsPath "") with false by reflexivity.
  cbn [String.eqb].
  destruct (makeHostFileInfoVerbose_trace h apiServerSpecsPath) as (ev & -> & Hs & Hr).
  cbn [bind ret]. rewrite makeAPIserverEncryptionProviderConfigFile_nil.
  destruct e2, e3;
    match goal with
    | |- context [if ?b then ret None else _] => destruct b
    end;
    cbn [log_if_err zap_Error emit ret bind app];
    eexists; (split; [reflexivity|]);
    rewrite ?app_nil_r;
    (split;
     [ cbn [stat_paths flat_map app]; fold (stat_paths ev); now rewrite Hs
     | repeat match goal with
              | |- reads_no_file (?x :: ?l) =>
                  change (x :: l) with ([x] ++ l); apply reads_no_file_app;
                  [apply reads_no_file_log|]
              end; exact Hr ]).
Qed.

Lemma SenseControlPlaneInfo_needs_api_server_witness :
  exists evs,
    SenseControlPlaneInfo etcd_host = Panicked evs
    /\ stat_paths evs = [hostPath etcd_host apiServerSpecsPath]
    /\ reads_no_file evs.
Proof.
  apply (@SenseControlPlaneInfo_needs_api_server etcd_host). reflexivity.
Defined.

Lemma SenseControlPlaneInfo_of_collect h info api evs :
  collectControlPlaneInfo h = Returned info evs ->
  APIServerInfo info = Some api ->
  SenseControlPlaneInfo h
  = Returned (if no_evidence api info then (None, Some ErrNotControlPlane)
              else (Some info, None)) evs.
Proof.
  intros Hrun Hapi. unfold SenseControlPlaneInfo. rewrite Hrun. cbn [bind].
  rewrite Hapi. cbn [deref ret bind].
  destruct (no_evidence api info); cbn; now rewrite !app_nil_r.
Qed.

Lemma k8s_process_info_cmdline h p specsPath configPath :
  RawCmd p <> "" ->
  exists r,
    k8s_process_info h (Some p) specsPath configPath = Some r /\ CmdLine r = RawCmd p.
Proof.
  intros Hcmd. unfold k8s_process_info.
  set (info := assembled_K8sProcessInfo h (Some p) specsPath configPath "" "").
  destruct (K8sProcessInfo_is_zero info) eqn:Hz.
  - apply K8sProcessInfo_is_zero_iff in Hz.
    exfalso. apply Hcmd. change (CmdLine info = ""). now rewrite Hz.
  - now exists info.
Qed.

(** X15: with a located API-server process [SenseControlPlaneInfo] does not
    panic, and the record it returns holds the inspections of the fixed
    paths: the etcd manifest, the admin kubeconfig and the PKI directory,
    and, as the etcd data dir, the directory that the [--data-dir] argument
    of the etcd process names; the API-server info is never nil.  If the
    command line of the API server is not empty, the category error is
    never returned, whatever is missing on the host. *)
Theorem SenseControlPlaneInfo_with_api_server :
  forall (h : Host) (p : ProcessDetails),
    LocateProcessByExecSuffix h apiServerExe = (Some p, None) ->
    exists r evs,
      SenseControlPlaneInfo h = Returned r evs
      /\ (r = (None, Some ErrNotControlPlane) \/ exists info, r = (Some info, None))
      /\ (forall info,
             r = (Some info, None) ->
             (exists api,
                 APIServerInfo info = Some api
                 /\ ApiServerInfo_K8sProcessInfo api
                    = k8s_process_info h (Some p) apiServerSpecsPath "")
             /\ EtcdConfigFile info = stat_info h etcdConfigPath false
             /\ AdminConfigFile info = stat_info h adminConfigPath false
             /\ PKIDIr info = stat_info h pkiDir false
             /\ EtcdDataDir info = etcd_data_dir_info h)
      /\ (RawCmd p <> "" -> exists info, r = (Some info, None)).
Proof.
  intros h p Hloc.
  destruct (collectControlPlaneInfo_value h Hloc)
    as (enc & pki & cni & evs & Hrun & _).
  rewrite (SenseControlPlaneInfo_of_collect _ Hrun eq_refl).
  do 2 eexists. split; [reflexivity|].
  match goal with
  | |- context [no_evidence ?a ?i] => destruct (no_evidence a i) eqn:Hev
  end.
  - split; [now left|]. split; [discriminate|].
    intros Hcmd. exfalso.
    destruct (@k8s_process_info_cmdline h p apiServerSpecsPath "" Hcmd) as (r & Hr & _).
    unfold no_evidence in Hev.
    cbn [ApiServerInfo_K8sProcessInfo] in Hev. rewrite Hr in Hev. discriminate.
  - split; [right; now eexists|]. split; [|intros _; now eexists].
    intros info [= <-].
    cbn [APIServerInfo EtcdConfigFile AdminConfigFile PKIDIr EtcdDataDir].
    split; [eexists; split; reflexivity|]. repeat split.
Qed.

Lemma SenseControlPlaneInfo_with_api_server_witness :
  exists info evs,
    SenseControlPlaneInfo control_plane_host = Returned (Some info, None) evs.
Proof.
  destruct (@SenseControlPlaneInfo_with_api_server control_plane_host apiserver_proc eq_refl)
    as (r & evs & Hrun & _ & _ & Hcmd).
  destruct (Hcmd ltac:(discriminate)) as (info & ->).
  now exists info, evs.
Defined.

Example SenseControlPlaneInfo_control_plane :
  exists info evs,
    SenseControlPlaneInfo control_plane_host = Returned (Some info, None) evs
    /\ option_map Path (EtcdDataDir info) = Some "/var/lib/etcd"
    /\ option_map (map Path) (PKIFiles info)
       = Some ["/etc/kubernetes/pki/ca.crt"; "/etc/kubernetes/pki/etcd/ca.crt"].
Proof. do 2 eexists. repeat split; reflexivity. Qed.

Lemma inspect_if_named_no_content h p fi :
  inspect_if_named h p = Some fi -> Content fi = None.
Proof.
  unfold inspect_if_named. destruct (String.eqb p ""); [discriminate|].
  apply stat_info_no_content.
Qed.

Lemma k8s_process_info_no_content h p specsPath configPath :
  Forall (fun fi => Content fi = None)
         (K8sProcessInfo_files (k8s_process_info h p specsPath configPath)).
Proof.
  unfold k8s_process_info.
  destruct (K8sProcessInfo_is_zero _); [constructor|].
  cbn [K8sProcessInfo_files assembled_K8sProcessInfo SpecsFile ConfigFile
       KubeConfigFile ClientCAFile].
  repeat (apply Forall_app; split);
    match goal with
    | |- Forall _ (option_list (inspect_if_named ?h ?q)) =>
        destruct (inspect_if_named h q) eqn:E; cbn [option_list];
        [constructor; [now apply inspect_if_named_no_content in E | constructor]
        | constructor]
    end.
Qed.

Lemma option_list_no_content h p :
  Forall (fun fi => Content fi = None) (option_list (stat_info h p false)).
Proof.
  destruct (stat_info h p false) eqn:E; cbn [option_list]; [|constructor].
  constructor; [now apply stat_info_no_content in E | constructor].
Qed.

(** X16: whatever record [SenseControlPlaneInfo] returns, none of the file
    infos it took from the host file system carries a content: the specs
    and config files of the three processes, the etcd manifest and data
    dir, the admin kubeconfig, the PKI directory and the PKI and CNI files
    are captured by metadata only. *)
Theorem SenseControlPlaneInfo_captures_no_content :
  forall (h : Host) (info : ControlPlaneInfo) (err : option error) (evs : list Event),
    SenseControlPlaneInfo h = Returned (Some info, err) evs ->
    err = None
    /\ Forall (fun fi => Content fi = None) (ControlPlaneInfo_host_files info).
Proof.
  intros h info err evs Hrun.
  destruct (LocateProcessByExecSuffix_cases h apiServerExe) as [(p & Hloc & _) | Hloc].
  - destruct (collectControlPlaneInfo_value h Hloc)
      as (enc & pki & cni & evs' & Hcollect & Hpki & Hcni & _).
    rewrite (SenseControlPlaneInfo_of_collect _ Hcollect eq_refl) in Hrun.
    match type of Hrun with
    | context [no_evidence ?a ?i] => destruct (no_evidence a i)
    end; [discriminate|].
    injection Hrun as <- <- _. split; [reflexivity|].
    unfold ControlPlaneInfo_host_files.
    cbn [APIServerInfo ApiServerInfo_K8sProcessInfo ControllerManagerInfo SchedulerInfo
         EtcdConfigFile EtcdDataDir AdminConfigFile PKIDIr PKIFiles CNIConfigFiles].
    repeat (apply Forall_app; split);
      try apply k8s_process_info_no_content;
      try apply option_list_no_content.
    + unfold etcd_data_dir_info.
      destruct (getEtcdDataDir h) as [[dataDir [e|]] ev|ev]; try constructor.
      apply option_list_no_content.
    + destruct pki as [l|]; [now apply Hpki | constructor].
    + destruct (fst cni) as [l|] eqn:E; [now apply Hcni | constructor].
  - exfalso.
    assert (Hp : panics (SenseControlPlaneInfo h)).
    { apply SenseControlPlaneInfo_panics.
      unfold LocateProcessByExecSuffix in Hloc.
      destruct (find _ (processTable h)); [discriminate | reflexivity]. }
    destruct Hp as (ev & Hp). rewrite Hp in Hrun. discriminate.
Qed.

Lemma SenseControlPlaneInfo_captures_no_content_witness :
  exists info evs,
    SenseControlPlaneInfo control_plane_host = Returned (Some info, None) evs
    /\ Forall (fun fi => Content fi = None) (ControlPlaneInfo_host_files info).
Proof.
  do 2 eexists. split; [reflexivity|].
  apply (proj2 (@SenseControlPlaneInfo_captures_no_content control_plane_host _ None _
                  eq_refl)).
Defined.


(** ** [kubeletExtractCAFileFromConf] *)



Lemma makeKubeletServiceFilesInfo_result_witness :
  exists r evs,
    makeKubeletServiceFilesInfo service_kubelet_host 702 = Returned r evs
    /\ r <> Some [].
Proof.
  destruct (makeKubeletServiceFilesInfo_result service_kubelet_host 702)
    as (r & evs & Hrun & Hne & _).
  now exists r, evs.
Defined.

(** ** [SenseKernelVersion] *)


(** ** Entries of a directory stay below the host root *)

Lemma prefix_app_r (p x s : string) :
  String.prefix p x = true -> String.prefix p (x ++ s) = true.
Proof.
  revert x. induction p as [|c p IH]; intros x H; [now destruct (x ++ s)%string|].
  destruct x as [|d x]; [discriminate|].
  cbn [String.prefix String.append] in *.
  destruct (ascii_dec c d); [now apply IH | discriminate].
Qed.

(** X19: an entry of a directory never escapes the host root: if the
    logical path of the directory is clean and ends with a name of two
    bytes or more, and the directory resolves below the host root, then the
    path [path.Join] builds for an entry with a real name (no slash, not
    empty, not [.] or [..]) resolves to the resolved directory, a slash and
    the name, which is below the host root as well. *)
Theorem Resolve_entry_stays_below :
  forall hostRoot d v name : string,
    let dir := (d ++ String path.slash v)%string in
    real_name v = true -> (2 <= String.length v)%nat ->
    path.Clean dir = dir ->
    real_name name = true ->
    is_descendant hostRoot (Resolve hostRoot dir) = true ->
    Resolve hostRoot (path.Join [dir; name])
    = (Resolve hostRoot dir ++ String path.slash name)%string
    /\ is_descendant hostRoot (Resolve hostRoot (path.Join [dir; name])) = true.
Proof.
  intros hostRoot d v name dir Hv Hlen Hclean Hname Hbelow.
  pose proof (@Resolve_child hostRoot d v name Hv Hlen Hclean Hname) as Hchild.
  fold dir in Hchild. split; [exact Hchild|].
  rewrite Hchild. unfold is_descendant in *.
  set (r := path.Clean hostRoot) in *.
  set (x := Resolve hostRoot dir) in *.
  apply orb_true_iff. right.
  apply orb_true_iff in Hbelow. unfold strings.HasPrefix in *.
  destruct Hbelow as [Heq | Hpre].
  - apply String.eqb_eq in Heq. rewrite Heq.
    destruct (String.eqb_spec r "/") as [Hr|Hr].
    + rewrite Hr. reflexivity.
    + change (String path.slash name) with ("/" ++ name)%string.
      rewrite <- string_app_assoc. apply prefix_app.
  - now apply prefix_app_r.
Qed.

Lemma Resolve_entry_stays_below_witness :
  Resolve "/host" (path.Join ["/etc/kubernetes/pki"; "ca.crt"])
  = (Resolve "/host" "/etc/kubernetes/pki" ++ String path.slash "ca.crt")%string
  /\ is_descendant "/host" (Resolve "/host" (path.Join ["/etc/kubernetes/pki"; "ca.crt"]))
     = true.
Proof.
  apply (@Resolve_entry_stays_below "/host" "/etc/kubernetes" "pki" "ca.crt");
    first [reflexivity | cbn; lia].
Defined.
